(** * Stride: the recommendation pipeline of the shoe matcher

    A shallow embedding of the matching algorithm, the review ingestion
    task, the fit extractor and the weight optimizer that
    [backend/docs/SCRAPER_DATA_SCHEMA.md] gives as Python, with the properties
    the specification states about them. Beside them, from the same
    document, the reasoning text, the review scraper and the matching
    query, and from the front end the quiz store
    ([frontend/src/store/quiz-store.ts]) and the option handler of the quiz
    page, with properties read off the code.

    Conventions of the embedding.
    - A Python [float] is an exact rational ([Q]); equality of scores is
      [Qeq] ([==]), the comparison [x == 0] of the code is [Qeq_bool]. A
      literal with a zero fraction is written as the integer (1 for the
      code's [1.0], 0 for [0.0]). The rounding, the overflow and the
      underflow of binary64 are not part of the embedding. A property that
      rests on a strict comparison of scores or on a product of multipliers
      that is not zero is therefore stated within explicit bounds (at most
      13 stated conditions, weights of the clamp range over the factor names
      of [DEFAULT_WEIGHTS], factors within [0,1]), clear of the underflow of
      the product and of the saturation of the clamp.
    - A nullable column or attribute is an [option]; Python's [x or d] is
      written out with its truthiness rule ([None], the empty string, the
      empty list and the number zero are falsy).
    - A [dict] with string keys is an association list in insertion order,
      read with the default-taking [dict_get] like [dict.get].
    - An exception is [None] in an [option] result.
    - A function the document calls without giving its body is a field of
      the interface [Factors] (scoring) or [Oracle] (optimizer). *)

From Stdlib Require Import List String Ascii Bool Arith ZArith QArith Qminmax.
From Stdlib Require Import Qabs Qpower Lia Lqa Permutation Sorted.
From Stdlib Require OrderedTypeEx.
Import ListNotations.

Local Open Scope string_scope.
Local Open Scope Q_scope.

(** ** Python idioms *)

Module Py.

(** [s or d] on an optional string: [None] and [''] are falsy. *)
Definition or_str (s : option string) (d : string) : string :=
  match s with
  | Some EmptyString => d
  | Some v => v
  | None => d
  end.

(** [x or d] on an optional float: [None] and [0] are falsy. *)
Definition or_float (x : option Q) (d : Q) : Q :=
  match x with
  | Some v => if Qeq_bool v 0 then d else v
  | None => d
  end.

(** [l or []] on an optional list. *)
Definition or_list {A : Type} (l : option (list A)) : list A :=
  match l with
  | Some v => v
  | None => []
  end.

(** [x in l] for strings. *)
Fixpoint str_in (x : string) (l : list string) : bool :=
  match l with
  | [] => false
  | y :: l' => if String.eqb x y then true else str_in x l'
  end.

(** A [dict] keyed by strings, in insertion order. *)
Definition dict (V : Type) : Type := list (string * V).

(** [d.get(key, default)] *)
Fixpoint dict_get {V : Type} (d : dict V) (key : string) (default : V) : V :=
  match d with
  | [] => default
  | (k, v) :: d' => if String.eqb key k then v else dict_get d' key default
  end.

Definition keys {V : Type} (d : dict V) : list string := map fst d.

Definition values {V : Type} (d : dict V) : list V := map snd d.

(** [key in d] *)
Definition has_key {V : Type} (d : dict V) (key : string) : bool :=
  str_in key (keys d).

(** [d[key] = v]: overwrite in place, or append a new key. *)
Fixpoint dict_set {V : Type} (d : dict V) (key : string) (v : V) : dict V :=
  match d with
  | [] => [(key, v)]
  | (k, v0) :: d' =>
      if String.eqb key k then (k, v) :: d' else (k, v0) :: dict_set d' key v
  end.

(** [sum(l)] over floats. *)
Definition sum (l : list Q) : Q := fold_right Qplus 0 l.

End Py.

(** ** Data model *)

(** The columns of [shoe_fit_profiles] that scoring reads. *)
Record FitProfile := {
  width_runs : option string;
  works_well_for : option (list string);
  avoid_if : option (list string);
  overall_sentiment : option Q
}.

(** [running_shoe_attributes]: the column the pronation table reads. *)
Record RunningAttributes := {
  subcategory : option string
}.

Record Shoe := {
  shoe_id : string;
  category : string;
  fit_profile : FitProfile;
  running_attributes : RunningAttributes;
  current_price_min : option Q
}.

Record FootProfile := {
  width : option string;
  arch : option string;
  pronation : option string
}.

(** An entry of [previous_shoes]: [{ shoe_id, liked, notes }]. *)
Record PreviousShoe := {
  prev_shoe_id : string;
  liked : bool;
  notes : string
}.

Record UserProfile := {
  up_category : string;
  foot : FootProfile;
  foot_issues : list string;
  preferences : list (string * string);
  priorities : list string;
  distances : list string;
  position : option string;
  budget : option string;
  previous_shoes : option (list PreviousShoe)
}.

(** [Weights]: factor name to weight. *)
Definition Weights : Type := Py.dict Q.

(** The scoring functions [calculate_match_score] calls and the document
    leaves without a body. *)
Class Factors := {
  calculate_terrain_match : Shoe -> UserProfile -> Q;
  calculate_arch_match : Shoe -> FootProfile -> Q;
  calculate_cushion_match : Shoe -> list (string * string) -> Q;
  calculate_priority_match : Shoe -> list string -> Q;
  calculate_distance_match : Shoe -> list string -> Q;
  calculate_position_match : Shoe -> option string -> Q;
  calculate_budget_match : option Q -> option string -> Q;
  calculate_history_match : Shoe -> list PreviousShoe -> Q
}.

(** ** Scoring engine *)

Module Scoring.

Import Py.

Definition DEFAULT_WEIGHTS : Weights :=
  [ ("terrain", 2); ("pronation", 1.8); ("issues", 1.8);
    ("width", 1.5); ("arch", 1.3); ("priorities", 1.3); ("cushion", 1.2);
    ("distance", 1); ("position", 1); ("budget", 1);
    ("history", 0.8); ("sentiment", 0.5) ].

(** A [dict] keyed by a pair of strings, as [width_map] and [support_map]. *)
Fixpoint pair_get (m : list ((string * string) * Q)) (k : string * string)
    (default : Q) : Q :=
  match m with
  | [] => default
  | ((a, b), v) :: m' =>
      if String.eqb (fst k) a && String.eqb (snd k) b then v
      else pair_get m' k default
  end.

Definition width_map : list ((string * string) * Q) :=
  [ (("narrow", "narrow"), 1);
    (("narrow", "standard"), 0.5);
    (("narrow", "wide"), 0.1);
    (("true", "narrow"), 0.7);
    (("true", "standard"), 1);
    (("true", "wide"), 0.7);
    (("wide", "narrow"), 0.1);
    (("wide", "standard"), 0.6);
    (("wide", "wide"), 1) ].

Definition calculate_width_match (fit : FitProfile) (ft : FootProfile) : Q :=
  let shoe_width := or_str (width_runs fit) "true" in
  let user_width := or_str (width ft) "standard" in
  pair_get width_map (shoe_width, user_width) 0.5.

Definition support_map : list ((string * string) * Q) :=
  [ (("neutral", "neutral"), 1);
    (("neutral", "overpronation"), 0.3);
    (("neutral", "underpronation"), 0.8);
    (("stability", "neutral"), 0.7);
    (("stability", "overpronation"), 1);
    (("stability", "underpronation"), 0.4);
    (("motion_control", "neutral"), 0.4);
    (("motion_control", "overpronation"), 0.9);
    (("motion_control", "underpronation"), 0.2) ].

(** [support_map.get((attrs.subcategory, user_pronation), 0.5)]: a [None]
    subcategory is a key of no entry. *)
Definition calculate_pronation_match (shoe : Shoe) (ft : FootProfile) : Q :=
  if negb (String.eqb (category shoe) "running") then 1
  else
    let attrs := running_attributes shoe in
    let user_pronation := or_str (pronation ft) "neutral" in
    match subcategory attrs with
    | Some sub => pair_get support_map (sub, user_pronation) 0.5
    | None => 0.5
    end.

(** The body of the loop of [calculate_issue_compatibility]. *)
Definition issue_step (fit : FitProfile) (score : Q) (issue : string) : Q :=
  if str_in issue (or_list (avoid_if fit)) then score * 0.1
  else if str_in issue (or_list (works_well_for fit)) then score * 1.2
  else score.

(** Over the rationals the running product never reaches 0; in binary64 it
    does so only after more than 300 [avoid_if] hits. The properties that need
    a product above 0 are stated for at most 13 issues. *)
Definition calculate_issue_compatibility (shoe : Shoe) (issues : list string)
    : Q :=
  match issues with
  | [] => 1
  | _ =>
      let fit := fit_profile shoe in
      let score := fold_left (issue_step fit) issues 1 in
      Qmin score 1
  end.

(** The [scores] dict of [calculate_match_score] as it stands when the
    weighted combination is taken, given the terrain score already
    computed; ['history'] is a key only when [previous_shoes] is truthy. *)
Definition build_scores `{Factors} (shoe : Shoe) (user_profile : UserProfile)
    (terrain_score : Q) : dict Q :=
  ([ ("terrain", terrain_score);
    ("width", calculate_width_match (fit_profile shoe) (foot user_profile));
    ("arch", calculate_arch_match shoe (foot user_profile));
    ("pronation", calculate_pronation_match shoe (foot user_profile));
    ("issues", calculate_issue_compatibility shoe (foot_issues user_profile));
    ("cushion", calculate_cushion_match shoe (preferences user_profile));
    ("priorities", calculate_priority_match shoe (priorities user_profile));
    ("distance", calculate_distance_match shoe (distances user_profile));
    ("position", calculate_position_match shoe (position user_profile));
    ("budget",
      calculate_budget_match (current_price_min shoe) (budget user_profile)) ]
  ++ match previous_shoes user_profile with
     | Some (p :: ps) => [ ("history", calculate_history_match shoe (p :: ps)) ]
     | _ => []
     end
  ++ [ ("sentiment", or_float (overall_sentiment (fit_profile shoe)) 0.5) ]
  )%list.

(** [sum(scores.get(key, 0.5) * weights.get(key, 1) for key in weights.keys())] *)
Definition weighted_sum (scores : dict Q) (weights : Weights) : Q :=
  sum (map (fun key => dict_get scores key 0.5 * dict_get weights key 1)
           (keys weights)).

(** The weighted combination; [None] is the [ZeroDivisionError] of a
    weight vector that sums to zero. The sum and the test are those of
    the rationals: weights of mixed sign whose rational sum is zero can
    have a binary64 sum beside zero, so the properties of the quotient
    take weights that are positive, or a sum that is not zero. *)
Definition weighted_combination (scores : dict Q) (weights : Weights)
    : option Q :=
  let total := sum (values weights) in
  if Qeq_bool total 0 then None
  else Some (weighted_sum scores weights / total).

Definition calculate_match_score `{Factors} (shoe : Shoe)
    (user_profile : UserProfile) (weights : Weights) : option Q :=
  if negb (String.eqb (category shoe) (up_category user_profile)) then Some 0
  else
    let terrain_score := calculate_terrain_match shoe user_profile in
    if Qeq_bool terrain_score 0 then Some 0
    else weighted_combination (build_scores shoe user_profile terrain_score)
                              weights.

(** *** Ranked output *)

(** An entry of a MatchResult: product reference, 1-based rank, score (the
    per-factor breakdown and the reasoning text are left out). *)
Record MatchEntry := {
  entry_shoe : Shoe;
  entry_rank : nat;
  entry_score : Q
}.

(** Modelled from the spec: the two hard filters of the Scoring Engine
    (section 4.1), for which [calculate_match_score] returns 0 and whose
    use on a candidate list the document does not give: the category must
    be the requested one and the terrain score must not be exactly 0. *)
Definition survives `{Factors} (user_profile : UserProfile) (shoe : Shoe)
    : bool :=
  String.eqb (category shoe) (up_category user_profile)
  && negb (Qeq_bool (calculate_terrain_match shoe user_profile) 0).

(** Modelled from the spec: the scores of the surviving candidates, by
    [calculate_match_score]; an exception of one scoring fails the lot. *)
Fixpoint score_all `{Factors} (user_profile : UserProfile) (weights : Weights)
    (shoes : list Shoe) : option (list (Shoe * Q)) :=
  match shoes with
  | [] => Some []
  | shoe :: rest =>
      match calculate_match_score shoe user_profile weights,
            score_all user_profile weights rest with
      | Some q, Some scored => Some ((shoe, q) :: scored)
      | _, _ => None
      end
  end.

(** Modelled from the spec: the sentiment key of the tie-break, the
    quality signal as [calculate_match_score] reads it. *)
Definition sentiment_signal (shoe : Shoe) : Q :=
  or_float (overall_sentiment (fit_profile shoe)) 0.5.

(** Modelled from the spec: the strict rank order of section 4.1, by
    score (higher first), ties broken by sentiment (higher first) and then
    by product identifier. [ranks_before a b] says that [a] is placed no
    later than [b]. *)
Definition ranks_before (a b : Shoe * Q) : bool :=
  match snd b ?= snd a with
  | Lt => true
  | Gt => false
  | Eq =>
      match sentiment_signal (fst b) ?= sentiment_signal (fst a) with
      | Lt => true
      | Gt => false
      | Eq => String.leb (shoe_id (fst a)) (shoe_id (fst b))
      end
  end.

(** Modelled from the spec: the ranked order as an insertion sort by
    [ranks_before]. *)
Fixpoint insert_ranked (x : Shoe * Q) (l : list (Shoe * Q))
    : list (Shoe * Q) :=
  match l with
  | [] => [x]
  | y :: l' => if ranks_before x y then x :: y :: l' else y :: insert_ranked x l'
  end.

(** Modelled from the spec: the scored candidates in ranked order. *)
Definition sort_ranked (l : list (Shoe * Q)) : list (Shoe * Q) :=
  fold_right insert_ranked [] l.

(** Modelled from the spec: the ranks [n], [n+1], ... down a sorted list. *)
Fixpoint assign_ranks (n : nat) (l : list (Shoe * Q)) : list MatchEntry :=
  match l with
  | [] => []
  | (shoe, q) :: l' =>
      {| entry_shoe := shoe; entry_rank := n; entry_score := q |}
      :: assign_ranks (S n) l'
  end.

(** Modelled from the spec: [score(userProfile, candidateProducts,
    fitProfiles, weights) -> rankedList] of section 4.1, the assembly of
    the ranked list the document does not give: hard filters first, then
    [calculate_match_score] for each surviving candidate, then the strict
    order and the ranks 1..N. Each shoe carries its fit profile, as in
    [calculate_match_score]. The document's overview speaks of the top 5
    matches; the ranked list of the spec has ranks 1..N and is not cut
    here. *)
Definition score `{Factors} (user_profile : UserProfile)
    (candidates : list Shoe) (weights : Weights) : option (list MatchEntry) :=
  option_map (fun scored => assign_ranks 1 (sort_ranked scored))
    (score_all user_profile weights
       (filter (survives user_profile) candidates)).

End Scoring.

(** ** Review ingestion *)

(** [RawReview] of [scrapers/base.py]. *)
Record RawReview := {
  source : string;
  source_review_id : string;
  source_url : string;
  reviewer_name : option string;
  rating : option Q;
  title : option string;
  body : string;
  review_date : option string;
  reviewer_foot_width : option string;
  reviewer_arch_type : option string;
  reviewer_size_purchased : option string;
  reviewer_typical_size : option string
}.

(** A row of the table [shoe_reviews]: the shoe and the scraped review (the
    generated [id] and [scraped_at] columns are left out). *)
Record ReviewRow := {
  row_shoe_id : string;
  row_review : RawReview
}.

#[local] Unset Elimination Schemes.
(** A parsed JSON document, as [json.loads] returns it. *)
Inductive json :=
| JNull
| JBool (b : bool)
| JNumber (q : Q)
| JString (s : string)
| JArray (l : list json)
| JObject (d : list (string * json)).
#[local] Set Elimination Schemes.

(** A row of [shoe_fit_profiles] as the extraction task writes it: the
    extracted document and the [needs_review] column. *)
Record StoredFitProfile := {
  stored_fields : Py.dict json;
  stored_needs_review : bool
}.

(** The persisted state the background tasks work on. *)
Record Store := {
  shoe_reviews : list ReviewRow;
  shoe_fit_profiles : Py.dict StoredFitProfile;
  extraction_queue : list string
}.

Module Ingestion.

Import Py.

(** The triple of [UNIQUE(shoe_id, source, source_review_id)]. *)
Definition review_key (row : ReviewRow) : string * string * string :=
  (row_shoe_id row, source (row_review row), source_review_id (row_review row)).

(** Equality of two triples. *)
Definition key_eqb (k1 k2 : string * string * string) : bool :=
  let '(a1, b1, c1) := k1 in
  let '(a2, b2, c2) := k2 in
  String.eqb a1 a2 && String.eqb b1 b2 && String.eqb c1 c2.

(** The constraint [UNIQUE(shoe_id, source, source_review_id)] on a table. *)
Definition UNIQUE (table : list ReviewRow) : Prop :=
  NoDup (map review_key table).

(** Modelled from the spec: the insert of one parsed review, which the
    document calls through [store_reviews] and does not give. Section 4.2:
    the record is checked against the (product, source, source-native-id)
    uniqueness invariant before storage, and a violating record is silently
    skipped. *)
Definition store_review (table : list ReviewRow) (shoe : string)
    (review : RawReview) : list ReviewRow :=
  let row := {| row_shoe_id := shoe; row_review := review |} in
  if existsb (fun r => key_eqb (review_key r) (review_key row)) table
  then table
  else (table ++ [row])%list.

(** Modelled from the spec: [store_reviews(shoe_id, reviews)], one
    [store_review] per review in order. *)
Definition store_reviews (table : list ReviewRow) (shoe : string)
    (reviews : list RawReview) : list ReviewRow :=
  fold_left (fun t review => store_review t shoe review) reviews table.

(** What one source gives in a run of the task: the reviews of
    [scraper.scrape_shoe(shoe)], or an exception. *)
Definition SourceOutcome : Type := option (list RawReview).

(** The loop over the sources of [scrape_shoe_reviews]: the table and
    [all_reviews] after it. A source that raises is logged and skipped. *)
Fixpoint scrape_sources (table : list ReviewRow) (all_reviews : list RawReview)
    (shoe : string) (outcomes : list SourceOutcome)
    : list ReviewRow * list RawReview :=
  match outcomes with
  | [] => (table, all_reviews)
  | Some reviews :: rest =>
      scrape_sources (store_reviews table shoe reviews)
                     (all_reviews ++ reviews)%list shoe rest
  | None :: rest => scrape_sources table all_reviews shoe rest
  end.

(** The task [scrape_shoe_reviews(shoe_id, sources)], the scrapers' results
    given: it stores the reviews of each source, triggers the extraction
    once and reports the number of reviews scraped. *)
Definition scrape_shoe_reviews (store : Store) (shoe : string)
    (outcomes : list SourceOutcome) : Store * nat :=
  let '(table, all_reviews) :=
    scrape_sources (shoe_reviews store) [] shoe outcomes in
  ({| shoe_reviews := table;
      shoe_fit_profiles := shoe_fit_profiles store;
      extraction_queue := (extraction_queue store ++ [shoe])%list |},
   List.length all_reviews).

End Ingestion.

(** ** Fit extraction *)

Module Extraction.

Import Py.

Definition EXTRACTION_MODEL : string := "claude-sonnet-4-20250514".

(** [ReviewFitExtractor.extract_fit_profile(reviews)], the reply of the
    extraction call given as [response]: [None] when its text is not JSON
    ([json.loads] raises). The result is the parsed document with
    [review_count] and [extraction_model] set; a document that is not an
    object cannot take the two item assignments (a [TypeError]), which is
    [None] as well. Nothing of the document is checked. *)
Definition ReviewFitExtractor_extract_fit_profile (reviews : list RawReview)
    (response : option json) : option (dict json) :=
  match response with
  | Some (JObject result) =>
      let result :=
        dict_set result "review_count"
                 (JNumber (inject_Z (Z.of_nat (List.length reviews)))) in
      let result :=
        dict_set result "extraction_model" (JString EXTRACTION_MODEL) in
      Some result
  | _ => None
  end.

End Extraction.

(** ** Weight optimizer *)

Record TrainingExample := {
  quiz_answers : Py.dict json;
  example_category : string;
  ideal_ranking : list string;
  original_ranking : list string;
  example_source : string;
  confidence : Q
}.

(** The functions the optimizer calls and the document leaves without a
    body. *)
Class Oracle := {
  get_shoe : string -> Shoe;
  calculate_factor_scores : Shoe -> Py.dict json -> Py.dict Q;
  generate_ranking : Py.dict json -> Weights -> list string;
  calculate_ndcg : list string -> list string -> Q
}.

Module Optimizer.

Import Py.

(** The state of a [WeightOptimizer]. *)
Record WeightOptimizer := {
  weights : Weights;
  learning_rate : Q
}.

(** [WeightOptimizer(current_weights)]: works on a copy of the weights. *)
Definition init (current_weights : Weights) : WeightOptimizer :=
  {| weights := current_weights; learning_rate := 0.1 |}.

(** [l.index(x) if x in l else 999] *)
Fixpoint index_or_999 (x : string) (l : list string) : Z :=
  match l with
  | [] => 999
  | y :: l' =>
      if String.eqb x y then 0
      else if str_in x l' then (1 + index_or_999 x l')%Z else 999
  end.

(** [adjustments[factor].append(delta)] on a [defaultdict(list)]. *)
Definition append_adjustment (adjustments : dict (list Q)) (factor : string)
    (delta : Q) : dict (list Q) :=
  dict_set adjustments factor (dict_get adjustments factor [] ++ [delta])%list.

(** The loop over [factor_scores.items()]. *)
Definition note_factors (adjustments : dict (list Q)) (factor_scores : dict Q)
    (rank_delta : Z) : dict (list Q) :=
  fold_left
    (fun adj fs =>
       if Qlt_le_dec 0.7 (snd fs)
       then append_adjustment adj (fst fs) (inject_Z rank_delta * 0.1)
       else adj)
    factor_scores adjustments.

(** The loop over [enumerate(ideal)], from position [i]. *)
Fixpoint note_ideal `{Oracle} (adjustments : dict (list Q))
    (example : TrainingExample) (i : Z) (ideal : list string)
    : dict (list Q) :=
  match ideal with
  | [] => adjustments
  | shoe :: rest =>
      let original_rank := index_or_999 shoe (original_ranking example) in
      let rank_delta := (original_rank - i)%Z in
      let adjustments :=
        if (0 <? rank_delta)%Z
        then note_factors adjustments
               (calculate_factor_scores (get_shoe shoe) (quiz_answers example))
               rank_delta
        else adjustments in
      note_ideal adjustments example (i + 1)%Z rest
  end.

(** The loop over the examples. *)
Definition collect_adjustments `{Oracle} (examples : list TrainingExample)
    : dict (list Q) :=
  fold_left
    (fun adj example =>
       if String.eqb (example_source example) "admin_correction"
       then note_ideal adj example 0%Z (ideal_ranking example)
       else adj)
    examples [].

(** [max(0.1, min(3, w))] *)
Definition clamp (w : Q) : Q := Qmax 0.1 (Qmin 3 w).

(** The loop that applies the adjustments; [None] is the [KeyError] of a
    factor that is no key of the weights. *)
Fixpoint apply_adjustments (opt : WeightOptimizer)
    (adjustments : list (string * list Q)) : option WeightOptimizer :=
  match adjustments with
  | [] => Some opt
  | (factor, deltas) :: rest =>
      let avg_delta := sum deltas / inject_Z (Z.of_nat (List.length deltas)) in
      if has_key (weights opt) factor then
        let w := dict_get (weights opt) factor 0 + avg_delta * learning_rate opt in
        apply_adjustments
          {| weights := dict_set (weights opt) factor (clamp w);
             learning_rate := learning_rate opt |}
          rest
      else None
  end.

(** [update_from_examples(examples)]: the optimizer after the update, whose
    weights are the value returned. *)
Definition update_from_examples `{Oracle} (opt : WeightOptimizer)
    (examples : list TrainingExample) : option WeightOptimizer :=
  apply_adjustments opt (collect_adjustments examples).

(** [evaluate(held_out)]: the mean of the ranking metric over the held-out
    examples; [None] is the [ZeroDivisionError] of an empty list. The mean
    is the rational one, which binary64 rounds. *)
Definition evaluate `{Oracle} (opt : WeightOptimizer)
    (held_out : list TrainingExample) : option Q :=
  let scores :=
    map (fun example =>
           calculate_ndcg (generate_ranking (quiz_answers example) (weights opt))
                          (ideal_ranking example))
        held_out in
  match held_out with
  | [] => None
  | _ => Some (sum scores / inject_Z (Z.of_nat (List.length scores)))
  end.

(** The versioned weight vectors: the active one, the earlier ones kept
    for rollback and the proposals that were turned down. *)
Record WeightStore := {
  active : Weights;
  history : list Weights;
  rejected : list Weights
}.

(** Modelled from the spec: the promotion step of section 4.5, which the
    document only draws ("Evaluate on held-out set, update if improved").
    The proposed vector and the active one are evaluated on the held-out
    set; the proposal becomes active only if its score is not below the
    active vector's score by more than [tolerance]. Otherwise, and when an
    evaluation fails, the active vector stays and the proposal is logged as
    rejected. *)
Definition promote `{Oracle} (tolerance : Q) (store : WeightStore)
    (proposed : Weights) (held_out : list TrainingExample) : WeightStore :=
  let reject :=
    {| active := active store;
       history := history store;
       rejected := proposed :: rejected store |} in
  match evaluate (init proposed) held_out,
        evaluate (init (active store)) held_out with
  | Some proposed_score, Some active_score =>
      if Qle_bool (active_score - tolerance) proposed_score
      then {| active := proposed;
              history := active store :: history store;
              rejected := rejected store |}
      else reject
  | _, _ => reject
  end.

(** Modelled from the spec: one run of the optimizer, a proposal from the
    accumulated examples followed by the promotion step. *)
Definition optimizer_run `{Oracle} (tolerance : Q) (store : WeightStore)
    (examples held_out : list TrainingExample) : WeightStore :=
  match update_from_examples (init (active store)) examples with
  | Some opt => promote tolerance store (weights opt) held_out
  | None => store
  end.

(** Modelled from the spec: the periodic runs, one per batch of examples
    with its held-out set. *)
Definition optimizer_runs `{Oracle} (tolerance : Q) (store : WeightStore)
    (batches : list (list TrainingExample * list TrainingExample))
    : WeightStore :=
  fold_left (fun s batch => optimizer_run tolerance s (fst batch) (snd batch))
            batches store.

End Optimizer.

(** ** Reasoning text *)

Module Reasoning.

Import Py.

(** An optional string inside an f-string: [None] prints as ['None']. *)
Definition fstr (s : option string) : string :=
  match s with
  | Some v => v
  | None => "None"
  end.

(** [x == 'literal'] on an optional string. *)
Definition opt_eqb (s : option string) (literal : string) : bool :=
  match s with
  | Some v => String.eqb v literal
  | None => false
  end.

(** The list [reasons] of [generate_reasoning] before the texts are
    combined. *)
Definition reasons (shoe : Shoe) (user_profile : UserProfile)
    (scores : dict Q) : list string :=
  ((if Qlt_le_dec 0.8 (dict_get scores "pronation" 0)
    then if opt_eqb (pronation (foot user_profile)) "overpronation"
         then ["provides the stability support you need for overpronation"]
         else []
    else [])
   ++ (if Qlt_le_dec 0.8 (dict_get scores "cushion" 0)
       then if str_in "cushion" (priorities user_profile)
            then ["offers the high cushioning you prioritized"]
            else []
       else [])
   ++ (if Qlt_le_dec 0.9 (dict_get scores "width" 0)
       then [("fits well for " ++ fstr (width (foot user_profile))
              ++ " feet")%string]
       else [])
   ++ (if String.eqb (category shoe) "running"
       then if str_in "marathon" (distances user_profile)
            then ["built for long-distance comfort"]
            else []
       else []))%list.

Definition generate_reasoning (shoe : Shoe) (user_profile : UserProfile)
    (scores : dict Q) : string :=
  match reasons shoe user_profile scores with
  | r0 :: r1 :: _ => "This shoe " ++ r0 ++ " and " ++ r1 ++ "."
  | [r0] => "This shoe " ++ r0 ++ "."
  | [] => "A solid all-around choice for your profile."
  end.

End Reasoning.

(** ** Review scraper *)

Module Scraper.

Import Py Ingestion.

(** What the site answers for the reviews page number [page]: [None] when
    the request raises, else the review elements of the page, each already
    through [_parse_review_element] ([None] for an element whose parsing
    raised and was logged). *)
Definition PageFetch : Type := nat -> option (list (option RawReview)).

(** The inner loop of [scrape_reviews]: the reviews an element list adds. *)
Fixpoint parsed (elems : list (option RawReview)) : list RawReview :=
  match elems with
  | [] => []
  | Some review :: rest => review :: parsed rest
  | None :: rest => parsed rest
  end.

(** The [while True] loop of [RunningWarehouseScraper.scrape_reviews] from
    page [page] on, with [remaining] pages left before [page > 50] breaks
    it; [None] is an exception of a request. *)
Fixpoint scrape_pages (fetch : PageFetch) (page remaining : nat)
    (reviews : list RawReview) : option (list RawReview) :=
  match remaining with
  | O => Some reviews
  | S remaining' =>
      match fetch page with
      | None => None
      | Some [] => Some reviews
      | Some elems =>
          scrape_pages fetch (S page) remaining' (reviews ++ parsed elems)%list
      end
  end.

Definition scrape_reviews (fetch : PageFetch) : option (list RawReview) :=
  scrape_pages fetch 1 50 [].

(** [BaseScraper.scrape_shoe]: [url] is what [get_product_url] gave
    ([None] when it raised, [Some None] for no product page), [site] the
    reviews pages of a product URL. An empty URL is falsy. *)
Definition scrape_shoe (url : option (option string))
    (site : string -> PageFetch) : SourceOutcome :=
  match url with
  | None => None
  | Some None => Some []
  | Some (Some EmptyString) => Some []
  | Some (Some product_url) => scrape_reviews (site product_url)
  end.

End Scraper.

(** ** Matching query *)

Module MatchingQuery.

(** The row of the common table expression [user_prefs]. *)
Record UserPrefs := {
  target_cushion : Q;
  target_stability : Q;
  target_weight : Q;
  foot_width : string;
  prefs_budget : Q
}.

(** The values the query writes into [user_prefs]. *)
Definition user_prefs : UserPrefs :=
  {| target_cushion := 0.7;
     target_stability := 0.3;
     target_weight := 0.5;
     foot_width := "wide";
     prefs_budget := 150 |}.

(** What the query reads of one joined row of [shoes], [shoe_profiles] and
    [review_summaries]; a nullable column, a missing JSON key and the
    missing side of the left join are [None]. *)
Record JoinedRow := {
  is_active : bool;
  msrp_usd : option Q;
  cushion_normalized : option Q;
  stability_normalized : option Q;
  width_forefoot : option Z;
  suitable : option bool
}.

(** The select expression [match_score]; [None] is SQL's NULL, which the
    arithmetic on a NULL column gives. *)
Definition match_score (up : UserPrefs) (row : JoinedRow) : option Q :=
  match cushion_normalized row, stability_normalized row with
  | Some cushion, Some stability =>
      Some (1 - Qabs (cushion - target_cushion up) * 0.3
            + 1 - Qabs (stability - target_stability up) * 0.2
            + match width_forefoot row with
              | Some w => if (0 <=? w)%Z then 0.2 else 0
              | None => 0
              end
            + match msrp_usd row with
              | Some price => if Qle_bool price (prefs_budget up) then 0.1 else 0
              | None => 0
              end
            + match suitable row with
              | Some true => 1 * 0.2
              | Some false => 0 * 0.2
              | None => 0
              end)
  | _, _ => None
  end.

(** The [WHERE] clause: a NULL price does not pass. *)
Definition selected (up : UserPrefs) (row : JoinedRow) : bool :=
  is_active row
  && match msrp_usd row with
     | Some price => Qle_bool price (prefs_budget up * 1.2)
     | None => false
     end.

End MatchingQuery.

(** ** Quiz store *)

Module QuizStore.

Import Py.

(** [PreviousShoe] of the store. *)
Record PreviousShoe := {
  shoe_ref : option string;
  shoe_name : option string;
  shoe_liked : bool;
  shoe_notes : option string
}.

(** What the store and the quiz page read of a [Question]. *)
Record Question := {
  question_id : string;
  question_type : string;
  max_select : option nat
}.

Record QuizState := {
  sessionId : option string;
  sessionToken : option string;
  quiz_category : option string;
  questions : list Question;
  currentQuestionIndex : Z;
  answers : dict json;
  previousShoes : list PreviousShoe;
  isLoading : bool;
  error : option string;
  isComplete : bool;
  recommendationId : option string;
  recommendations : list json
}.

Definition initialState : QuizState :=
  {| sessionId := None;
     sessionToken := None;
     quiz_category := None;
     questions := [];
     currentQuestionIndex := 0;
     answers := [];
     previousShoes := [];
     isLoading := false;
     error := None;
     isComplete := false;
     recommendationId := None;
     recommendations := [] |}.

(** [!sessionId]: [null] and the empty string are falsy. *)
Definition no_session (s : QuizState) : bool :=
  match sessionId s with
  | None => true
  | Some EmptyString => true
  | Some _ => false
  end.

(** [QuizStartResponse] *)
Record StartResponse := {
  session_id : string;
  session_token : string;
  response_questions : list Question
}.

(** [RecommendResponse], as far as the store keeps it. *)
Record RecommendResponse := {
  recommendation_id : string;
  shoes : list json
}.

(** What an awaited call of the API gives: its response, or the value
    thrown, of which the store reads the message when it is an [Error]. *)
Inductive Awaited (A : Type) :=
| Resolved (response : A)
| Rejected (message : option string).
Arguments Resolved {A} response.
Arguments Rejected {A} message.

(** [error instanceof Error ? error.message : fallback] *)
Definition message_or (message : option string) (fallback : string) : string :=
  match message with
  | Some m => m
  | None => fallback
  end.

(** The state once [startQuiz(category)] has run to its end. *)
Definition startQuiz (category : string) (call : Awaited StartResponse)
    (s : QuizState) : QuizState :=
  match call with
  | Resolved response =>
      {| sessionId := Some (session_id response);
         sessionToken := Some (session_token response);
         quiz_category := Some category;
         questions := response_questions response;
         currentQuestionIndex := 0;
         answers := [];
         previousShoes := previousShoes s;
         isLoading := false;
         error := None;
         isComplete := false;
         recommendationId := recommendationId s;
         recommendations := recommendations s |}
  | Rejected message =>
      {| sessionId := sessionId s;
         sessionToken := sessionToken s;
         quiz_category := quiz_category s;
         questions := questions s;
         currentQuestionIndex := currentQuestionIndex s;
         answers := answers s;
         previousShoes := previousShoes s;
         isLoading := false;
         error := Some (message_or message "Failed to start quiz");
         isComplete := isComplete s;
         recommendationId := recommendationId s;
         recommendations := recommendations s |}
  end.

(** The state once [submitAnswer(questionId, answer)] has run to its end;
    the response is read for [is_complete]. *)
Definition submitAnswer (questionId : string) (answer : json)
    (call : Awaited bool) (s : QuizState) : QuizState :=
  if no_session s then
    {| sessionId := sessionId s;
       sessionToken := sessionToken s;
       quiz_category := quiz_category s;
       questions := questions s;
       currentQuestionIndex := currentQuestionIndex s;
       answers := answers s;
       previousShoes := previousShoes s;
       isLoading := isLoading s;
       error := Some "No active quiz session";
       isComplete := isComplete s;
       recommendationId := recommendationId s;
       recommendations := recommendations s |}
  else
    match call with
    | Resolved is_complete =>
        {| sessionId := sessionId s;
           sessionToken := sessionToken s;
           quiz_category := quiz_category s;
           questions := questions s;
           currentQuestionIndex := (currentQuestionIndex s + 1)%Z;
           answers := dict_set (answers s) questionId answer;
           previousShoes := previousShoes s;
           isLoading := false;
           error := None;
           isComplete := is_complete;
           recommendationId := recommendationId s;
           recommendations := recommendations s |}
    | Rejected message =>
        {| sessionId := sessionId s;
           sessionToken := sessionToken s;
           quiz_category := quiz_category s;
           questions := questions s;
           currentQuestionIndex := currentQuestionIndex s;
           answers := answers s;
           previousShoes := previousShoes s;
           isLoading := false;
           error := Some (message_or message "Failed to submit answer");
           isComplete := isComplete s;
           recommendationId := recommendationId s;
           recommendations := recommendations s |}
    end.

Definition goBack (s : QuizState) : QuizState :=
  if (0 <? currentQuestionIndex s)%Z then
    {| sessionId := sessionId s;
       sessionToken := sessionToken s;
       quiz_category := quiz_category s;
       questions := questions s;
       currentQuestionIndex := (currentQuestionIndex s - 1)%Z;
       answers := answers s;
       previousShoes := previousShoes s;
       isLoading := isLoading s;
       error := error s;
       isComplete := isComplete s;
       recommendationId := recommendationId s;
       recommendations := recommendations s |}
  else s.

(** [s] with another list of previous shoes. *)
Definition set_previousShoes (s : QuizState) (l : list PreviousShoe)
    : QuizState :=
  {| sessionId := sessionId s;
     sessionToken := sessionToken s;
     quiz_category := quiz_category s;
     questions := questions s;
     currentQuestionIndex := currentQuestionIndex s;
     answers := answers s;
     previousShoes := l;
     isLoading := isLoading s;
     error := error s;
     isComplete := isComplete s;
     recommendationId := recommendationId s;
     recommendations := recommendations s |}.

Definition addPreviousShoe (shoe : PreviousShoe) (s : QuizState) : QuizState :=
  set_previousShoes s (previousShoes s ++ [shoe])%list.

(** [l.filter((_, i) => i !== index)], the elements counted from [i]. *)
Fixpoint filter_index {A : Type} (l : list A) (i index : Z) : list A :=
  match l with
  | [] => []
  | x :: l' =>
      if (i =? index)%Z then filter_index l' (i + 1)%Z index
      else x :: filter_index l' (i + 1)%Z index
  end.

Definition removePreviousShoe (index : Z) (s : QuizState) : QuizState :=
  set_previousShoes s (filter_index (previousShoes s) 0 index).

(** The second argument of [api.getRecommendations]:
    [previousShoes.length > 0 ? previousShoes : undefined]. *)
Definition previous_shoes_sent (s : QuizState) : option (list PreviousShoe) :=
  match previousShoes s with
  | [] => None
  | l => Some l
  end.

(** The state once [getRecommendations()] has run to its end. *)
Definition getRecommendations (call : Awaited RecommendResponse)
    (s : QuizState) : QuizState :=
  if no_session s then
    {| sessionId := sessionId s;
       sessionToken := sessionToken s;
       quiz_category := quiz_category s;
       questions := questions s;
       currentQuestionIndex := currentQuestionIndex s;
       answers := answers s;
       previousShoes := previousShoes s;
       isLoading := isLoading s;
       error := Some "No active quiz session";
       isComplete := isComplete s;
       recommendationId := recommendationId s;
       recommendations := recommendations s |}
  else
    match call with
    | Resolved response =>
        {| sessionId := sessionId s;
           sessionToken := sessionToken s;
           quiz_category := quiz_category s;
           questions := questions s;
           currentQuestionIndex := currentQuestionIndex s;
           answers := answers s;
           previousShoes := previousShoes s;
           isLoading := false;
           error := None;
           isComplete := isComplete s;
           recommendationId := Some (recommendation_id response);
           recommendations := shoes response |}
    | Rejected message =>
        {| sessionId := sessionId s;
           sessionToken := sessionToken s;
           quiz_category := quiz_category s;
           questions := questions s;
           currentQuestionIndex := currentQuestionIndex s;
           answers := answers s;
           previousShoes := previousShoes s;
           isLoading := false;
           error := Some (message_or message "Failed to get recommendations");
           isComplete := isComplete s;
           recommendationId := recommendationId s;
           recommendations := recommendations s |}
    end.

Definition reset (s : QuizState) : QuizState := initialState.

(** *** The asynchronous actions in their two halves

    [startQuiz], [submitAnswer] and [getRecommendations] are [async]: the
    body runs up to its [await], other actions of the store may run while
    the call of the API is in flight, and the rest of the body runs when
    the call has ended, on the store as it is then. *)

(** What an action keeps in its local variables across its [await]:
    [submitAnswer] the [answers] and the [currentQuestionIndex] that
    [get()] gave before the call. *)
Inductive Pending :=
| PendingStart (category : string)
| PendingSubmit (questionId : string) (answer : json)
                (snapshot_answers : dict json) (snapshot_index : Z)
| PendingRecommend.

(** [set({ isLoading: true, error: null })] *)
Definition set_loading (s : QuizState) : QuizState :=
  {| sessionId := sessionId s;
     sessionToken := sessionToken s;
     quiz_category := quiz_category s;
     questions := questions s;
     currentQuestionIndex := currentQuestionIndex s;
     answers := answers s;
     previousShoes := previousShoes s;
     isLoading := true;
     error := None;
     isComplete := isComplete s;
     recommendationId := recommendationId s;
     recommendations := recommendations s |}.

(** [set({ error: 'No active quiz session' })] *)
Definition set_no_session (s : QuizState) : QuizState :=
  {| sessionId := sessionId s;
     sessionToken := sessionToken s;
     quiz_category := quiz_category s;
     questions := questions s;
     currentQuestionIndex := currentQuestionIndex s;
     answers := answers s;
     previousShoes := previousShoes s;
     isLoading := isLoading s;
     error := Some "No active quiz session";
     isComplete := isComplete s;
     recommendationId := recommendationId s;
     recommendations := recommendations s |}.

(** [set({ isLoading: false, error: ... })] of the [catch] blocks. *)
Definition set_failed (s : QuizState) (message : string) : QuizState :=
  {| sessionId := sessionId s;
     sessionToken := sessionToken s;
     quiz_category := quiz_category s;
     questions := questions s;
     currentQuestionIndex := currentQuestionIndex s;
     answers := answers s;
     previousShoes := previousShoes s;
     isLoading := false;
     error := Some message;
     isComplete := isComplete s;
     recommendationId := recommendationId s;
     recommendations := recommendations s |}.

(** [startQuiz(category)] up to its [await]. *)
Definition startQuiz_begin (category : string) (s : QuizState)
    : QuizState * option Pending :=
  (set_loading s, Some (PendingStart category)).

(** [startQuiz(category)] from its [await] on. *)
Definition startQuiz_end (category : string) (call : Awaited StartResponse)
    (s : QuizState) : QuizState :=
  match call with
  | Resolved response =>
      {| sessionId := Some (session_id response);
         sessionToken := Some (session_token response);
         quiz_category := Some category;
         questions := response_questions response;
         currentQuestionIndex := 0;
         answers := [];
         previousShoes := previousShoes s;
         isLoading := false;
         error := error s;
         isComplete := false;
         recommendationId := recommendationId s;
         recommendations := recommendations s |}
  | Rejected message =>
      set_failed s (message_or message "Failed to start quiz")
  end.

(** [submitAnswer(questionId, answer)] up to its [await], or to its
    [return] when there is no session. *)
Definition submitAnswer_begin (questionId : string) (answer : json)
    (s : QuizState) : QuizState * option Pending :=
  if no_session s then (set_no_session s, None)
  else (set_loading s,
        Some (PendingSubmit questionId answer (answers s)
                            (currentQuestionIndex s))).

(** [submitAnswer(questionId, answer)] from its [await] on: the answers
    and the index written are made of the values read before the call. *)
Definition submitAnswer_end (questionId : string) (answer : json)
    (snapshot_answers : dict json) (snapshot_index : Z)
    (call : Awaited bool) (s : QuizState) : QuizState :=
  match call with
  | Resolved is_complete =>
      {| sessionId := sessionId s;
         sessionToken := sessionToken s;
         quiz_category := quiz_category s;
         questions := questions s;
         currentQuestionIndex := (snapshot_index + 1)%Z;
         answers := dict_set snapshot_answers questionId answer;
         previousShoes := previousShoes s;
         isLoading := false;
         error := error s;
         isComplete := is_complete;
         recommendationId := recommendationId s;
         recommendations := recommendations s |}
  | Rejected message =>
      set_failed s (message_or message "Failed to submit answer")
  end.

(** [getRecommendations()] up to its [await] or its [return]. *)
Definition getRecommendations_begin (s : QuizState)
    : QuizState * option Pending :=
  if no_session s then (set_no_session s, None)
  else (set_loading s, Some PendingRecommend).

(** [getRecommendations()] from its [await] on. *)
Definition getRecommendations_end (call : Awaited RecommendResponse)
    (s : QuizState) : QuizState :=
  match call with
  | Resolved response =>
      {| sessionId := sessionId s;
         sessionToken := sessionToken s;
         quiz_category := quiz_category s;
         questions := questions s;
         currentQuestionIndex := currentQuestionIndex s;
         answers := answers s;
         previousShoes := previousShoes s;
         isLoading := false;
         error := error s;
         isComplete := isComplete s;
         recommendationId := Some (recommendation_id response);
         recommendations := shoes response |}
  | Rejected message =>
      set_failed s (message_or message "Failed to get recommendations")
  end.

(** How a call of the API ends. *)
Inductive Reply :=
| StartReply (call : Awaited StartResponse)
| SubmitReply (call : Awaited bool)
| RecommendReply (call : Awaited RecommendResponse).

(** The rest of a pending action on the reply of its call; [None] when
    the reply is not one of the call the action made. *)
Definition resume (p : Pending) (reply : Reply) (s : QuizState)
    : option QuizState :=
  match p, reply with
  | PendingStart category, StartReply call =>
      Some (startQuiz_end category call s)
  | PendingSubmit questionId answer snapshot_answers snapshot_index,
    SubmitReply call =>
      Some (submitAnswer_end questionId answer snapshot_answers
                             snapshot_index call s)
  | PendingRecommend, RecommendReply call =>
      Some (getRecommendations_end call s)
  | _, _ => None
  end.

(** The store with the actions whose calls are in flight. *)
Record Running := {
  state : QuizState;
  in_flight : list Pending
}.

(** What happens to the store: an action is called, the call of the
    [n]-th pending action ends, or one of the synchronous actions runs. *)
Inductive Event :=
| CallStartQuiz (category : string)
| CallSubmitAnswer (questionId : string) (answer : json)
| CallGetRecommendations
| Settle (n : nat) (reply : Reply)
| GoBack
| AddPreviousShoe (shoe : PreviousShoe)
| RemovePreviousShoe (index : Z)
| Reset.

Definition called (r : Running) (begun : QuizState * option Pending)
    : Running :=
  {| state := fst begun;
     in_flight :=
       match snd begun with
       | Some p => (in_flight r ++ [p])%list
       | None => in_flight r
       end |}.

Definition acted (r : Running) (s : QuizState) : Running :=
  {| state := s; in_flight := in_flight r |}.

(** An event that cannot happen (no [n]-th pending action, or a reply of
    another call) leaves everything as it is. *)
Definition step (r : Running) (e : Event) : Running :=
  match e with
  | CallStartQuiz category => called r (startQuiz_begin category (state r))
  | CallSubmitAnswer questionId answer =>
      called r (submitAnswer_begin questionId answer (state r))
  | CallGetRecommendations => called r (getRecommendations_begin (state r))
  | Settle n reply =>
      match nth_error (in_flight r) n with
      | Some p =>
          match resume p reply (state r) with
          | Some s =>
              {| state := s;
                 in_flight :=
                   (firstn n (in_flight r) ++ skipn (S n) (in_flight r))%list |}
          | None => r
          end
      | None => r
      end
  | GoBack => acted r (goBack (state r))
  | AddPreviousShoe shoe => acted r (addPreviousShoe shoe (state r))
  | RemovePreviousShoe index => acted r (removePreviousShoe index (state r))
  | Reset => acted r (reset (state r))
  end.

(** The events of a list one after the other. *)
Definition run (r : Running) (events : list Event) : Running :=
  fold_left step events r.

(** The store when the page loads: the initial state, no call in
    flight. *)
Definition loaded : Running := {| state := initialState; in_flight := [] |}.

End QuizStore.

(** ** Quiz page *)

Module QuizPage.

Import Py.

(** What a click on an option does. *)
Inductive Effect :=
| Nothing
| Submit (answer : list string)
| SubmitSingle (value : string)
| StoreLocally (answer : list string).

(** [l.filter((v) => v !== value)] *)
Definition without (value : string) (l : list string) : list string :=
  filter (fun v => negb (String.eqb v value)) l.

(** [handleOptionSelect(value)]: [currentQuestion] is
    [questions[currentQuestionIndex]] ([None] past the end), [currentAnswer]
    the array the store holds for the question ([None] when it holds
    none). A [max_select] of 0 is falsy. *)
Definition handleOptionSelect (currentQuestion : option QuizStore.Question)
    (isLoading : bool) (currentAnswer : option (list string))
    (value : string) : Effect :=
  match currentQuestion with
  | None => Nothing
  | Some question =>
      if isLoading then Nothing
      else if String.eqb (QuizStore.question_type question) "multi_select"
      then
        let currentAnswer := or_list currentAnswer in
        let newAnswer :=
          if str_in value currentAnswer then without value currentAnswer
          else (currentAnswer ++ [value])%list in
        if String.eqb value "none" then Submit ["none"]
        else if str_in "none" newAnswer
        then Submit (without "none" newAnswer)
        else
          match QuizStore.max_select question with
          | Some (S m) =>
              if (S m <? List.length newAnswer)%nat then Nothing
              else StoreLocally newAnswer
          | _ => StoreLocally newAnswer
          end
      else SubmitSingle value
  end.

(** [handleMultiSelectSubmit()]: the answer stored for the question is
    submitted when it is an array that is not empty. *)
Definition handleMultiSelectSubmit
    (currentQuestion : option QuizStore.Question) (isLoading : bool)
    (currentAnswer : option (list string)) : Effect :=
  match currentQuestion with
  | None => Nothing
  | Some question =>
      if isLoading then Nothing
      else
        match currentAnswer with
        | Some (v :: rest) => Submit (v :: rest)
        | _ => Nothing
        end
  end.

End QuizPage.

(** ** Shoe edit page of the admin *)

Module ShoeEditPage.

(** The form state the completeness check reads; every field of a form
    is a string, empty when nothing was entered. *)
Record BasicInfo := {
  name : string;
  msrp_usd : string;
  is_active : bool;
  is_discontinued : bool
}.

Record RunningAttrs := {
  weight_oz : string;
  drop_mm : string;
  stack_height_heel_mm : string;
  stack_height_forefoot_mm : string;
  terrain : string;
  subcategory : string;
  cushion_type : string;
  cushion_level : string;
  has_carbon_plate : bool;
  has_rocker : bool
}.

Record BasketballAttrs := {
  bb_weight_oz : string;
  cut : string;
  court_type : string;
  bb_cushion_type : string;
  bb_cushion_level : string;
  traction_pattern : string;
  ankle_support_level : string;
  lockdown_level : string
}.

(** [!s] on a string: only the empty string is falsy. *)
Definition blank (s : string) : bool :=
  match s with
  | EmptyString => true
  | _ => false
  end.

(** [if (!field) missing.push(label)] *)
Definition push_if_blank (missing : list string) (field label : string)
    : list string :=
  if blank field then (missing ++ [label])%list else missing.

(** [shoe?.category === literal]; [shoe] is [None] until it is loaded. *)
Definition category_is (shoe_category : option string) (literal : string)
    : bool :=
  match shoe_category with
  | Some c => String.eqb c literal
  | None => false
  end.

(** [getMissingFields()] *)
Definition getMissingFields (shoe_category : option string)
    (basicInfo : BasicInfo) (runningAttrs : RunningAttrs)
    (basketballAttrs : BasketballAttrs) : list string :=
  let missing := [] in
  let missing := push_if_blank missing (msrp_usd basicInfo) "MSRP" in
  let missing :=
    if category_is shoe_category "running" then
      let missing := push_if_blank missing (weight_oz runningAttrs) "Weight" in
      let missing := push_if_blank missing (drop_mm runningAttrs) "Drop" in
      let missing :=
        push_if_blank missing (stack_height_heel_mm runningAttrs)
          "Heel Stack" in
      let missing :=
        push_if_blank missing (stack_height_forefoot_mm runningAttrs)
          "Forefoot Stack" in
      let missing := push_if_blank missing (terrain runningAttrs) "Terrain" in
      let missing :=
        push_if_blank missing (subcategory runningAttrs) "Category" in
      let missing :=
        push_if_blank missing (cushion_type runningAttrs) "Cushion Type" in
      push_if_blank missing (cushion_level runningAttrs) "Cushion Level"
    else missing in
  if category_is shoe_category "basketball" then
    let missing :=
      push_if_blank missing (bb_weight_oz basketballAttrs) "Weight" in
    let missing := push_if_blank missing (cut basketballAttrs) "Cut" in
    push_if_blank missing (bb_cushion_type basketballAttrs) "Cushion Type"
  else missing.

End ShoeEditPage.

(** * Vocabulary of the statements *)

(** The notions the properties below are stated with; none of them is part
    of the program. *)

Module Vocabulary.

Import Py Scoring Ingestion Extraction Optimizer.

(** A fit profile with another width verdict. *)
Definition set_width_runs (fit : FitProfile) (w : option string) : FitProfile :=
  {| width_runs := w;
     works_well_for := works_well_for fit;
     avoid_if := avoid_if fit;
     overall_sentiment := overall_sentiment fit |}.

(** A foot profile with another width. *)
Definition set_width (ft : FootProfile) (w : option string) : FootProfile :=
  {| width := w; arch := arch ft; pronation := pronation ft |}.

(** The factor by which one stated issue multiplies the running score:
    an [avoid_if] hit takes precedence over a [works_well_for] hit. *)
Definition issue_factor (fit : FitProfile) (issue : string) : Q :=
  if str_in issue (or_list (avoid_if fit)) then 0.1
  else if str_in issue (or_list (works_well_for fit)) then 1.2
  else 1.

(** The product of a list of factors. *)
Definition product (l : list Q) : Q := fold_right Qmult 1 l.

(** Every stated condition the clean profile lists in [avoid_if] is listed
    by the flagged one too. *)
Definition avoid_included (clean flagged : FitProfile) : Prop :=
  forall issue,
    str_in issue (or_list (avoid_if clean)) = true ->
    str_in issue (or_list (avoid_if flagged)) = true.

(** The weighted mean of a score per factor name over a weight vector. *)
Definition weighted_mean (f : string -> Q) (weights : Weights) : Q :=
  sum (map (fun kw => f (fst kw) * snd kw) weights) / sum (values weights).

(** [ranks_before] as a relation. *)
Definition before : Shoe * Q -> Shoe * Q -> Prop :=
  fun a b => ranks_before a b = true.


(** The weights of a vector lie in the range the optimizer clamps to. *)
Definition in_clamp_range (weights : Weights) : Prop :=
  forall k v, In (k, v) weights -> 0.1 <= v <= 3.

(** The attributes and fit-profile fields that scoring reads, [avoid_if]
    apart, are the same. *)
Definition same_but_avoid_if (a b : Shoe) : Prop :=
  category a = category b
  /\ running_attributes a = running_attributes b
  /\ current_price_min a = current_price_min b
  /\ width_runs (fit_profile a) = width_runs (fit_profile b)
  /\ works_well_for (fit_profile a) = works_well_for (fit_profile b)
  /\ overall_sentiment (fit_profile a) = overall_sentiment (fit_profile b).

(** Scoring two arrangements of the same shoes: both fail, or both give
    the same scored shoes. *)
Definition same_scored (r1 r2 : option (list (Shoe * Q))) : Prop :=
  match r1, r2 with
  | Some s1, Some s2 => Permutation s1 s2
  | None, None => True
  | _, _ => False
  end.

(** The triple under which a review of a shoe is stored. *)
Definition key_of (shoe : string) (review : RawReview)
    : string * string * string :=
  (shoe, source review, source_review_id review).

(** The reviews of the sources that answered, in order. *)
Definition scraped (outcomes : list SourceOutcome) : list RawReview :=
  List.concat (map (fun o => match o with Some rs => rs | None => [] end) outcomes).

(** [a] is ranked above [b] in a ranked list. *)
Definition ranked_above (ranked : list MatchEntry) (a b : Shoe) : Prop :=
  exists ea eb,
    In ea ranked /\ In eb ranked /\
    entry_shoe ea = a /\ entry_shoe eb = b /\
    (entry_rank ea < entry_rank eb)%nat.

Section WithFactors.

Context `{F : Factors}.

(** The score a factor name stands for in the weighted combination: the
    value computed for it, and 0.5 for a name with no computed value, which
    ['history'] is when no previous shoes are supplied. *)
Definition factor_score (shoe : Shoe) (up : UserProfile) (key : string) : Q :=
  if String.eqb key "terrain" then calculate_terrain_match shoe up
  else if String.eqb key "width" then
    calculate_width_match (fit_profile shoe) (foot up)
  else if String.eqb key "arch" then calculate_arch_match shoe (foot up)
  else if String.eqb key "pronation" then
    calculate_pronation_match shoe (foot up)
  else if String.eqb key "issues" then
    calculate_issue_compatibility shoe (foot_issues up)
  else if String.eqb key "cushion" then
    calculate_cushion_match shoe (preferences up)
  else if String.eqb key "priorities" then
    calculate_priority_match shoe (priorities up)
  else if String.eqb key "distance" then
    calculate_distance_match shoe (distances up)
  else if String.eqb key "position" then
    calculate_position_match shoe (position up)
  else if String.eqb key "budget" then
    calculate_budget_match (current_price_min shoe) (budget up)
  else if String.eqb key "history" then
    match previous_shoes up with
    | Some (p :: ps) => calculate_history_match shoe (p :: ps)
    | _ => 0.5
    end
  else if String.eqb key "sentiment" then
    or_float (overall_sentiment (fit_profile shoe)) 0.5
  else 0.5.

(** The scoring functions without a body give the two products the same
    score. *)
Definition factors_agree (a b : Shoe) (up : UserProfile) : Prop :=
  calculate_terrain_match a up == calculate_terrain_match b up
  /\ calculate_arch_match a (foot up) == calculate_arch_match b (foot up)
  /\ calculate_cushion_match a (preferences up)
     == calculate_cushion_match b (preferences up)
  /\ calculate_priority_match a (priorities up)
     == calculate_priority_match b (priorities up)
  /\ calculate_distance_match a (distances up)
     == calculate_distance_match b (distances up)
  /\ calculate_position_match a (position up)
     == calculate_position_match b (position up)
  /\ forall ps, calculate_history_match a ps == calculate_history_match b ps.

End WithFactors.

Section WithOracle.

Context `{O : Oracle}.

(** A weight vector passed the guard: on some held-out set it scored
    within the tolerance of the vector that was active then. *)
Definition vetted (tolerance : Q) (w : Weights) : Prop :=
  exists prior held_out p a,
    evaluate (init w) held_out = Some p
    /\ evaluate (init prior) held_out = Some a
    /\ a - tolerance <= p.

End WithOracle.

(** Turns the outcome of a comparison of scores into the order it stands
    for. *)
Ltac qcompare :=
  repeat match goal with
         | H : (_ ?= _) = Eq |- _ => apply Qeq_alt in H
         | H : (_ ?= _) = Lt |- _ => apply Qlt_alt in H
         | H : (_ ?= _) = Gt |- _ => apply Qgt_alt in H
         end.

End Vocabulary.

(** ** Data of the worked cases *)

Module Cases.

Import Py Scoring Vocabulary.

(** Scoring functions that all answer 1, for the cases below. *)
Definition all_ones : Factors :=
  {| calculate_terrain_match := fun _ _ => 1;
     calculate_arch_match := fun _ _ => 1;
     calculate_cushion_match := fun _ _ => 1;
     calculate_priority_match := fun _ _ => 1;
     calculate_distance_match := fun _ _ => 1;
     calculate_position_match := fun _ _ => 1;
     calculate_budget_match := fun _ _ => 1;
     calculate_history_match := fun _ _ => 1 |}.

Definition make_shoe (id cat : string) (width_verdict : option string)
    (works avoid : list string) : Shoe :=
  {| shoe_id := id;
     category := cat;
     fit_profile :=
       {| width_runs := width_verdict;
          works_well_for := Some works;
          avoid_if := Some avoid;
          overall_sentiment := Some 0.8 |};
     running_attributes := {| subcategory := Some "stability" |};
     current_price_min := Some 120 |}.

Definition make_profile (cat : string) (foot_width : option string)
    (issues : list string) : UserProfile :=
  {| up_category := cat;
     foot := {| width := foot_width; arch := None;
                pronation := Some "overpronation" |};
     foot_issues := issues;
     preferences := [];
     priorities := ["cushion"; "durability"];
     distances := ["mid"];
     position := None;
     budget := Some "100_150";
     previous_shoes := None |}.

Definition road_shoe : Shoe := make_shoe "shoe-a" "running" (Some "wide") [] [].

Definition court_shoe : Shoe := make_shoe "shoe-c" "basketball" None [] [].

Definition runner : UserProfile := make_profile "running" (Some "wide") [].

Definition both_lists_shoe : Shoe :=
  make_shoe "shoe-b" "running" None ["bunions"] ["bunions"].

Definition runner_ranked : list MatchEntry :=
  Eval vm_compute in
    match @score all_ones runner [court_shoe; road_shoe] DEFAULT_WEIGHTS with
    | Some ranked => ranked
    | None => []
    end.

Definition scenario_a : Shoe :=
  {| shoe_id := "shoe-A";
     category := "running";
     fit_profile :=
       {| width_runs := Some "wide"; works_well_for := None;
          avoid_if := Some []; overall_sentiment := None |};
     running_attributes := {| subcategory := Some "stability" |};
     current_price_min := None |}.

Definition scenario_b : Shoe :=
  {| shoe_id := "shoe-B";
     category := "running";
     fit_profile :=
       {| width_runs := Some "narrow"; works_well_for := None;
          avoid_if := Some ["overpronation"]; overall_sentiment := None |};
     running_attributes := {| subcategory := Some "neutral" |};
     current_price_min := None |}.

Definition scenario_user : UserProfile :=
  make_profile "running" (Some "wide") ["overpronation"].

Definition flagged_shoe : Shoe :=
  make_shoe "shoe-f" "running" (Some "wide") [] ["bunions"].

Definition sore_runner : UserProfile :=
  make_profile "running" (Some "wide") ["bunions"].

Definition clean_shoe : Shoe :=
  make_shoe "shoe-g" "running" (Some "wide") [] [].

(** Thirteen conditions a profile can list in [works_well_for]. *)
Definition thirteen : list string :=
  [ "overpronation"; "underpronation"; "flat_feet"; "high_arches";
    "wide_feet"; "narrow_feet"; "plantar_fasciitis"; "ankle_history";
    "knee_issues"; "heel_pain"; "shin_splints"; "achilles_pain";
    "metatarsalgia" ].

Definition praised_flagged : Shoe :=
  make_shoe "shoe-a" "running" (Some "wide") thirteen ["bunions"].

Definition praised_clean : Shoe :=
  make_shoe "shoe-b" "running" (Some "wide") thirteen [].

Definition many_issues : UserProfile :=
  make_profile "running" (Some "wide") ("bunions" :: thirteen).

Definition make_review (src id text : string) : RawReview :=
  {| source := src; source_review_id := id; source_url := "";
     reviewer_name := None; rating := Some 4.5; title := None;
     body := text; review_date := None;
     reviewer_foot_width := Some "wide"; reviewer_arch_type := None;
     reviewer_size_purchased := None; reviewer_typical_size := None |}.

Definition review1 : RawReview :=
  make_review "running_warehouse" "rw-101" "Roomy toe box.".

Definition review1_again : RawReview :=
  make_review "running_warehouse" "rw-101" "Roomy toe box, edited.".

Definition review2 : RawReview :=
  make_review "fleet_feet" "ff-7" "Runs narrow.".

Definition one_review_store : Store :=
  {| shoe_reviews := [ {| row_shoe_id := "shoe-a"; row_review := review1 |} ];
     shoe_fit_profiles := [];
     extraction_queue := [] |}.

(** An oracle that ranks by the terrain weight: above 2 the two shoes
    swap, and a ranking is worth 1 when it is the ideal one, 0.5
    otherwise. *)
Definition terrain_oracle : Oracle :=
  {| get_shoe := fun _ => road_shoe;
     calculate_factor_scores := fun _ _ => [("terrain", 0.9)];
     generate_ranking := fun _ w =>
       if Qle_bool (dict_get w "terrain" 0) 2
       then ["shoe-a"; "shoe-b"] else ["shoe-b"; "shoe-a"];
     calculate_ndcg := fun predicted ideal =>
       if list_eq_dec string_dec predicted ideal then 1 else 0.5 |}.

Definition correction : TrainingExample :=
  {| quiz_answers := [];
     example_category := "running";
     ideal_ranking := ["shoe-b"; "shoe-a"];
     original_ranking := ["shoe-a"; "shoe-b"];
     example_source := "admin_correction";
     confidence := 1 |}.

Definition approval : TrainingExample :=
  {| quiz_answers := [];
     example_category := "running";
     ideal_ranking := ["shoe-a"; "shoe-b"];
     original_ranking := ["shoe-a"; "shoe-b"];
     example_source := "admin_approval";
     confidence := 1 |}.

Definition first_store : Optimizer.WeightStore :=
  {| Optimizer.active := DEFAULT_WEIGHTS;
     Optimizer.history := [];
     Optimizer.rejected := [] |}.

Definition proposed_weights : Weights :=
  Eval vm_compute in
    match @Optimizer.update_from_examples terrain_oracle
            (Optimizer.init DEFAULT_WEIGHTS) [correction] with
    | Some opt => Optimizer.weights opt
    | None => []
    end.

End Cases.

(** ** Further vocabulary *)

(** The notions of the properties on the score range, the weight update,
    the scraper, the matching query, the quiz front end, the shoe edit
    page and the products flagged for a stated condition. *)

Module MoreVocabulary.

Import Py Scoring Ingestion Optimizer Scraper QuizStore.

(** A foot profile with another pronation. *)
Definition set_pronation (ft : FootProfile) (p : option string) : FootProfile :=
  {| width := width ft; arch := arch ft; pronation := p |}.

(** [example.source == 'admin_correction'] *)
Definition is_correction (example : TrainingExample) : bool :=
  String.eqb (example_source example) "admin_correction".

(** The shoe at position [i] of the ideal ranking stood lower in the
    original ranking, or not in it at all (rank 999). *)
Definition under_ranked (example : TrainingExample) (i : nat)
    (shoe : string) : Prop :=
  nth_error (ideal_ranking example) i = Some shoe
  /\ (Z.of_nat i < index_or_999 shoe (original_ranking example))%Z.

(** Every list of deltas is non-empty and holds positive numbers only. *)
Definition positive_deltas (adjustments : dict (list Q)) : Prop :=
  forall factor deltas,
    In (factor, deltas) adjustments ->
    deltas <> [] /\ forall delta, In delta deltas -> 0 < delta.

(** The reviews page [page] answers with at least one review element. *)
Definition has_reviews (fetch : PageFetch) (page : nat) : Prop :=
  exists elems, fetch page = Some elems /\ elems <> [].

(** The reviews parsed from [count] pages, from page [page] on. *)
Fixpoint collected (fetch : PageFetch) (page count : nat) : list RawReview :=
  match count with
  | O => []
  | S count' =>
      match fetch page with
      | Some elems => (parsed elems ++ collected fetch (S page) count')%list
      | None => []
      end
  end.

(** A source that raised, or gave no review. *)
Definition gave_nothing (outcome : SourceOutcome) : Prop :=
  outcome = None \/ outcome = Some [].

(** A normalized column, by the [CHECK (... BETWEEN 0 AND 1)] of
    [shoe_profiles]: within [0,1] when it is not NULL. *)
Definition normalized (column : option Q) : Prop :=
  forall x, column = Some x -> 0 <= x <= 1.

(** What a pending [submitAnswer] holds in its local variables: an index
    that is not negative and answers with distinct question ids. *)
Definition pending_ok (p : Pending) : Prop :=
  match p with
  | PendingSubmit _ _ snapshot_answers snapshot_index =>
      (0 <= snapshot_index)%Z /\ NoDup (keys snapshot_answers)
  | _ => True
  end.

(** What the store satisfies after every event. *)
Definition store_invariant (r : Running) : Prop :=
  (0 <= currentQuestionIndex (state r))%Z
  /\ NoDup (keys (answers (state r)))
  /\ (in_flight r = [] -> isLoading (state r) = false)
  /\ Forall pending_ok (in_flight r).

(** The list without its element at position [index]. *)
Definition remove_nth {A : Type} (index : nat) (l : list A) : list A :=
  (firstn index l ++ skipn (S index) l)%list.

(** The answers to a multi-select question that the page keeps to: none
    yet, the exclusive [['none']], or values without repetition and
    without ['none'], no more than [max_select] allows. *)
Definition well_formed (question : Question)
    (answer : option (list string)) : Prop :=
  match answer with
  | None => True
  | Some a =>
      a = ["none"]
      \/ (NoDup a /\ ~ In "none" a
          /\ forall m, max_select question = Some (S m) ->
                       (List.length a <= S m)%nat)
  end.




(** [a] comes before [b] in a list of products. *)
Definition listed_before (ranking : list Shoe) (a b : Shoe) : Prop :=
  exists before middle after,
    ranking = (before ++ a :: middle ++ b :: after)%list.

Section WithFactors.

Context `{F : Factors}.

(** Every scoring function without a body answers within [0,1]. *)
Definition factors_in_unit : Prop :=
  (forall shoe up, 0 <= calculate_terrain_match shoe up <= 1)
  /\ (forall shoe ft, 0 <= calculate_arch_match shoe ft <= 1)
  /\ (forall shoe prefs, 0 <= calculate_cushion_match shoe prefs <= 1)
  /\ (forall shoe prios, 0 <= calculate_priority_match shoe prios <= 1)
  /\ (forall shoe dists, 0 <= calculate_distance_match shoe dists <= 1)
  /\ (forall shoe pos, 0 <= calculate_position_match shoe pos <= 1)
  /\ (forall price bud, 0 <= calculate_budget_match price bud <= 1)
  /\ (forall shoe prev, 0 <= calculate_history_match shoe prev <= 1).

(** The sentiment of the fit profile, when it has one, lies in [0,1]. *)
Definition sentiment_in_unit (shoe : Shoe) : Prop :=
  forall v, overall_sentiment (fit_profile shoe) = Some v -> 0 <= v <= 1.

(** A list of products in the order of their match scores, the highest
    first: no product comes before one of a higher score. *)
Definition by_descending_score (up : UserProfile) (weights : Weights)
    (ranking : list Shoe) : Prop :=
  forall a b qa qb,
    listed_before ranking a b ->
    calculate_match_score a up weights = Some qa ->
    calculate_match_score b up weights = Some qb ->
    qb <= qa.

End WithFactors.

Section WithOracle.

Context `{O : Oracle}.

(** The shoe scores above 0.7 on the factor. *)
Definition scores_well (example : TrainingExample) (shoe factor : string)
    : Prop :=
  exists score,
    In (factor, score)
       (calculate_factor_scores (get_shoe shoe) (quiz_answers example))
    /\ 0.7 < score.

(** The factors [update_from_examples] adjusts: those a shoe that an admin
    correction moved up scores well on. *)
Definition adjusted (examples : list TrainingExample) (factor : string)
    : Prop :=
  exists example i shoe,
    In example examples
    /\ example_source example = "admin_correction"
    /\ under_ranked example i shoe
    /\ scores_well example shoe factor.

End WithOracle.

Section EditPage.

Import ShoeEditPage.

(** The labels of the fields of [checks] that are blank. *)
Definition blank_labels (checks : list (string * string)) : list string :=
  map snd (filter (fun c => blank (fst c)) checks).

(** The fields [getMissingFields] checks for a running shoe, with their
    labels. *)
Definition running_checks (runningAttrs : RunningAttrs)
    : list (string * string) :=
  [ (weight_oz runningAttrs, "Weight");
    (drop_mm runningAttrs, "Drop");
    (stack_height_heel_mm runningAttrs, "Heel Stack");
    (stack_height_forefoot_mm runningAttrs, "Forefoot Stack");
    (terrain runningAttrs, "Terrain");
    (subcategory runningAttrs, "Category");
    (cushion_type runningAttrs, "Cushion Type");
    (cushion_level runningAttrs, "Cushion Level") ].

(** The fields it checks for a basketball shoe. *)
Definition basketball_checks (basketballAttrs : BasketballAttrs)
    : list (string * string) :=
  [ (bb_weight_oz basketballAttrs, "Weight");
    (cut basketballAttrs, "Cut");
    (bb_cushion_type basketballAttrs, "Cushion Type") ].

(** The fields it checks for a shoe of the category given. *)
Definition checks_of (shoe_category : option string)
    (basicInfo : BasicInfo) (runningAttrs : RunningAttrs)
    (basketballAttrs : BasketballAttrs) : list (string * string) :=
  ((msrp_usd basicInfo, "MSRP")
   :: (if category_is shoe_category "running"
       then running_checks runningAttrs else [])
   ++ (if category_is shoe_category "basketball"
       then basketball_checks basketballAttrs else []))%list.

End EditPage.

End MoreVocabulary.

(** ** Further data of the worked cases *)

Module MoreCases.

Import Py Scoring Ingestion Optimizer Scraper MatchingQuery QuizStore.
Import Vocabulary Cases.

Definition racing_shoe : Shoe :=
  {| shoe_id := "shoe-r";
     category := "running";
     fit_profile :=
       {| width_runs := None; works_well_for := None;
          avoid_if := None; overall_sentiment := Some 0.8 |};
     running_attributes := {| subcategory := Some "racing" |};
     current_price_min := Some 180 |}.

(** A runner whose foot width is not known and who does not ask for
    cushioning. *)
Definition unmeasured_runner : UserProfile :=
  {| up_category := "running";
     foot := {| width := None; arch := None;
                pronation := Some "overpronation" |};
     foot_issues := [];
     preferences := [];
     priorities := ["durability"];
     distances := ["mid"];
     position := None;
     budget := None;
     previous_shoes := None |}.

(** An admin correction that confirms the ranking shown. *)
Definition confirmation : TrainingExample :=
  {| quiz_answers := [];
     example_category := "running";
     ideal_ranking := ["shoe-a"; "shoe-b"];
     original_ranking := ["shoe-a"; "shoe-b"];
     example_source := "admin_correction";
     confidence := 1 |}.

(** Weights that lack the factor the oracle scores. *)
Definition width_only : Weights := [("width", 1)].

(** A site with two pages of reviews; one element of the first page does
    not parse. *)
Definition two_pages : PageFetch :=
  fun page =>
    match page with
    | 1%nat => Some [Some review1; None]
    | 2%nat => Some [Some review2]
    | _ => Some []
    end.

(** The same site with a fourth page that is never linked. *)
Definition hidden_page : PageFetch :=
  fun page =>
    match page with
    | 4%nat => Some [Some review1_again]
    | _ => two_pages page
    end.

(** A site whose second page fails. *)
Definition broken_site : string -> PageFetch :=
  fun _ page =>
    match page with
    | 1%nat => Some [Some review1]
    | _ => None
    end.

(** A row of the query: a cushioned shoe within budget, with no review
    summary. *)
Definition cushioned_row : JoinedRow :=
  {| is_active := true;
     msrp_usd := Some 140;
     cushion_normalized := Some 0.9;
     stability_normalized := Some 0.3;
     width_forefoot := Some 1%Z;
     suitable := None |}.

Definition issues_question : Question :=
  {| question_id := "foot_issues";
     question_type := "multi_select";
     max_select := Some 2%nat |}.

Definition started : QuizState :=
  startQuiz "running"
    (Resolved {| session_id := "session-1";
                 session_token := "token-1";
                 response_questions := [issues_question] |})
    initialState.

Definition filled_info : ShoeEditPage.BasicInfo :=
  {| ShoeEditPage.name := "Ghost 16";
     ShoeEditPage.msrp_usd := "140";
     ShoeEditPage.is_active := true;
     ShoeEditPage.is_discontinued := false |}.

(** The attributes of a running shoe with a drop of zero. *)
Definition zero_drop_attrs : ShoeEditPage.RunningAttrs :=
  {| ShoeEditPage.weight_oz := "9.5";
     ShoeEditPage.drop_mm := "0";
     ShoeEditPage.stack_height_heel_mm := "30";
     ShoeEditPage.stack_height_forefoot_mm := "30";
     ShoeEditPage.terrain := "road";
     ShoeEditPage.subcategory := "neutral";
     ShoeEditPage.cushion_type := "foam";
     ShoeEditPage.cushion_level := "high";
     ShoeEditPage.has_carbon_plate := false;
     ShoeEditPage.has_rocker := false |}.

Definition no_basketball_attrs : ShoeEditPage.BasketballAttrs :=
  {| ShoeEditPage.bb_weight_oz := "";
     ShoeEditPage.cut := "";
     ShoeEditPage.court_type := "";
     ShoeEditPage.bb_cushion_type := "";
     ShoeEditPage.bb_cushion_level := "";
     ShoeEditPage.traction_pattern := "";
     ShoeEditPage.ankle_support_level := "";
     ShoeEditPage.lockdown_level := "" |}.

End MoreCases.

(** * Properties *)

(** ** Facts on the Python idioms *)

Module PyFacts.

Import Py.

Lemma str_in_In (x : string) (l : list string) :
  str_in x l = true <-> In x l.
Proof.
  induction l as [|y l IH]; simpl.
  - split; [discriminate | tauto].
  - destruct (String.eqb_spec x y) as [->|Hne].
    + split; auto.
    + rewrite IH. split; [auto | intros [H|H]; [congruence | assumption]].
Qed.

Lemma str_in_false (x : string) (l : list string) :
  str_in x l = false <-> ~ In x l.
Proof.
  rewrite <- str_in_In. destruct (str_in x l); split; congruence.
Qed.

Lemma sum_cons (q : Q) (l : list Q) : sum (q :: l) = q + sum l.
Proof. reflexivity. Qed.

Lemma sum_app (l1 l2 : list Q) : sum (l1 ++ l2) == sum l1 + sum l2.
Proof.
  induction l1 as [|q l1 IH]; simpl.
  - ring.
  - rewrite IH. ring.
Qed.

(** A sum of terms that are pointwise below the terms of another. *)
Lemma sum_map_le {A : Type} (f g : A -> Q) (l : list A) :
  (forall a, In a l -> f a <= g a) -> sum (map f l) <= sum (map g l).
Proof.
  induction l as [|a l IH]; simpl; intros H.
  - apply Qle_refl.
  - apply Qplus_le_compat; [apply H; now left | apply IH; auto].
Qed.

Lemma sum_map_lt {A : Type} (f g : A -> Q) (l : list A) (a0 : A) :
  (forall a, In a l -> f a <= g a) -> In a0 l -> f a0 < g a0 ->
  sum (map f l) < sum (map g l).
Proof.
  induction l as [|a l IH]; simpl; intros H Hin Hlt.
  - contradiction.
  - destruct Hin as [->|Hin].
    + assert (sum (map f l) <= sum (map g l)) by (apply sum_map_le; auto).
      lra.
    + assert (f a <= g a) by (apply H; now left).
      assert (sum (map f l) < sum (map g l)) by (apply IH; auto).
      lra.
Qed.

Lemma sum_pos_bound (lo : Q) (l : list Q) :
  0 < lo -> l <> [] -> (forall q, In q l -> lo <= q) -> 0 < sum l.
Proof.
  intros Hlo Hne Hall. destruct l as [|q l]; [congruence|].
  assert (Hs : forall l', (forall q', In q' l' -> lo <= q') -> 0 <= sum l').
  { induction l' as [|q' l' IH]; simpl; intros H; [apply Qle_refl|].
    assert (lo <= q') by (apply H; now left).
    assert (0 <= sum l') by (apply IH; auto). lra. }
  simpl. assert (lo <= q) by (apply Hall; now left).
  assert (0 <= sum l) by (apply Hs; intros; apply Hall; now right). lra.
Qed.

(** The value [dict.get] finds for a key of the dict is one of its values. *)
Lemma dict_get_In {V : Type} (d : dict V) (key : string) (default : V) :
  In key (keys d) -> In (key, dict_get d key default) d.
Proof.
  induction d as [|[k v] d IH]; simpl; [tauto|].
  destruct (String.eqb_spec key k) as [->|Hne]; intros [H|H]; auto; congruence.
Qed.

Lemma dict_get_NoDup {V : Type} (d : dict V) (k : string) (v default : V) :
  NoDup (keys d) -> In (k, v) d -> dict_get d k default = v.
Proof.
  induction d as [|[k0 v0] d IH]; simpl; [tauto|].
  intros Hnd Hin. inversion Hnd as [|? ? Hnotin Hnd']; subst.
  destruct (String.eqb_spec k k0) as [->|Hne].
  - destruct Hin as [Heq|Hin]; [congruence|].
    exfalso. apply Hnotin. change k0 with (fst (k0, v)). now apply in_map.
  - destruct Hin as [Heq|Hin]; [congruence | auto].
Qed.

End PyFacts.

(** ** Factor scores *)

Module FactorProps.

Import Py PyFacts Scoring.
Import Vocabulary.

Lemma pair_get_default (m : list ((string * string) * Q)) (k : string * string)
    (d : Q) :
  ~ In k (map fst m) -> pair_get m k d = d.
Proof.
  induction m as [|[[a b] v] m IH]; simpl; intros Hk; [reflexivity|].
  destruct (String.eqb_spec (fst k) a) as [Ha|Ha];
    destruct (String.eqb_spec (snd k) b) as [Hb|Hb]; simpl;
    try (apply IH; tauto).
  exfalso. apply Hk. left. destruct k; simpl in *; congruence.
Qed.

Lemma pair_get_bounds (m : list ((string * string) * Q)) (k : string * string)
    (d lo hi : Q) :
  Forall (fun e => lo <= snd e <= hi) m -> lo <= d <= hi ->
  lo <= pair_get m k d <= hi.
Proof.
  intros Hm Hd. induction Hm as [|[[a b] v] m Hv Hm IH]; simpl; [assumption|].
  destruct (String.eqb (fst k) a && String.eqb (snd k) b); assumption.
Qed.

Lemma width_map_bounds : Forall (fun e => 0 <= snd e <= 1) width_map.
Proof. unfold width_map. repeat constructor; simpl; lra. Qed.

(** C9. The width-compatibility factor is total with a result in [0,1]; a
    missing shoe width verdict counts as ['true'], a missing foot width as
    ['standard'], and every pair of widths outside the nine entries of the
    table, a foot width ['extra_wide'] among them, gives exactly 0.5. *)
Theorem calculate_width_match_total (fit : FitProfile) (ft : FootProfile) :
  0 <= calculate_width_match fit ft <= 1
  /\ (width_runs fit = None ->
      calculate_width_match fit ft
      = calculate_width_match (set_width_runs fit (Some "true")) ft)
  /\ (width ft = None ->
      calculate_width_match fit ft
      = calculate_width_match fit (set_width ft (Some "standard")))
  /\ (~ In (or_str (width_runs fit) "true", or_str (width ft) "standard")
           (map fst width_map) ->
      calculate_width_match fit ft == 0.5)
  /\ (width ft = Some "extra_wide" -> calculate_width_match fit ft == 0.5).
Proof.
  split; [|split; [|split; [|split]]].
  - apply pair_get_bounds; [apply width_map_bounds | lra].
  - intros H. unfold calculate_width_match. simpl. now rewrite H.
  - intros H. unfold calculate_width_match. simpl. now rewrite H.
  - intros H. unfold calculate_width_match. rewrite pair_get_default by exact H.
    reflexivity.
  - intros H. unfold calculate_width_match. rewrite H. simpl or_str.
    rewrite pair_get_default; [reflexivity|].
    simpl. intros Hin.
    repeat (destruct Hin as [Hin|Hin]; [discriminate Hin|]). exact Hin.
Qed.

(** *** Issue compatibility *)

Lemma issue_step_factor (fit : FitProfile) (s : Q) (issue : string) :
  issue_step fit s issue == s * issue_factor fit issue.
Proof.
  unfold issue_step, issue_factor.
  destruct (str_in issue (or_list (avoid_if fit))); [reflexivity|].
  destruct (str_in issue (or_list (works_well_for fit))); [reflexivity|].
  ring.
Qed.

Lemma issue_factor_pos (fit : FitProfile) (issue : string) :
  0 < issue_factor fit issue.
Proof.
  unfold issue_factor.
  destruct (str_in issue (or_list (avoid_if fit))); [reflexivity|].
  destruct (str_in issue (or_list (works_well_for fit))); reflexivity.
Qed.

Lemma issue_loop_product (fit : FitProfile) (issues : list string) (s : Q) :
  fold_left (issue_step fit) issues s
  == s * product (map (issue_factor fit) issues).
Proof.
  revert s. induction issues as [|i issues IH]; intros s; simpl.
  - ring.
  - rewrite IH, issue_step_factor. ring.
Qed.

Lemma issue_loop_pos (fit : FitProfile) (issues : list string) (s : Q) :
  0 < s -> 0 < fold_left (issue_step fit) issues s.
Proof.
  revert s. induction issues as [|i issues IH]; intros s Hs; simpl; [exact Hs|].
  apply IH. rewrite issue_step_factor.
  pose proof (issue_factor_pos fit i). nra.
Qed.

Lemma calculate_issue_compatibility_loop (shoe : Shoe) (issues : list string) :
  calculate_issue_compatibility shoe issues
  == Qmin (fold_left (issue_step (fit_profile shoe)) issues 1) 1.
Proof.
  destruct issues as [|i issues]; [reflexivity|].
  unfold calculate_issue_compatibility. reflexivity.
Qed.

Lemma calculate_issue_compatibility_bounds (shoe : Shoe) (issues : list string) :
  0 < calculate_issue_compatibility shoe issues
  /\ calculate_issue_compatibility shoe issues <= 1.
Proof.
  rewrite calculate_issue_compatibility_loop.
  pose proof (issue_loop_pos (fit_profile shoe) issues 1 eq_refl) as Hpos.
  destruct (Q.min_spec (fold_left (issue_step (fit_profile shoe)) issues 1) 1)
    as [[Hlt ->]|[Hle ->]]; split; lra.
Qed.

(** C4, as the code has it. The issue-compatibility factor starts from 1
    and is the product, clamped from above by 1, of one factor per stated
    issue: exactly 0.1 for an issue in [avoid_if], exactly 1.2 for an issue
    in [works_well_for] that is not in [avoid_if], and 1 otherwise; the
    result lies in [0,1]. *)
Theorem issue_compatibility_multiplicative (shoe : Shoe)
    (issues : list string) :
  calculate_issue_compatibility shoe issues
  == Qmin (product (map (issue_factor (fit_profile shoe)) issues)) 1
  /\ (forall issue s,
        str_in issue (or_list (avoid_if (fit_profile shoe))) = true ->
        issue_step (fit_profile shoe) s issue == s * 0.1)
  /\ (forall issue s,
        str_in issue (or_list (avoid_if (fit_profile shoe))) = false ->
        str_in issue (or_list (works_well_for (fit_profile shoe))) = true ->
        issue_step (fit_profile shoe) s issue == s * 1.2)
  /\ (forall issue s,
        str_in issue (or_list (avoid_if (fit_profile shoe))) = false ->
        str_in issue (or_list (works_well_for (fit_profile shoe))) = false ->
        issue_step (fit_profile shoe) s issue == s)
  /\ 0 <= calculate_issue_compatibility shoe issues <= 1.
Proof.
  split; [|split; [|split; [|split]]].
  - rewrite calculate_issue_compatibility_loop, issue_loop_product.
    now rewrite Qmult_1_l.
  - intros issue s Ha. unfold issue_step. now rewrite Ha.
  - intros issue s Ha Hw. unfold issue_step. now rewrite Ha, Hw.
  - intros issue s Ha Hw. unfold issue_step. now rewrite Ha, Hw.
  - destruct (calculate_issue_compatibility_bounds shoe issues). split; lra.
Qed.

End FactorProps.

Module IssueOrder.
Import Py PyFacts Scoring FactorProps.
Import Vocabulary.

(** *** The issue factor under a longer [avoid_if] list *)

Lemma product_pos {A : Type} (f : A -> Q) (l : list A) :
  (forall a, In a l -> 0 < f a) -> 0 < product (map f l).
Proof.
  induction l as [|a l IH]; simpl; intros H; [reflexivity|].
  assert (0 < f a) by (apply H; now left).
  assert (0 < product (map f l)) by (apply IH; auto).
  nra.
Qed.

Lemma product_le {A : Type} (f g : A -> Q) (l : list A) :
  (forall a, In a l -> 0 < f a /\ f a <= g a) ->
  product (map f l) <= product (map g l).
Proof.
  induction l as [|a l IH]; simpl; intros H; [apply Qle_refl|].
  destruct (H a (or_introl eq_refl)) as [Hpos Hle].
  assert (0 < product (map f l)) by (apply product_pos; intros; apply H; auto).
  assert (product (map f l) <= product (map g l)) by (apply IH; auto).
  nra.
Qed.

Lemma product_lt {A : Type} (f g : A -> Q) (l : list A) (x : A) :
  (forall a, In a l -> 0 < f a /\ f a <= g a) ->
  In x l -> f x < g x ->
  product (map f l) < product (map g l).
Proof.
  induction l as [|a l IH]; simpl; intros H Hin Hlt; [contradiction|].
  destruct (H a (or_introl eq_refl)) as [Hpos Hle].
  assert (Hp : 0 < product (map f l))
    by (apply product_pos; intros; apply H; auto).
  assert (Hq : product (map f l) <= product (map g l))
    by (apply product_le; auto).
  destruct Hin as [->|Hin].
  - nra.
  - assert (product (map f l) < product (map g l)) by (apply IH; auto).
    nra.
Qed.

Lemma issue_factor_le (flagged clean : FitProfile) (issue : string) :
  works_well_for flagged = works_well_for clean ->
  avoid_included clean flagged ->
  issue_factor flagged issue <= issue_factor clean issue.
Proof.
  intros Hw Hinc. unfold issue_factor. rewrite Hw.
  specialize (Hinc issue).
  destruct (str_in issue (or_list (avoid_if clean))).
  - rewrite Hinc by reflexivity. apply Qle_refl.
  - destruct (str_in issue (or_list (avoid_if flagged)));
      destruct (str_in issue (or_list (works_well_for clean)));
      unfold Qle; simpl; lia.
Qed.

Lemma issue_factor_lt (flagged clean : FitProfile) (issue : string) :
  str_in issue (or_list (avoid_if flagged)) = true ->
  str_in issue (or_list (avoid_if clean)) = false ->
  issue_factor flagged issue < issue_factor clean issue.
Proof.
  intros Hf Hc. unfold issue_factor. rewrite Hf, Hc.
  destruct (str_in issue (or_list (works_well_for clean))); reflexivity.
Qed.

Lemma calculate_issue_compatibility_product (shoe : Shoe)
    (issues : list string) :
  calculate_issue_compatibility shoe issues
  == Qmin (product (map (issue_factor (fit_profile shoe)) issues)) 1.
Proof.
  rewrite calculate_issue_compatibility_loop, issue_loop_product.
  now rewrite Qmult_1_l.
Qed.

(** A product that lists more of the stated conditions in [avoid_if], all
    else equal, has the lower issue factor. *)
Lemma issue_compatibility_le (flagged clean : Shoe) (issues : list string) :
  works_well_for (fit_profile flagged) = works_well_for (fit_profile clean) ->
  avoid_included (fit_profile clean) (fit_profile flagged) ->
  calculate_issue_compatibility flagged issues
  <= calculate_issue_compatibility clean issues.
Proof.
  intros Hw Hinc. rewrite !calculate_issue_compatibility_product.
  apply Q.min_le_compat_r.
  apply product_le. intros i _. split.
  - apply issue_factor_pos.
  - now apply issue_factor_le.
Qed.

(** And a strictly lower one unless its own factor is saturated at the
    clamp. *)
Lemma issue_compatibility_lt (flagged clean : Shoe) (issues : list string)
    (x : string) :
  works_well_for (fit_profile flagged) = works_well_for (fit_profile clean) ->
  avoid_included (fit_profile clean) (fit_profile flagged) ->
  In x issues ->
  str_in x (or_list (avoid_if (fit_profile flagged))) = true ->
  str_in x (or_list (avoid_if (fit_profile clean))) = false ->
  product (map (issue_factor (fit_profile flagged)) issues) < 1 ->
  calculate_issue_compatibility flagged issues
  < calculate_issue_compatibility clean issues.
Proof.
  intros Hw Hinc Hin Hf Hc Hsat. rewrite !calculate_issue_compatibility_product.
  assert (Hlt : product (map (issue_factor (fit_profile flagged)) issues)
                < product (map (issue_factor (fit_profile clean)) issues)).
  { apply product_lt with (x := x); auto.
    - intros i _. split; [apply issue_factor_pos | now apply issue_factor_le].
    - now apply issue_factor_lt. }
  destruct (Q.min_spec (product (map (issue_factor (fit_profile flagged)) issues)) 1)
    as [[_ ->]|[Hge _]]; [|lra].
  destruct (Q.min_spec (product (map (issue_factor (fit_profile clean)) issues)) 1)
    as [[_ ->]|[_ ->]]; lra.
Qed.

End IssueOrder.

Module MatchProps.

Import Py PyFacts Scoring FactorProps.
Import Vocabulary.

Section WithFactors.

Context `{F : Factors}.

Lemma build_scores_get (shoe : Shoe) (up : UserProfile) (key : string) :
  dict_get (build_scores shoe up (calculate_terrain_match shoe up)) key 0.5
  = factor_score shoe up key.
Proof.
  unfold build_scores, factor_score.
  destruct (previous_shoes up) as [[|p ps]|]; cbn [app dict_get];
    repeat (match goal with
            | |- context [String.eqb key ?s] =>
                destruct (String.eqb_spec key s) as [->|?]
            end; try reflexivity; try congruence).
Qed.

Lemma weighted_sum_items (scores : dict Q) (weights : Weights) :
  NoDup (keys weights) ->
  weighted_sum scores weights
  = sum (map (fun kw => dict_get scores (fst kw) 0.5 * snd kw) weights).
Proof.
  intros Hnd. unfold weighted_sum, keys. rewrite map_map. f_equal.
  apply map_ext_in. intros [k v] Hin. simpl.
  now rewrite (dict_get_NoDup weights k v 1 Hnd Hin).
Qed.

Lemma calculate_match_score_survivor (shoe : Shoe) (up : UserProfile)
    (weights : Weights) :
  category shoe = up_category up ->
  ~ calculate_terrain_match shoe up == 0 ->
  ~ sum (values weights) == 0 ->
  calculate_match_score shoe up weights
  = Some (weighted_sum (build_scores shoe up (calculate_terrain_match shoe up))
                       weights
          / sum (values weights)).
Proof.
  intros Hcat Hter Hsum. unfold calculate_match_score, weighted_combination.
  rewrite Hcat, String.eqb_refl. simpl.
  destruct (Qeq_bool (calculate_terrain_match shoe up) 0) eqn:E.
  - apply Qeq_bool_eq in E. contradiction.
  - destruct (Qeq_bool (sum (values weights)) 0) eqn:E'.
    + apply Qeq_bool_eq in E'. contradiction.
    + reflexivity.
Qed.

(** C2, as the code has it. For a candidate that passes the two hard
    filters, and a weight vector that does not sum to zero, the match score
    is the weighted mean of the factor scores over the keys of the weight
    vector, a key with no computed score counting as 0.5. Pronation for a
    shoe that is not a running shoe contributes exactly 1; the history of
    previous shoes, when none is supplied, is not computed and contributes
    0.5; the position factor is what [calculate_position_match] returns. *)
Theorem match_score_weighted_mean (shoe : Shoe) (up : UserProfile)
    (weights : Weights) :
  category shoe = up_category up ->
  ~ calculate_terrain_match shoe up == 0 ->
  NoDup (keys weights) ->
  ~ sum (values weights) == 0 ->
  calculate_match_score shoe up weights
  = Some (weighted_mean (factor_score shoe up) weights)
  /\ (category shoe <> "running" -> factor_score shoe up "pronation" == 1)
  /\ (previous_shoes up = None \/ previous_shoes up = Some [] ->
      factor_score shoe up "history" == 0.5)
  /\ (forall ps, previous_shoes up = Some ps -> ps <> [] ->
      factor_score shoe up "history" = calculate_history_match shoe ps)
  /\ factor_score shoe up "position"
     = calculate_position_match shoe (position up)
  /\ (forall key,
        ~ In key (keys (build_scores shoe up (calculate_terrain_match shoe up))) ->
        factor_score shoe up key == 0.5).
Proof.
  intros Hcat Hter Hnd Hsum.
  split; [|split; [|split; [|split; [|split]]]].
  - rewrite calculate_match_score_survivor by assumption.
    rewrite weighted_sum_items by assumption.
    unfold weighted_mean. do 3 f_equal.
    apply map_ext. intros [k v]. cbn [fst snd]. now rewrite build_scores_get.
  - intros Hrun. unfold factor_score. simpl.
    unfold calculate_pronation_match.
    apply String.eqb_neq in Hrun. now rewrite Hrun.
  - intros [Hp|Hp]; unfold factor_score; simpl; rewrite Hp; reflexivity.
  - intros ps Hp Hne. unfold factor_score. simpl. rewrite Hp.
    destruct ps; [congruence | reflexivity].
  - reflexivity.
  - intros key Hkey. rewrite <- build_scores_get.
    revert Hkey.
    generalize (build_scores shoe up (calculate_terrain_match shoe up)).
    intros d. induction d as [|[k v] d IH]; simpl; intros Hkey; [reflexivity|].
    destruct (String.eqb_spec key k) as [->|Hne]; [tauto|].
    apply IH. tauto.
Qed.

End WithFactors.
End MatchProps.

Module RankingProps.

Import Py PyFacts Scoring FactorProps IssueOrder MatchProps.
Import Vocabulary.

(** *** The order of the ranked list *)

Lemma string_compare_refl (a : string) : String.compare a a = Eq.
Proof.
  pose proof (String.compare_antisym a a) as H.
  destruct (String.compare a a); simpl in H; congruence.
Qed.

Lemma string_leb_trans (a b c : string) :
  String.leb a b = true -> String.leb b c = true -> String.leb a c = true.
Proof.
  unfold String.leb. intros Hab Hbc.
  destruct (String.compare a b) eqn:Eab; try discriminate;
    destruct (String.compare b c) eqn:Ebc; try discriminate.
  - apply String.compare_eq_iff in Eab, Ebc. subst.
    now rewrite string_compare_refl.
  - apply String.compare_eq_iff in Eab. subst. now rewrite Ebc.
  - apply String.compare_eq_iff in Ebc. subst. now rewrite Eab.
  - apply OrderedTypeEx.String_as_OT.cmp_lt in Eab, Ebc.
    pose proof (OrderedTypeEx.String_as_OT.lt_trans _ _ _ Eab Ebc) as Hac.
    apply OrderedTypeEx.String_as_OT.cmp_lt in Hac.
    unfold OrderedTypeEx.String_as_OT.cmp in Hac. now rewrite Hac.
Qed.

Lemma ranks_before_total (a b : Shoe * Q) :
  ranks_before a b = true \/ ranks_before b a = true.
Proof.
  unfold ranks_before.
  destruct (snd b ?= snd a) eqn:E1; destruct (snd a ?= snd b) eqn:E2;
    auto; qcompare; try lra.
  destruct (sentiment_signal (fst b) ?= sentiment_signal (fst a)) eqn:E3;
    destruct (sentiment_signal (fst a) ?= sentiment_signal (fst b)) eqn:E4;
    auto; qcompare; try lra.
  apply String.leb_total.
Qed.

Lemma ranks_before_trans (a b c : Shoe * Q) :
  ranks_before a b = true -> ranks_before b c = true ->
  ranks_before a c = true.
Proof.
  unfold ranks_before.
  destruct (snd b ?= snd a) eqn:E1; try discriminate;
    destruct (snd c ?= snd b) eqn:E2; try discriminate;
    destruct (snd c ?= snd a) eqn:E3; auto; qcompare; try lra.
  destruct (sentiment_signal (fst b) ?= sentiment_signal (fst a)) eqn:E4;
    try discriminate;
    destruct (sentiment_signal (fst c) ?= sentiment_signal (fst b)) eqn:E5;
    try discriminate;
    destruct (sentiment_signal (fst c) ?= sentiment_signal (fst a)) eqn:E6;
    auto; qcompare; try lra.
  apply string_leb_trans.
Qed.

Lemma ranks_before_score (a b : Shoe * Q) :
  ranks_before a b = true -> snd b <= snd a.
Proof.
  unfold ranks_before.
  destruct (snd b ?= snd a) eqn:E; try discriminate; qcompare; intros; lra.
Qed.

Lemma ranks_before_antisym (a b : Shoe * Q) :
  ranks_before a b = true -> ranks_before b a = true ->
  shoe_id (fst a) = shoe_id (fst b).
Proof.
  unfold ranks_before.
  destruct (snd b ?= snd a) eqn:E1; destruct (snd a ?= snd b) eqn:E2;
    try discriminate; qcompare; try lra.
  destruct (sentiment_signal (fst b) ?= sentiment_signal (fst a)) eqn:E3;
    destruct (sentiment_signal (fst a) ?= sentiment_signal (fst b)) eqn:E4;
    try discriminate; qcompare; try lra.
  intros H1 H2. apply String.leb_antisym; assumption.
Qed.

Lemma insert_ranked_perm (x : Shoe * Q) (l : list (Shoe * Q)) :
  Permutation (insert_ranked x l) (x :: l).
Proof.
  induction l as [|y l IH]; simpl; [reflexivity|].
  destruct (ranks_before x y); [reflexivity|].
  rewrite IH. apply perm_swap.
Qed.

Lemma sort_ranked_perm (l : list (Shoe * Q)) : Permutation (sort_ranked l) l.
Proof.
  induction l as [|x l IH]; simpl; [reflexivity|].
  rewrite insert_ranked_perm. now constructor.
Qed.

Lemma insert_ranked_sorted (x : Shoe * Q) (l : list (Shoe * Q)) :
  StronglySorted before l -> StronglySorted before (insert_ranked x l).
Proof.
  induction 1 as [|y l Hs IH Hall]; simpl.
  - repeat constructor.
  - destruct (ranks_before x y) eqn:E.
    + constructor; [now constructor|].
      constructor; [exact E|].
      eapply Forall_impl; [|exact Hall].
      intros z Hz. eapply ranks_before_trans; eassumption.
    + constructor; [exact IH|].
      rewrite insert_ranked_perm. constructor; [|exact Hall].
      destruct (ranks_before_total x y) as [H|H]; [congruence | exact H].
Qed.

Lemma sort_ranked_sorted (l : list (Shoe * Q)) :
  StronglySorted before (sort_ranked l).
Proof.
  induction l as [|x l IH]; simpl; [constructor|].
  now apply insert_ranked_sorted.
Qed.

(** Two sorted lists with the same elements are the same list, when no two
    different elements tie. *)
Lemma sorted_perm_unique (l1 l2 : list (Shoe * Q)) :
  StronglySorted before l1 -> StronglySorted before l2 ->
  Permutation l1 l2 ->
  (forall a b, In a l1 -> In b l1 -> before a b -> before b a -> a = b) ->
  l1 = l2.
Proof.
  intros H1. revert l2.
  induction H1 as [|a l1 Hs1 IH Hall1]; intros l2 H2 Hp Hanti.
  - apply Permutation_nil in Hp. now subst.
  - destruct l2 as [|b l2].
    + apply Permutation_sym, Permutation_nil in Hp. discriminate.
    + inversion H2 as [|? ? Hs2 Hall2]; subst.
      assert (Hab : a = b).
      { assert (Ha : In a (b :: l2))
          by (eapply Permutation_in; [exact Hp | now left]).
        assert (Hb : In b (a :: l1))
          by (eapply Permutation_in;
              [apply Permutation_sym; exact Hp | now left]).
        destruct Ha as [Ha|Ha]; [now subst|].
        destruct Hb as [Hb|Hb]; [now subst|].
        rewrite Forall_forall in Hall1, Hall2.
        apply Hanti; [now left | now right | now apply Hall1 | now apply Hall2]. }
      subst b. f_equal.
      apply IH; [exact Hs2 | eapply Permutation_cons_inv; exact Hp |].
      intros x y Hx Hy. apply Hanti; now right.
Qed.

(** *** Ranks *)

Lemma assign_ranks_In (n : nat) (l : list (Shoe * Q)) (e : MatchEntry) :
  In e (assign_ranks n l) ->
  In (entry_shoe e, entry_score e) l /\ (n <= entry_rank e)%nat.
Proof.
  revert n. induction l as [|[s q] l IH]; simpl; intros n; [tauto|].
  intros [<-|Hin]; simpl.
  - split; [now left | lia].
  - destruct (IH _ Hin) as [H1 H2]. split; [now right | lia].
Qed.

Lemma assign_ranks_In_inv (n : nat) (l : list (Shoe * Q)) (p : Shoe * Q) :
  In p l ->
  exists e, In e (assign_ranks n l) /\ entry_shoe e = fst p
            /\ entry_score e = snd p.
Proof.
  revert n. induction l as [|[s q] l IH]; simpl; intros n; [tauto|].
  intros [<-|Hin].
  - eexists. split; [now left|]. simpl. auto.
  - destruct (IH (S n) Hin) as (e & He & H1 & H2).
    exists e. split; [now right | auto].
Qed.

(** In the ranks of a sorted list, the entry of the lower rank is placed
    before the other. *)
Lemma assign_ranks_sorted (n : nat) (l : list (Shoe * Q)) (ea eb : MatchEntry) :
  StronglySorted before l ->
  In ea (assign_ranks n l) -> In eb (assign_ranks n l) ->
  (entry_rank ea < entry_rank eb)%nat ->
  before (entry_shoe ea, entry_score ea) (entry_shoe eb, entry_score eb).
Proof.
  intros Hs. revert n.
  induction Hs as [|[s q] l Hs IH Hall]; simpl; intros n; [tauto|].
  intros [<-|Ha] [<-|Hb] Hlt; simpl in *.
  - lia.
  - apply assign_ranks_In in Hb. destruct Hb as [Hb _].
    rewrite Forall_forall in Hall. now apply Hall.
  - apply assign_ranks_In in Ha. lia.
  - eapply IH; eassumption.
Qed.

End RankingProps.

Module EngineProps.

Import Py PyFacts Scoring FactorProps IssueOrder MatchProps RankingProps.
Import Vocabulary.

Section WithFactors.

Context `{F : Factors}.

Lemma calculate_match_score_mismatch (shoe : Shoe) (up : UserProfile)
    (weights : Weights) :
  category shoe <> up_category up ->
  calculate_match_score shoe up weights = Some 0.
Proof.
  intros Hne. unfold calculate_match_score.
  apply String.eqb_neq in Hne. now rewrite Hne.
Qed.

Lemma calculate_match_score_total (shoe : Shoe) (up : UserProfile)
    (weights : Weights) :
  ~ sum (values weights) == 0 ->
  exists q, calculate_match_score shoe up weights = Some q.
Proof.
  intros Hsum. unfold calculate_match_score, weighted_combination.
  destruct (negb (String.eqb (category shoe) (up_category up))); [eauto|].
  destruct (Qeq_bool (calculate_terrain_match shoe up) 0); [eauto|].
  destruct (Qeq_bool (sum (values weights)) 0) eqn:E; [|eauto].
  apply Qeq_bool_eq in E. contradiction.
Qed.

Lemma score_all_spec (up : UserProfile) (weights : Weights)
    (shoes : list Shoe) (scored : list (Shoe * Q)) :
  score_all up weights shoes = Some scored ->
  map fst scored = shoes
  /\ forall p, In p scored ->
               calculate_match_score (fst p) up weights = Some (snd p).
Proof.
  revert scored. induction shoes as [|s shoes IH]; simpl; intros scored H.
  - inversion H; subst. split; [reflexivity | intros p []].
  - destruct (calculate_match_score s up weights) as [q|] eqn:Eq;
      [|discriminate].
    destruct (score_all up weights shoes) as [r|]; [|discriminate].
    inversion H; subst. destruct (IH r eq_refl) as [H1 H2].
    split; [simpl; now rewrite H1|].
    intros p [<-|Hp]; [exact Eq | now apply H2].
Qed.

Lemma score_all_total (up : UserProfile) (weights : Weights)
    (shoes : list Shoe) :
  ~ sum (values weights) == 0 ->
  exists scored, score_all up weights shoes = Some scored.
Proof.
  intros Hsum. induction shoes as [|s shoes [r IH]]; simpl; [eauto|].
  destruct (calculate_match_score_total s up weights Hsum) as [q ->].
  rewrite IH. eauto.
Qed.

Lemma in_scored (up : UserProfile) (weights : Weights) (shoes : list Shoe)
    (scored : list (Shoe * Q)) (shoe : Shoe) :
  score_all up weights shoes = Some scored -> In shoe shoes ->
  exists q, In (shoe, q) scored.
Proof.
  intros H Hin. apply score_all_spec in H. destruct H as [Hm _].
  rewrite <- Hm in Hin. apply in_map_iff in Hin.
  destruct Hin as ([s q] & Hs & Hp). simpl in Hs. subst. eauto.
Qed.

(** What an entry of the ranked output is. *)
Lemma score_entry (up : UserProfile) (candidates : list Shoe)
    (weights : Weights) (ranked : list MatchEntry) (e : MatchEntry) :
  score up candidates weights = Some ranked -> In e ranked ->
  In (entry_shoe e) candidates
  /\ survives up (entry_shoe e) = true
  /\ calculate_match_score (entry_shoe e) up weights = Some (entry_score e).
Proof.
  unfold score. intros H Hin.
  destruct (score_all up weights (filter (survives up) candidates))
    as [scored|] eqn:E; [|discriminate].
  simpl in H. inversion H; subst. clear H.
  apply assign_ranks_In in Hin. destruct Hin as [Hin _].
  apply (Permutation_in _ (sort_ranked_perm scored)) in Hin.
  apply score_all_spec in E. destruct E as [Hm Hq].
  assert (Hs : In (entry_shoe e) (filter (survives up) candidates)).
  { rewrite <- Hm. change (entry_shoe e) with (fst (entry_shoe e, entry_score e)).
    now apply in_map. }
  apply filter_In in Hs. destruct Hs as [Hc Hs].
  split; [exact Hc|]. split; [exact Hs|].
  exact (Hq _ Hin).
Qed.

(** A candidate that passes the two hard filters is ranked. *)
Lemma survivor_ranked (up : UserProfile) (candidates : list Shoe)
    (weights : Weights) (shoe : Shoe) :
  In shoe candidates -> survives up shoe = true ->
  ~ sum (values weights) == 0 ->
  exists ranked e,
    score up candidates weights = Some ranked /\ In e ranked
    /\ entry_shoe e = shoe
    /\ calculate_match_score shoe up weights = Some (entry_score e).
Proof.
  intros Hin Hs Hsum. unfold score.
  destruct (score_all_total up weights (filter (survives up) candidates) Hsum)
    as [scored E].
  rewrite E. simpl.
  assert (Hf : In shoe (filter (survives up) candidates))
    by (apply filter_In; auto).
  destruct (in_scored _ _ _ _ _ E Hf) as [q Hq].
  assert (Hq' : In (shoe, q) (sort_ranked scored))
    by (eapply Permutation_in;
        [apply Permutation_sym, sort_ranked_perm | exact Hq]).
  destruct (assign_ranks_In_inv 1 _ _ Hq') as (e & He & H1 & H2).
  exists (assign_ranks 1 (sort_ranked scored)), e.
  simpl in H1, H2. repeat split; auto.
  apply score_all_spec in E. destruct E as [_ E].
  rewrite H2. exact (E _ Hq).
Qed.

Lemma survives_iff (up : UserProfile) (shoe : Shoe) :
  survives up shoe = true
  <-> category shoe = up_category up
      /\ ~ calculate_terrain_match shoe up == 0.
Proof.
  unfold survives. rewrite andb_true_iff, String.eqb_eq, negb_true_iff.
  split; intros [H1 H2]; split; auto.
  - intros H. apply Qeq_bool_iff in H. congruence.
  - destruct (Qeq_bool (calculate_terrain_match shoe up) 0) eqn:E; auto.
    apply Qeq_bool_iff in E. contradiction.
Qed.

Lemma survives_mismatch (up : UserProfile) (shoe : Shoe) :
  category shoe <> up_category up -> survives up shoe = false.
Proof.
  intros Hne. unfold survives. apply String.eqb_neq in Hne. now rewrite Hne.
Qed.

(** C1. A product whose category differs from the requested one is
    excluded from the ranked output, whatever the scoring functions say of
    it: it is removed before any score is computed, so that the output,
    its failure included, is the output for the candidates without it; no
    entry of a returned ranked list references it, and every entry is a
    candidate of the requested category. *)
Theorem category_mismatch_excluded (up : UserProfile)
    (candidates : list Shoe) (weights : Weights) :
  (forall before after shoe,
     candidates = (before ++ shoe :: after)%list ->
     category shoe <> up_category up ->
     score up candidates weights = score up (before ++ after)%list weights)
  /\ (forall ranked e,
        score up candidates weights = Some ranked -> In e ranked ->
        In (entry_shoe e) candidates
        /\ category (entry_shoe e) = up_category up
        /\ forall shoe,
             category shoe <> up_category up -> entry_shoe e <> shoe).
Proof.
  split.
  - intros before after shoe -> Hne. unfold score.
    rewrite !filter_app. cbn [filter].
    now rewrite (survives_mismatch up shoe Hne).
  - intros ranked e Hr He.
    destruct (score_entry _ _ _ _ _ Hr He) as (Hin & Hs & _).
    apply survives_iff in Hs. destruct Hs as [Hc _].
    split; [exact Hin|]. split; [exact Hc|].
    intros shoe Hne Heq. rewrite Heq in Hc. contradiction.
Qed.

End WithFactors.

End EngineProps.

Module OrderProps.

Import Py PyFacts Scoring FactorProps IssueOrder MatchProps RankingProps.
Import Vocabulary.
Import EngineProps.

Section WithFactors.

Context `{F : Factors}.

(** *** The ranked list is sorted by score *)

Lemma score_sorted (up : UserProfile) (candidates : list Shoe)
    (weights : Weights) (ranked : list MatchEntry) (ea eb : MatchEntry) :
  score up candidates weights = Some ranked ->
  In ea ranked -> In eb ranked ->
  (entry_rank ea < entry_rank eb)%nat ->
  entry_score eb <= entry_score ea.
Proof.
  unfold score. intros H Ha Hb Hlt.
  destruct (score_all up weights (filter (survives up) candidates))
    as [scored|]; [|discriminate].
  simpl in H. inversion H; subst. clear H.
  pose proof (assign_ranks_sorted 1 _ ea eb (sort_ranked_sorted scored)
                Ha Hb Hlt) as Hbefore.
  apply ranks_before_score in Hbefore. exact Hbefore.
Qed.

(** *** Two products that differ in [avoid_if] only *)

Lemma factor_score_le (flagged clean : Shoe) (up : UserProfile) (key : string) :
  same_but_avoid_if flagged clean ->
  factors_agree flagged clean up ->
  avoid_included (fit_profile clean) (fit_profile flagged) ->
  factor_score flagged up key <= factor_score clean up key.
Proof.
  intros (Hcat & Hrun & Hprice & Hwidth & Hworks & Hsent)
         (Hter & Harch & Hcush & Hprio & Hdist & Hpos & Hhist) Hinc.
  unfold factor_score.
  repeat match goal with
         | |- context [String.eqb key ?s] => destruct (String.eqb key s)
         end;
    try (apply Qle_lteq; right; assumption);
    try apply Qle_refl.
  - unfold calculate_width_match. rewrite Hwidth. apply Qle_refl.
  - unfold calculate_pronation_match. rewrite Hcat, Hrun. apply Qle_refl.
  - now apply issue_compatibility_le.
  - rewrite Hprice. apply Qle_refl.
  - destruct (previous_shoes up) as [[|p ps]|]; try apply Qle_refl.
    apply Qle_lteq; right. apply Hhist.
  - rewrite Hsent. apply Qle_refl.
Qed.

Lemma weight_in_range (weights : Weights) (key : string) :
  in_clamp_range weights -> In key (keys weights) ->
  0.1 <= dict_get weights key 1.
Proof.
  intros Hr Hin. apply (dict_get_In weights key 1) in Hin.
  apply Hr in Hin. tauto.
Qed.

Lemma sum_values_pos (weights : Weights) :
  in_clamp_range weights -> ~ sum (values weights) == 0 ->
  0 < sum (values weights).
Proof.
  intros Hr Hne. apply sum_pos_bound with (lo := 0.1).
  - reflexivity.
  - intros E. apply Hne. unfold values in *. now rewrite E.
  - intros q Hq. unfold values in Hq. apply in_map_iff in Hq.
    destruct Hq as ([k v] & <- & Hin). simpl. apply Hr in Hin. tauto.
Qed.

Lemma weighted_sum_le (flagged clean : Shoe) (up : UserProfile)
    (weights : Weights) :
  (forall key, factor_score flagged up key <= factor_score clean up key) ->
  in_clamp_range weights ->
  weighted_sum (build_scores flagged up (calculate_terrain_match flagged up))
               weights
  <= weighted_sum (build_scores clean up (calculate_terrain_match clean up))
                  weights.
Proof.
  intros Hle Hr. unfold weighted_sum. apply sum_map_le.
  intros key Hin. rewrite !build_scores_get.
  pose proof (weight_in_range weights key Hr Hin).
  specialize (Hle key). nra.
Qed.

Lemma weighted_sum_lt (flagged clean : Shoe) (up : UserProfile)
    (weights : Weights) (key0 : string) :
  (forall key, factor_score flagged up key <= factor_score clean up key) ->
  in_clamp_range weights ->
  In key0 (keys weights) ->
  factor_score flagged up key0 < factor_score clean up key0 ->
  weighted_sum (build_scores flagged up (calculate_terrain_match flagged up))
               weights
  < weighted_sum (build_scores clean up (calculate_terrain_match clean up))
                 weights.
Proof.
  intros Hle Hr Hin Hlt. unfold weighted_sum.
  apply sum_map_lt with (a0 := key0); [|exact Hin|].
  - intros key Hk. rewrite !build_scores_get.
    pose proof (weight_in_range weights key Hr Hk).
    specialize (Hle key). nra.
  - rewrite !build_scores_get.
    pose proof (weight_in_range weights key0 Hr Hin). nra.
Qed.

(** The three ways [calculate_match_score] returns. *)
Lemma calculate_match_score_cases (shoe : Shoe) (up : UserProfile)
    (weights : Weights) (q : Q) :
  calculate_match_score shoe up weights = Some q ->
  (survives up shoe = false /\ q = 0)
  \/ (survives up shoe = true
      /\ ~ sum (values weights) == 0
      /\ q = weighted_sum
               (build_scores shoe up (calculate_terrain_match shoe up)) weights
             / sum (values weights)).
Proof.
  unfold calculate_match_score, survives, weighted_combination.
  destruct (String.eqb (category shoe) (up_category up)); simpl.
  - destruct (Qeq_bool (calculate_terrain_match shoe up) 0); simpl.
    + intros H. inversion H. now left.
    + destruct (Qeq_bool (sum (values weights)) 0) eqn:E; [discriminate|].
      intros H. inversion H. right. repeat split.
      intros H0. apply Qeq_bool_iff in H0. congruence.
  - intros H. inversion H. now left.
Qed.

Lemma survives_agree (flagged clean : Shoe) (up : UserProfile) :
  same_but_avoid_if flagged clean -> factors_agree flagged clean up ->
  survives up flagged = survives up clean.
Proof.
  intros (Hcat & _) (Hter & _). unfold survives. rewrite Hcat. f_equal. f_equal.
  destruct (Qeq_bool (calculate_terrain_match flagged up) 0) eqn:E1;
    destruct (Qeq_bool (calculate_terrain_match clean up) 0) eqn:E2; auto.
  - apply Qeq_bool_iff in E1. rewrite Hter in E1.
    apply Qeq_bool_iff in E1. congruence.
  - apply Qeq_bool_iff in E2. rewrite <- Hter in E2.
    apply Qeq_bool_iff in E2. congruence.
Qed.

Lemma flagged_score_le (up : UserProfile) (flagged clean : Shoe)
    (weights : Weights) (qf qc : Q) :
  avoid_included (fit_profile clean) (fit_profile flagged) ->
  same_but_avoid_if flagged clean ->
  factors_agree flagged clean up ->
  in_clamp_range weights ->
  calculate_match_score flagged up weights = Some qf ->
  calculate_match_score clean up weights = Some qc ->
  qf <= qc.
Proof.
  intros Hinc Hsame Hagree Hr Hf Hc.
  pose proof (survives_agree _ _ up Hsame Hagree) as Hs.
  apply calculate_match_score_cases in Hf, Hc.
  destruct Hf as [[Hf ->]|(Hf & Hsum & ->)];
    destruct Hc as [[Hc ->]|(Hc & _ & ->)]; try congruence.
  - apply Qle_refl.
  - pose proof (sum_values_pos weights Hr Hsum) as Hpos.
    apply Qmult_le_compat_r.
    + apply weighted_sum_le; [|exact Hr].
      intros key. now apply factor_score_le.
    + apply Qlt_le_weak, Qinv_lt_0_compat, Hpos.
Qed.

Lemma flagged_score_lt (up : UserProfile) (flagged clean : Shoe)
    (weights : Weights) (x : string) (qf qc : Q) :
  In x (foot_issues up) ->
  str_in x (or_list (avoid_if (fit_profile flagged))) = true ->
  str_in x (or_list (avoid_if (fit_profile clean))) = false ->
  avoid_included (fit_profile clean) (fit_profile flagged) ->
  same_but_avoid_if flagged clean ->
  factors_agree flagged clean up ->
  in_clamp_range weights ->
  calculate_match_score flagged up weights = Some qf ->
  calculate_match_score clean up weights = Some qc ->
  survives up flagged = true ->
  In "issues" (keys weights) ->
  product (map (issue_factor (fit_profile flagged)) (foot_issues up)) < 1 ->
  qf < qc.
Proof.
  intros Hx Hfx Hcx Hinc Hsame Hagree Hr Hf Hc Hsurv Hkey Hsat.
  pose proof (survives_agree _ _ up Hsame Hagree) as Hs.
  apply calculate_match_score_cases in Hf, Hc.
  destruct Hf as [[Hf ->]|(Hf & Hsum & ->)];
    destruct Hc as [[Hc ->]|(Hc & _ & ->)]; try congruence.
  pose proof (sum_values_pos weights Hr Hsum) as Hpos.
  apply Qmult_lt_compat_r; [apply Qinv_lt_0_compat, Hpos|].
  apply weighted_sum_lt with (key0 := "issues"); auto.
  - intros key. now apply factor_score_le.
  - unfold factor_score. simpl.
    destruct Hsame as (_ & _ & _ & _ & Hworks & _).
    now apply issue_compatibility_lt with (x := x).
Qed.

End WithFactors.

End OrderProps.

Module Determinism.

Import Py PyFacts Scoring FactorProps IssueOrder MatchProps RankingProps.
Import Vocabulary.
Import EngineProps.

Section WithFactors.

Context `{F : Factors}.

Lemma filter_perm {A : Type} (f : A -> bool) (l1 l2 : list A) :
  Permutation l1 l2 -> Permutation (filter f l1) (filter f l2).
Proof.
  induction 1 as [|x l1 l2 _ IH|x y l|l1 l2 l3 _ IH1 _ IH2]; simpl.
  - constructor.
  - destruct (f x); [now constructor | exact IH].
  - destruct (f x), (f y); try reflexivity. apply perm_swap.
  - now transitivity (filter f l2).
Qed.

Lemma score_all_perm (up : UserProfile) (weights : Weights)
    (l1 l2 : list Shoe) :
  Permutation l1 l2 ->
  same_scored (score_all up weights l1) (score_all up weights l2).
Proof.
  unfold same_scored.
  induction 1 as [|x l1 l2 _ IH|x y l|l1 l2 l3 _ IH1 _ IH2]; simpl.
  - constructor.
  - destruct (calculate_match_score x up weights); [|exact I].
    destruct (score_all up weights l1), (score_all up weights l2);
      try tauto. now constructor.
  - destruct (calculate_match_score x up weights),
             (calculate_match_score y up weights),
             (score_all up weights l); try exact I.
    apply perm_swap.
  - destruct (score_all up weights l1), (score_all up weights l2),
             (score_all up weights l3); try tauto.
    now transitivity l0.
Qed.

Lemma NoDup_map_eq {A B : Type} (f : A -> B) (l : list A) (x y : A) :
  NoDup (map f l) -> In x l -> In y l -> f x = f y -> x = y.
Proof.
  induction l as [|a l IH]; simpl; [tauto|].
  intros Hnd Hx Hy Hf. inversion Hnd as [|? ? Hnotin Hnd']; subst.
  destruct Hx as [->|Hx], Hy as [->|Hy]; auto.
  - exfalso. apply Hnotin. rewrite Hf. now apply in_map.
  - exfalso. apply Hnotin. rewrite <- Hf. now apply in_map.
Qed.

(** Among the scored shoes of candidates with distinct identifiers no two
    different entries tie. *)
Lemma scored_no_tie (up : UserProfile) (weights : Weights)
    (shoes : list Shoe) (scored : list (Shoe * Q)) (a b : Shoe * Q) :
  NoDup (map shoe_id shoes) ->
  score_all up weights shoes = Some scored ->
  In a scored -> In b scored ->
  before a b -> before b a -> a = b.
Proof.
  intros Hnd Hs Ha Hb Hab Hba.
  apply score_all_spec in Hs. destruct Hs as [Hm Hq].
  pose proof (ranks_before_antisym a b Hab Hba) as Hid.
  assert (Hfst : fst a = fst b).
  { apply (NoDup_map_eq shoe_id shoes); auto;
      rewrite <- Hm; now apply in_map. }
  pose proof (Hq a Ha) as Hqa. pose proof (Hq b Hb) as Hqb.
  rewrite Hfst, Hqb in Hqa. inversion Hqa.
  destruct a, b; simpl in *; congruence.
Qed.

Lemma NoDup_filter_ids (f : Shoe -> bool) (l : list Shoe) :
  NoDup (map shoe_id l) -> NoDup (map shoe_id (filter f l)).
Proof.
  induction l as [|s l IH]; simpl; intros H; [constructor|].
  inversion H as [|? ? Hnotin Hnd]; subst.
  destruct (f s); simpl; [|auto].
  constructor; [|auto].
  intros Hin. apply Hnotin. apply in_map_iff in Hin.
  destruct Hin as (s' & Hs' & Hin'). apply filter_In in Hin'.
  apply in_map_iff. exists s'. tauto.
Qed.

(** The ranked list and its scores do not depend on the order in which
    the candidate set is given, as long as the products have distinct
    identifiers. *)
Lemma score_order_independent (up : UserProfile) (weights : Weights)
    (candidates1 candidates2 : list Shoe) :
  NoDup (map shoe_id candidates1) ->
  Permutation candidates1 candidates2 ->
  score up candidates1 weights = score up candidates2 weights.
Proof.
  intros Hnd Hp. unfold score.
  pose proof (score_all_perm up weights _ _
                (filter_perm (survives up) _ _ Hp)) as Hs.
  unfold same_scored in Hs.
  destruct (score_all up weights (filter (survives up) candidates1))
    as [s1|] eqn:E1;
    destruct (score_all up weights (filter (survives up) candidates2))
      as [s2|] eqn:E2; try tauto.
  simpl. do 2 f_equal.
  apply sorted_perm_unique.
  - apply sort_ranked_sorted.
  - apply sort_ranked_sorted.
  - rewrite !sort_ranked_perm. exact Hs.
  - intros a b Ha Hb.
    apply (Permutation_in _ (sort_ranked_perm s1)) in Ha, Hb.
    apply (scored_no_tie up weights (filter (survives up) candidates1) s1);
      auto.
    now apply NoDup_filter_ids.
Qed.

End WithFactors.

End Determinism.

Module IngestionProps.

Import Py PyFacts Ingestion.
Import Vocabulary.

Lemma key_eqb_eq (k1 k2 : string * string * string) :
  key_eqb k1 k2 = true <-> k1 = k2.
Proof.
  destruct k1 as [[a1 b1] c1], k2 as [[a2 b2] c2]. unfold key_eqb.
  rewrite !andb_true_iff, !String.eqb_eq.
  split; [intros [[-> ->] ->]; reflexivity | intros H; inversion H; auto].
Qed.

Lemma stored_key (table : list ReviewRow) (row : ReviewRow) :
  existsb (fun r => key_eqb (review_key r) (review_key row)) table = true
  <-> In (review_key row) (map review_key table).
Proof.
  rewrite existsb_exists, in_map_iff.
  split; intros (r & H1 & H2).
  - apply key_eqb_eq in H2. eauto.
  - exists r. split; [exact H2 | now apply key_eqb_eq].
Qed.

(** A review whose triple is stored already leaves the table as it is. *)
Lemma store_review_duplicate (table : list ReviewRow) (shoe : string)
    (review : RawReview) :
  In (key_of shoe review) (map review_key table) ->
  store_review table shoe review = table.
Proof.
  intros Hin. unfold store_review.
  set (row := {| row_shoe_id := shoe; row_review := review |}).
  change (key_of shoe review) with (review_key row) in Hin.
  apply stored_key in Hin. now rewrite Hin.
Qed.

(** After the insert the triple of the review is stored. *)
Lemma store_review_stored (table : list ReviewRow) (shoe : string)
    (review : RawReview) :
  In (key_of shoe review) (map review_key (store_review table shoe review)).
Proof.
  unfold store_review.
  set (row := {| row_shoe_id := shoe; row_review := review |}).
  destruct (existsb _ table) eqn:E.
  - now apply stored_key in E.
  - rewrite map_app, in_app_iff. right. now left.
Qed.

(** Stored rows are never touched: the table only grows at its end. *)
Lemma store_review_extends (table : list ReviewRow) (shoe : string)
    (review : RawReview) :
  exists added, store_review table shoe review = (table ++ added)%list.
Proof.
  unfold store_review. destruct (existsb _ table).
  - exists []. now rewrite app_nil_r.
  - eauto.
Qed.

Lemma store_reviews_extends (table : list ReviewRow) (shoe : string)
    (reviews : list RawReview) :
  exists added, store_reviews table shoe reviews = (table ++ added)%list.
Proof.
  unfold store_reviews. revert table.
  induction reviews as [|r reviews IH]; intros table; simpl.
  - exists []. now rewrite app_nil_r.
  - destruct (store_review_extends table shoe r) as [a1 ->].
    destruct (IH (table ++ a1)%list) as [a2 ->].
    exists (a1 ++ a2)%list. now rewrite app_assoc.
Qed.

(** A payload whose triples are all stored leaves the table as it is. *)
Lemma store_reviews_duplicates (table : list ReviewRow) (shoe : string)
    (reviews : list RawReview) :
  (forall r, In r reviews -> In (key_of shoe r) (map review_key table)) ->
  store_reviews table shoe reviews = table.
Proof.
  unfold store_reviews.
  induction reviews as [|r reviews IH]; simpl; intros H; [reflexivity|].
  rewrite store_review_duplicate by (apply H; now left).
  apply IH. intros r' Hr'. apply H. now right.
Qed.

(** After a payload is stored the triple of each of its reviews is stored. *)
Lemma store_reviews_stored (table : list ReviewRow) (shoe : string)
    (reviews : list RawReview) (r : RawReview) :
  In r reviews ->
  In (key_of shoe r) (map review_key (store_reviews table shoe reviews)).
Proof.
  unfold store_reviews. revert table.
  induction reviews as [|r0 reviews IH]; simpl; intros table; [tauto|].
  intros [->|Hin]; [|now apply IH].
  destruct (store_reviews_extends (store_review table shoe r) shoe reviews)
    as [added E].
  unfold store_reviews in E. rewrite E, map_app, in_app_iff.
  left. apply store_review_stored.
Qed.

Lemma store_reviews_app (table : list ReviewRow) (shoe : string)
    (rs1 rs2 : list RawReview) :
  store_reviews table shoe (rs1 ++ rs2)
  = store_reviews (store_reviews table shoe rs1) shoe rs2.
Proof. unfold store_reviews. apply fold_left_app. Qed.

Lemma scrape_sources_spec (table : list ReviewRow) (all : list RawReview)
    (shoe : string) (outcomes : list SourceOutcome) :
  scrape_sources table all shoe outcomes
  = (store_reviews table shoe (scraped outcomes),
     (all ++ scraped outcomes)%list).
Proof.
  revert table all.
  induction outcomes as [|[rs|] outcomes IH]; intros table all.
  - simpl. now rewrite app_nil_r.
  - simpl. rewrite IH. unfold scraped. simpl.
    now rewrite store_reviews_app, app_assoc.
  - simpl. apply IH.
Qed.

Lemma store_review_unique (table : list ReviewRow) (shoe : string)
    (review : RawReview) :
  UNIQUE table -> UNIQUE (store_review table shoe review).
Proof.
  unfold UNIQUE, store_review. intros Hu.
  set (row := {| row_shoe_id := shoe; row_review := review |}).
  destruct (existsb _ table) eqn:E; [exact Hu|].
  rewrite map_app. simpl.
  apply NoDup_app_remove_l with (l := []). simpl.
  apply Permutation_NoDup with (l := review_key row :: map review_key table).
  - apply Permutation_cons_append.
  - constructor; [|exact Hu].
    intros Hin. apply stored_key in Hin. congruence.
Qed.

Lemma store_reviews_unique (table : list ReviewRow) (shoe : string)
    (reviews : list RawReview) :
  UNIQUE table -> UNIQUE (store_reviews table shoe reviews).
Proof.
  unfold store_reviews. revert table.
  induction reviews as [|r reviews IH]; simpl; intros table Hu; [exact Hu|].
  apply IH. now apply store_review_unique.
Qed.

Lemma scrape_shoe_reviews_table (store : Store) (shoe : string)
    (outcomes : list SourceOutcome) :
  shoe_reviews (fst (scrape_shoe_reviews store shoe outcomes))
  = store_reviews (shoe_reviews store) shoe (scraped outcomes).
Proof.
  unfold scrape_shoe_reviews. now rewrite scrape_sources_spec.
Qed.

(** C6. Ingesting a review whose (product, source, source-native-id) triple
    is stored already changes nothing: the table, and with it the number of
    stored reviews and the stored review itself, is the same, and the
    insert has no error to return. Running the ingestion task again on the
    same payload leaves the review table as the first run left it, and the
    uniqueness constraint holds throughout. *)
Theorem reingestion_is_noop (store : Store) (shoe : string)
    (review : RawReview) (outcomes : list SourceOutcome) :
  (In (key_of shoe review) (map review_key (shoe_reviews store)) ->
   store_review (shoe_reviews store) shoe review = shoe_reviews store)
  /\ shoe_reviews
       (fst (scrape_shoe_reviews
               (fst (scrape_shoe_reviews store shoe outcomes)) shoe outcomes))
     = shoe_reviews (fst (scrape_shoe_reviews store shoe outcomes))
  /\ (UNIQUE (shoe_reviews store) ->
      UNIQUE (shoe_reviews (fst (scrape_shoe_reviews store shoe outcomes)))).
Proof.
  split; [apply store_review_duplicate|].
  rewrite !scrape_shoe_reviews_table. split.
  - apply store_reviews_duplicates. intros r Hr.
    now apply store_reviews_stored.
  - apply store_reviews_unique.
Qed.

End IngestionProps.

Module ExtractionProps.

Import Py PyFacts Extraction.
Import Vocabulary.

Lemma dict_get_set_same {V : Type} (d : dict V) (key : string) (v default : V) :
  dict_get (dict_set d key v) key default = v.
Proof.
  induction d as [|[k v0] d IH]; simpl.
  - now rewrite String.eqb_refl.
  - destruct (String.eqb_spec key k) as [->|Hne]; simpl.
    + now rewrite String.eqb_refl.
    + apply String.eqb_neq in Hne. now rewrite Hne.
Qed.

Lemma dict_get_set_other {V : Type} (d : dict V) (key key' : string)
    (v default : V) :
  key' <> key ->
  dict_get (dict_set d key v) key' default = dict_get d key' default.
Proof.
  intros Hne. induction d as [|[k v0] d IH]; simpl.
  - apply String.eqb_neq in Hne. now rewrite Hne.
  - destruct (String.eqb_spec key k) as [->|Hk]; simpl.
    + apply String.eqb_neq in Hne. now rewrite Hne.
    + destruct (String.eqb key' k); [reflexivity | exact IH].
Qed.

(** [ReviewFitExtractor.extract_fit_profile] checks its reply against no
    schema: for a reply that is a JSON object, whatever its fields hold,
    the result is that object with [review_count] and [extraction_model]
    set and every other field as the reply gives it; a reply that is not a
    JSON object raises. *)
Lemma extractor_returns_reply_unchecked (reviews : list RawReview) :
  (forall doc,
      exists result,
        ReviewFitExtractor_extract_fit_profile reviews (Some (JObject doc))
        = Some result
        /\ dict_get result "review_count" JNull
           = JNumber (inject_Z (Z.of_nat (List.length reviews)))
        /\ dict_get result "extraction_model" JNull
           = JString EXTRACTION_MODEL
        /\ forall field,
             field <> "review_count" -> field <> "extraction_model" ->
             dict_get result field JNull = dict_get doc field JNull)
  /\ (forall response,
        (forall doc, response <> Some (JObject doc)) ->
        ReviewFitExtractor_extract_fit_profile reviews response = None).
Proof.
  split.
  - intros doc. eexists. split; [reflexivity|]. split; [|split].
    + rewrite dict_get_set_other by discriminate.
      apply dict_get_set_same.
    + apply dict_get_set_same.
    + intros field H1 H2.
      rewrite dict_get_set_other by exact H2.
      now rewrite dict_get_set_other by exact H1.
  - intros [[| | | | |doc]|] H; try reflexivity.
    exfalso. now apply (H doc).
Qed.

End ExtractionProps.

Module OptimizerProps.

Import Py PyFacts Optimizer.
Import Vocabulary.

Section WithOracle.

Context `{O : Oracle}.

(** The promotion step either keeps the active vector or activates a
    proposal whose held-out score is within the tolerance. *)
Lemma promote_cases (tolerance : Q) (store : WeightStore)
    (proposed : Weights) (held_out : list TrainingExample) :
  (active (promote tolerance store proposed held_out) = active store
   /\ history (promote tolerance store proposed held_out) = history store
   /\ rejected (promote tolerance store proposed held_out)
      = proposed :: rejected store)
  \/ (exists p a,
        evaluate (init proposed) held_out = Some p
        /\ evaluate (init (active store)) held_out = Some a
        /\ a - tolerance <= p
        /\ active (promote tolerance store proposed held_out) = proposed
        /\ history (promote tolerance store proposed held_out)
           = active store :: history store).
Proof.
  unfold promote.
  destruct (evaluate (init proposed) held_out) as [p|]; [|left; auto].
  destruct (evaluate (init (active store)) held_out) as [a|]; [|left; auto].
  destruct (Qle_bool (a - tolerance) p) eqn:E; [|left; auto].
  right. exists p, a. apply Qle_bool_iff in E. auto.
Qed.

(** A proposal within the tolerance is promoted. *)
Lemma promotion_accepts (tolerance : Q) (store : WeightStore)
    (proposed : Weights) (held_out : list TrainingExample) (p a : Q) :
  evaluate (init proposed) held_out = Some p ->
  evaluate (init (active store)) held_out = Some a ->
  a - tolerance <= p ->
  active (promote tolerance store proposed held_out) = proposed.
Proof.
  intros Hp Ha Hle. unfold promote. rewrite Hp, Ha.
  apply Qle_bool_iff in Hle. now rewrite Hle.
Qed.

(** C8. A proposed weight vector whose held-out score is below the active
    vector's score by more than the tolerance does not become active: the
    promotion step keeps the active vector and the history and logs the
    proposal as rejected, in a run of the optimizer as well. *)
Theorem promotion_guard (tolerance : Q) (store : WeightStore)
    (proposed : Weights) (held_out : list TrainingExample) (p a : Q) :
  evaluate (init proposed) held_out = Some p ->
  evaluate (init (active store)) held_out = Some a ->
  p < a - tolerance ->
  active (promote tolerance store proposed held_out) = active store
  /\ history (promote tolerance store proposed held_out) = history store
  /\ rejected (promote tolerance store proposed held_out)
     = proposed :: rejected store
  /\ forall examples opt,
       update_from_examples (init (active store)) examples = Some opt ->
       weights opt = proposed ->
       active (optimizer_run tolerance store examples held_out) = active store.
Proof.
  intros Hp Ha Hlt.
  assert (E : Qle_bool (a - tolerance) p = false).
  { destruct (Qle_bool (a - tolerance) p) eqn:E; [|reflexivity].
    apply Qle_bool_iff in E. lra. }
  assert (Hpromote : promote tolerance store proposed held_out
                     = {| active := active store;
                          history := history store;
                          rejected := proposed :: rejected store |}).
  { unfold promote. now rewrite Hp, Ha, E. }
  rewrite Hpromote. simpl. repeat split.
  intros examples opt Hupd Hw. unfold optimizer_run.
  rewrite Hupd, Hw, Hpromote. reflexivity.
Qed.

(** The clamp of [update_from_examples] keeps a weight within the range
    0.1 to 3. *)
Lemma clamp_in_range (w : Q) : 0.1 <= clamp w <= 3.
Proof.
  unfold clamp.
  destruct (Q.max_spec 0.1 (Qmin 3 w)) as [[H ->]|[H ->]];
    destruct (Q.min_spec 3 w) as [[H' E]|[H' E]]; rewrite ?E in *;
    split; lra.
Qed.

Lemma optimizer_run_active (tolerance : Q) (store : WeightStore)
    (examples held_out : list TrainingExample) :
  active (optimizer_run tolerance store examples held_out) = active store
  \/ vetted tolerance (active (optimizer_run tolerance store examples held_out)).
Proof.
  unfold optimizer_run.
  destruct (update_from_examples (init (active store)) examples) as [opt|];
    [|now left].
  destruct (promote_cases tolerance store (weights opt) held_out)
    as [(H & _)|(p & a & Hp & Ha & Hle & H & _)]; [now left|].
  right. rewrite H. exists (active store), held_out, p, a. auto.
Qed.

(** However many times the optimizer runs, the active vector is the
    initial one or a vector that passed the guard. *)
Lemma optimizer_runs_active (tolerance : Q) (store : WeightStore)
    (batches : list (list TrainingExample * list TrainingExample)) :
  active (optimizer_runs tolerance store batches) = active store
  \/ vetted tolerance (active (optimizer_runs tolerance store batches)).
Proof.
  unfold optimizer_runs. revert store.
  induction batches as [|[examples held_out] batches IH]; intros store; simpl.
  - now left.
  - destruct (IH (optimizer_run tolerance store examples held_out))
      as [H|H]; [|now right].
    rewrite H. apply optimizer_run_active.
Qed.

End WithOracle.

End OptimizerProps.

(** ** Worked cases of the scoring engine *)

Module ScoringCases.

Import Py PyFacts Scoring FactorProps IssueOrder MatchProps RankingProps.
Import Vocabulary.
Import EngineProps OrderProps Determinism Cases.

(** *** C9 *)

Lemma calculate_width_match_total_witness :
  calculate_width_match (fit_profile court_shoe)
    (foot (make_profile "running" (Some "extra_wide") [])) == 0.5.
Proof.
  apply (calculate_width_match_total (fit_profile court_shoe)
           (foot (make_profile "running" (Some "extra_wide") []))).
  reflexivity.
Defined.

Example width_default_pair :
  calculate_width_match (fit_profile court_shoe)
    (foot (make_profile "running" None [])) = 1.
Proof. reflexivity. Qed.

Example width_opposite :
  calculate_width_match (fit_profile (make_shoe "n" "running" (Some "narrow") [] []))
    (foot runner) = 0.1.
Proof. reflexivity. Qed.

(** *** C4 *)

(** A stated condition that the profile lists in [works_well_for] and in
    [avoid_if] as well multiplies the running score by 0.1, not by 1.2 or
    more. *)
Lemma works_well_for_hit_penalised :
  str_in "bunions" (or_list (works_well_for (fit_profile both_lists_shoe)))
  = true
  /\ issue_step (fit_profile both_lists_shoe) 1 "bunions" == 1 * 0.1
  /\ issue_step (fit_profile both_lists_shoe) 1 "bunions" < 1 * 1.2
  /\ calculate_issue_compatibility both_lists_shoe ["bunions"] == 0.1.
Proof. repeat split. Qed.

Lemma issue_compatibility_multiplicative_witness :
  issue_step (fit_profile both_lists_shoe) 1 "bunions" == 1 * 0.1
  /\ 0 <= calculate_issue_compatibility both_lists_shoe ["bunions"] <= 1.
Proof.
  destruct (issue_compatibility_multiplicative both_lists_shoe ["bunions"])
    as (_ & Havoid & _ & _ & Hrange).
  split; [apply Havoid; reflexivity | exact Hrange].
Defined.

(** *** C1 *)

(** [calculate_match_score] itself answers a product of another category
    with the number 0. *)
Example mismatched_category_scores_zero :
  category court_shoe = "basketball" /\ up_category runner = "running"
  /\ @calculate_match_score all_ones court_shoe runner DEFAULT_WEIGHTS
     = Some 0.
Proof. repeat split. Qed.

Lemma category_mismatch_excluded_witness :
  @score all_ones runner [court_shoe; road_shoe] DEFAULT_WEIGHTS
  = @score all_ones runner [road_shoe] DEFAULT_WEIGHTS.
Proof.
  apply (proj1 (@category_mismatch_excluded all_ones runner
                  [court_shoe; road_shoe] DEFAULT_WEIGHTS)
               [] [road_shoe] court_shoe).
  - reflexivity.
  - discriminate.
Defined.

(** The product of another category is not scored at all: with weights
    that sum to zero, for which scoring a product fails, the ranked list
    for it alone is the empty list, and the one for a product of the
    requested category is the failure. *)
Example mismatch_is_never_scored :
  @score all_ones runner [court_shoe] [("width", 0)] = Some []
  /\ @score all_ones runner [road_shoe] [("width", 0)] = None.
Proof. split; reflexivity. Qed.

Example runner_ranked_has_road_shoe :
  map (fun e => (shoe_id (entry_shoe e), entry_rank e)) runner_ranked
  = [("shoe-a", 1%nat)].
Proof. reflexivity. Qed.

(** *** C2 *)

Lemma default_weights_keys : NoDup (keys DEFAULT_WEIGHTS).
Proof.
  unfold DEFAULT_WEIGHTS, keys. simpl.
  repeat (constructor; [simpl; intuition discriminate|]). constructor.
Qed.

(** With no previous shoes, ['history'] is no key of the scores and counts
    as 0.5 in the weighted mean, not as 1. *)
Lemma history_counts_half :
  previous_shoes runner = None
  /\ has_key (@build_scores all_ones road_shoe runner 1) "history" = false
  /\ dict_get (@build_scores all_ones road_shoe runner 1) "history" 0.5 = 0.5
  /\ exists q,
       @calculate_match_score all_ones road_shoe runner [("history", 0.8)]
       = Some q
       /\ q == 0.5 /\ q < 1.
Proof.
  repeat split. eexists. split; [vm_compute; reflexivity|].
  split; reflexivity.
Qed.

Lemma match_score_weighted_mean_witness :
  @calculate_match_score all_ones road_shoe runner DEFAULT_WEIGHTS
  = Some (@weighted_mean (@factor_score all_ones road_shoe runner)
                         DEFAULT_WEIGHTS)
  /\ @factor_score all_ones road_shoe runner "history" == 0.5.
Proof.
  destruct (@match_score_weighted_mean all_ones road_shoe runner
              DEFAULT_WEIGHTS)
    as (Hmean & _ & Hhist & _).
  - reflexivity.
  - discriminate.
  - exact default_weights_keys.
  - discriminate.
  - split; [exact Hmean | apply Hhist; now left].
Defined.

(** The example scenario of the spec (section 8): for a wide-footed
    overpronator who states overpronation, shoe A (stability, runs wide)
    ranks strictly above shoe B (neutral, runs narrow, to avoid with
    overpronation), whose issue factor is at most 0.1. *)
Example scenario_a_above_b :
  calculate_issue_compatibility scenario_b (foot_issues scenario_user) <= 0.1
  /\ exists ranked qa qb,
       @score all_ones scenario_user [scenario_b; scenario_a] DEFAULT_WEIGHTS
       = Some ranked
       /\ map (fun e => (shoe_id (entry_shoe e), entry_rank e)) ranked
          = [("shoe-A", 1%nat); ("shoe-B", 2%nat)]
       /\ map entry_score ranked = [qa; qb] /\ qb < qa.
Proof.
  split; [unfold Qle; simpl; lia|].
  eexists. eexists. eexists.
  split; [vm_compute; reflexivity|].
  split; [reflexivity|]. split; reflexivity.
Qed.

(** *** A product flagged for a stated condition *)

Example flagged_issue_factor :
  calculate_issue_compatibility flagged_shoe ["bunions"] == 0.1.
Proof. reflexivity. Qed.

End ScoringCases.

(** ** Worked cases of the pipeline *)

Module PipelineCases.

Import Py PyFacts Scoring FactorProps IssueOrder MatchProps RankingProps.
Import Vocabulary.
Import EngineProps OrderProps Determinism IngestionProps ExtractionProps.
Import OptimizerProps Cases.

(** *** Two products that differ in [avoid_if] *)

Lemma default_weights_in_range : in_clamp_range DEFAULT_WEIGHTS.
Proof.
  intros k v Hin. unfold DEFAULT_WEIGHTS in Hin. simpl in Hin.
  repeat (destruct Hin as [Hin|Hin];
          [inversion Hin; subst; split; unfold Qle; simpl; lia|]).
  contradiction.
Qed.


(** The bound of 13 stated conditions is sharp: with fourteen, thirteen
    of them [works_well_for] hits, the issue factor of the flagged product
    is saturated at the clamp, and both products score the same. *)
Example fourteen_conditions_tie :
  List.length (foot_issues many_issues) = 14%nat
  /\ str_in "bunions" (or_list (avoid_if (fit_profile praised_flagged))) = true
  /\ str_in "bunions" (or_list (avoid_if (fit_profile praised_clean))) = false
  /\ same_but_avoid_if praised_flagged praised_clean
  /\ calculate_issue_compatibility praised_flagged (foot_issues many_issues)
     == 1
  /\ @calculate_match_score all_ones praised_flagged many_issues
       DEFAULT_WEIGHTS
     = @calculate_match_score all_ones praised_clean many_issues
         DEFAULT_WEIGHTS.
Proof.
  split; [reflexivity|]. split; [reflexivity|]. split; [reflexivity|].
  split; [repeat split|]. split; [reflexivity|].
  vm_compute. reflexivity.
Qed.

(** *** C6 *)

Lemma reingestion_is_noop_witness :
  Ingestion.store_review (shoe_reviews one_review_store) "shoe-a" review1_again
  = shoe_reviews one_review_store.
Proof.
  destruct (reingestion_is_noop one_review_store "shoe-a" review1_again [])
    as (Hdup & _ & _).
  apply Hdup. simpl. now left.
Defined.

Example ingest_twice :
  let outcomes := [Some [review1; review2]; None; Some [review1_again]] in
  let once := fst (Ingestion.scrape_shoe_reviews one_review_store "shoe-a" outcomes) in
  let twice := fst (Ingestion.scrape_shoe_reviews once "shoe-a" outcomes) in
  List.length (shoe_reviews once) = 2%nat
  /\ shoe_reviews twice = shoe_reviews once
  /\ extraction_queue twice = ["shoe-a"; "shoe-a"].
Proof. repeat split. Qed.

(** *** C8 *)

Example proposal_raises_terrain :
  dict_get proposed_weights "terrain" 0 == 2.01.
Proof. reflexivity. Qed.

Lemma promotion_guard_witness :
  Optimizer.active
    (@Optimizer.optimizer_run terrain_oracle 0.05 first_store [correction]
       [approval])
  = DEFAULT_WEIGHTS.
Proof.
  eapply (@promotion_guard terrain_oracle 0.05 first_store proposed_weights
            [approval]).
  - vm_compute. reflexivity.
  - vm_compute. reflexivity.
  - vm_compute. reflexivity.
  - vm_compute. reflexivity.
  - vm_compute. reflexivity.
Defined.

End PipelineCases.

(** ** More on the scoring engine *)

Module ScoreRange.

Import Py PyFacts Scoring FactorProps IssueOrder MatchProps RankingProps.
Import Vocabulary MoreVocabulary.
Import EngineProps OrderProps.

Lemma support_map_bounds : Forall (fun e => 0 <= snd e <= 1) support_map.
Proof. unfold support_map. repeat constructor; simpl; lra. Qed.

Lemma calculate_pronation_match_range (shoe : Shoe) (ft : FootProfile) :
  0 <= calculate_pronation_match shoe ft <= 1.
Proof.
  unfold calculate_pronation_match.
  destruct (negb (String.eqb (category shoe) "running")); [lra|].
  destruct (subcategory (running_attributes shoe)); [|lra].
  apply pair_get_bounds; [apply support_map_bounds | lra].
Qed.

(** X1. The pronation factor lies in [0,1]; it is 1 for a shoe that is no
    running shoe; a missing pronation counts as ['neutral']; and a running
    shoe whose subcategory and the user's pronation are no pair of the
    table gets 0.5: a shoe with no subcategory, and the subcategories
    ['racing'] and ['daily_trainer'] of the schema, for every runner. *)
Theorem calculate_pronation_match_table (shoe : Shoe) (ft : FootProfile) :
  0 <= calculate_pronation_match shoe ft <= 1
  /\ (category shoe <> "running" -> calculate_pronation_match shoe ft = 1)
  /\ (pronation ft = None ->
      calculate_pronation_match shoe ft
      = calculate_pronation_match shoe (set_pronation ft (Some "neutral")))
  /\ (category shoe = "running" ->
      subcategory (running_attributes shoe) = None ->
      calculate_pronation_match shoe ft = 0.5)
  /\ (category shoe = "running" ->
      forall sub,
        subcategory (running_attributes shoe) = Some sub ->
        ~ In (sub, or_str (pronation ft) "neutral") (map fst support_map) ->
        calculate_pronation_match shoe ft = 0.5)
  /\ (category shoe = "running" ->
      subcategory (running_attributes shoe) = Some "racing"
      \/ subcategory (running_attributes shoe) = Some "daily_trainer" ->
      calculate_pronation_match shoe ft = 0.5).
Proof.
  split; [apply calculate_pronation_match_range|].
  split; [|split; [|split; [|split]]].
  - intros Hne. unfold calculate_pronation_match.
    apply String.eqb_neq in Hne. now rewrite Hne.
  - intros Hp. unfold calculate_pronation_match. simpl. now rewrite Hp.
  - intros Hrun Hsub. unfold calculate_pronation_match.
    now rewrite Hrun, Hsub.
  - intros Hrun sub Hsub Hnot. unfold calculate_pronation_match.
    rewrite Hrun, Hsub, String.eqb_refl. cbn [negb].
    now apply pair_get_default.
  - intros Hrun Hsub. unfold calculate_pronation_match.
    rewrite Hrun, String.eqb_refl. cbn [negb].
    destruct Hsub as [-> | ->]; apply pair_get_default; simpl; intros Hin;
      repeat (destruct Hin as [Hin|Hin]; [discriminate Hin|]); exact Hin.
Qed.

Section WithFactors.

Context `{F : Factors}.

Lemma or_float_unit (shoe : Shoe) :
  sentiment_in_unit shoe ->
  0 <= or_float (overall_sentiment (fit_profile shoe)) 0.5 <= 1.
Proof.
  intros Hs. unfold or_float.
  destruct (overall_sentiment (fit_profile shoe)) as [v|] eqn:E; [|lra].
  destruct (Qeq_bool v 0); [lra | exact (Hs v E)].
Qed.

Lemma factor_score_unit (shoe : Shoe) (up : UserProfile) (key : string) :
  factors_in_unit -> sentiment_in_unit shoe ->
  0 <= factor_score shoe up key <= 1.
Proof.
  intros (Ht & Ha & Hc & Hp & Hd & Hpos & Hb & Hh) Hs.
  unfold factor_score.
  repeat match goal with
         | |- context [String.eqb key ?s] => destruct (String.eqb key s)
         end; auto; try lra.
  - apply pair_get_bounds; [apply width_map_bounds | lra].
  - apply calculate_pronation_match_range.
  - pose proof (calculate_issue_compatibility_bounds shoe (foot_issues up)).
    split; lra.
  - destruct (previous_shoes up) as [[|p ps]|]; auto; lra.
  - now apply or_float_unit.
Qed.

Lemma sum_nonneg (l : list Q) : (forall q, In q l -> 0 <= q) -> 0 <= sum l.
Proof.
  induction l as [|q l IH]; simpl; intros H; [apply Qle_refl|].
  assert (0 <= q) by (apply H; now left).
  assert (0 <= sum l) by (apply IH; auto). lra.
Qed.

Lemma sum_ge_term {A : Type} (f : A -> Q) (l : list A) (a0 : A) :
  (forall a, In a l -> 0 <= f a) -> In a0 l -> f a0 <= sum (map f l).
Proof.
  induction l as [|a l IH]; simpl; intros H Hin; [contradiction|].
  assert (0 <= f a) by (apply H; now left).
  assert (0 <= sum (map f l)).
  { apply sum_nonneg. intros q Hq. apply in_map_iff in Hq.
    destruct Hq as (x & <- & Hx). apply H. now right. }
  destruct Hin as [->|Hin]; [lra|].
  assert (f a0 <= sum (map f l)) by (apply IH; auto). lra.
Qed.

(** X2. When every scoring function without a body answers within [0,1],
    the sentiment lies in [0,1] and no weight is negative, the match score
    lies in [0,1], as the docstring of [calculate_match_score] says. *)
Theorem match_score_in_unit (shoe : Shoe) (up : UserProfile)
    (weights : Weights) (q : Q) :
  factors_in_unit -> sentiment_in_unit shoe ->
  NoDup (keys weights) ->
  (forall k v, In (k, v) weights -> 0 <= v) ->
  calculate_match_score shoe up weights = Some q ->
  0 <= q <= 1.
Proof.
  intros HF Hs Hnd Hw Hq.
  apply calculate_match_score_cases in Hq.
  destruct Hq as [[_ ->]|(_ & Hsum & ->)]; [lra|].
  assert (Hpos : 0 < sum (values weights)).
  { assert (0 <= sum (values weights)).
    { apply sum_nonneg. intros v Hv. unfold values in Hv.
      apply in_map_iff in Hv. destruct Hv as ([k v'] & <- & Hin).
      simpl. eapply Hw; eassumption. }
    destruct (Qeq_dec (sum (values weights)) 0); [contradiction | lra]. }
  rewrite weighted_sum_items by assumption.
  set (terms := map _ weights).
  assert (Hlo : 0 <= sum terms).
  { apply sum_nonneg. intros t Ht. unfold terms in Ht.
    apply in_map_iff in Ht. destruct Ht as ([k v] & <- & Hin). cbn [fst snd].
    rewrite build_scores_get.
    pose proof (factor_score_unit shoe up k HF Hs).
    pose proof (Hw k v Hin). nra. }
  assert (Hhi : sum terms <= sum (values weights)).
  { unfold terms, values. apply sum_map_le. intros [k v] Hin. cbn [fst snd].
    rewrite build_scores_get.
    pose proof (factor_score_unit shoe up k HF Hs).
    pose proof (Hw k v Hin). nra. }
  split.
  - apply Qle_shift_div_l; [exact Hpos | lra].
  - apply Qle_shift_div_r; [exact Hpos | lra].
Qed.

(** A product that passes the category and the terrain check has a
    positive score. *)
Lemma passing_score_pos (shoe : Shoe) (up : UserProfile)
    (weights : Weights) (q : Q) :
  factors_in_unit -> sentiment_in_unit shoe ->
  in_clamp_range weights -> In "terrain" (keys weights) ->
  category shoe = up_category up ->
  ~ calculate_terrain_match shoe up == 0 ->
  calculate_match_score shoe up weights = Some q ->
  0 < q.
Proof.
  intros HF Hs Hr Hkey Hcat Hter Hq.
  assert (Hsum : ~ sum (values weights) == 0).
  { intros E. unfold calculate_match_score, weighted_combination in Hq.
    rewrite Hcat, String.eqb_refl in Hq. cbn [negb] in Hq.
    destruct (Qeq_bool (calculate_terrain_match shoe up) 0) eqn:E0.
    - apply Qeq_bool_eq in E0. contradiction.
    - apply Qeq_bool_iff in E. cbv zeta in Hq. rewrite E in Hq.
      discriminate Hq. }
  rewrite (calculate_match_score_survivor shoe up weights Hcat Hter Hsum)
    in Hq.
  injection Hq as Hq. rewrite <- Hq.
  pose proof (sum_values_pos weights Hr Hsum) as Hpos.
  apply Qlt_shift_div_l; [exact Hpos|]. rewrite Qmult_0_l.
  assert (Hterm : 0 < dict_get
                        (build_scores shoe up (calculate_terrain_match shoe up))
                        "terrain" 0.5
                      * dict_get weights "terrain" 1).
  { rewrite build_scores_get. unfold factor_score.
    rewrite String.eqb_refl.
    destruct HF as (Ht & _).
    pose proof (Ht shoe up).
    pose proof (weight_in_range weights "terrain" Hr Hkey).
    assert (0 < calculate_terrain_match shoe up).
    { destruct (Qeq_dec (calculate_terrain_match shoe up) 0);
        [contradiction | lra]. }
    nra. }
  unfold weighted_sum.
  eapply Qlt_le_trans; [exact Hterm|].
  apply (sum_ge_term
           (fun key =>
              dict_get (build_scores shoe up (calculate_terrain_match shoe up))
                       key 0.5 * dict_get weights key 1)
           (keys weights) "terrain"); [|exact Hkey].
  intros key Hin. rewrite build_scores_get.
  pose proof (factor_score_unit shoe up key HF Hs).
  pose proof (weight_in_range weights key Hr Hin). nra.
Qed.

(** X3. With weights within the clamp range, ['terrain'] among them,
    scoring functions that answer within [0,1] and a sentiment of the fit
    profile within [0,1], [calculate_match_score] returns zero for the
    products the hard filters reject and a positive score for every other
    product: a zero score always means a rejected product. *)
Theorem zero_score_means_filtered (shoe : Shoe) (up : UserProfile)
    (weights : Weights) (q : Q) :
  factors_in_unit -> sentiment_in_unit shoe ->
  in_clamp_range weights -> In "terrain" (keys weights) ->
  calculate_match_score shoe up weights = Some q ->
  (survives up shoe = false -> q = 0)
  /\ (survives up shoe = true -> 0 < q).
Proof.
  intros HF Hs Hr Hkey Hq. split.
  - intros Hno. apply calculate_match_score_cases in Hq.
    destruct Hq as [[_ ->]|(Hsurv & _)]; [reflexivity | congruence].
  - intros Hsurv. apply survives_iff in Hsurv. destruct Hsurv as [Hcat Hter].
    now apply (passing_score_pos shoe up weights).
Qed.

End WithFactors.

End ScoreRange.

(** ** The reasoning text *)

Module ReasoningProps.

Import Py PyFacts Scoring Reasoning.
Import Vocabulary MoreVocabulary.

Lemma opt_eqb_false (s : option string) (literal : string) :
  s <> Some literal -> opt_eqb s literal = false.
Proof.
  destruct s as [v|]; simpl; [|reflexivity].
  intros H. apply String.eqb_neq. congruence.
Qed.

(** X4. The reasoning text prints a missing foot width as the word None:
    when the width score is above 0.9, the profile has no foot width and
    not both of the earlier reasons (pronation, cushioning) apply, the
    text returned contains "fits well for None feet". *)
Theorem reasoning_prints_missing_width (shoe : Shoe) (up : UserProfile)
    (scores : dict Q) :
  0.9 < dict_get scores "width" 0 ->
  width (foot up) = None ->
  pronation (foot up) <> Some "overpronation"
  \/ ~ In "cushion" (priorities up) ->
  exists before_it after_it,
    generate_reasoning shoe up scores
    = before_it ++ "fits well for None feet" ++ after_it.
Proof.
  intros Hw Hnone Hearlier.
  unfold generate_reasoning, reasons. rewrite Hnone.
  destruct (Qlt_le_dec 0.9 (dict_get scores "width" 0)) as [_|Hle]; [|lra].
  cbn [fstr].
  destruct Hearlier as [Hp|Hc].
  - rewrite (opt_eqb_false _ _ Hp).
    assert (Hnil : (if Qlt_le_dec 0.8 (dict_get scores "pronation" 0)
                    then @nil string else []) = [])
      by (destruct (Qlt_le_dec 0.8 (dict_get scores "pronation" 0));
          reflexivity).
    rewrite Hnil. cbn [app].
    destruct (Qlt_le_dec 0.8 (dict_get scores "cushion" 0));
      [destruct (str_in "cushion" (priorities up))|]; cbn [app].
    + exists "This shoe offers the high cushioning you prioritized and ", ".".
      reflexivity.
    + destruct (if String.eqb (category shoe) "running"
                then if str_in "marathon" (distances up)
                     then ["built for long-distance comfort"] else []
                else []) as [|r rest].
      * exists "This shoe ", ".". reflexivity.
      * exists "This shoe ", (" and " ++ r ++ "."). reflexivity.
    + destruct (if String.eqb (category shoe) "running"
                then if str_in "marathon" (distances up)
                     then ["built for long-distance comfort"] else []
                else []) as [|r rest].
      * exists "This shoe ", ".". reflexivity.
      * exists "This shoe ", (" and " ++ r ++ "."). reflexivity.
  - apply str_in_false in Hc. rewrite Hc.
    assert (Hnil : (if Qlt_le_dec 0.8 (dict_get scores "cushion" 0)
                    then @nil string else []) = [])
      by (destruct (Qlt_le_dec 0.8 (dict_get scores "cushion" 0));
          reflexivity).
    rewrite Hnil. cbn [app].
    destruct (Qlt_le_dec 0.8 (dict_get scores "pronation" 0));
      [destruct (opt_eqb (pronation (foot up)) "overpronation")|];
      cbn [app].
    + exists "This shoe provides the stability support you need for overpronation and ", ".".
      reflexivity.
    + destruct (if String.eqb (category shoe) "running"
                then if str_in "marathon" (distances up)
                     then ["built for long-distance comfort"] else []
                else []) as [|r rest].
      * exists "This shoe ", ".". reflexivity.
      * exists "This shoe ", (" and " ++ r ++ "."). reflexivity.
    + destruct (if String.eqb (category shoe) "running"
                then if str_in "marathon" (distances up)
                     then ["built for long-distance comfort"] else []
                else []) as [|r rest].
      * exists "This shoe ", ".". reflexivity.
      * exists "This shoe ", (" and " ++ r ++ "."). reflexivity.
Qed.

(** The width score of a shoe that runs true, or has no verdict, for a
    profile with no foot width is 1: the case of the theorem above arises
    from the scores of [calculate_match_score]. *)
Lemma missing_width_scores_one `{Factors} (shoe : Shoe) (up : UserProfile)
    (terrain : Q) :
  width (foot up) = None ->
  or_str (width_runs (fit_profile shoe)) "true" = "true" ->
  dict_get (build_scores shoe up terrain) "width" 0 = 1.
Proof.
  intros Hw Hs. unfold build_scores. cbn [app dict_get String.eqb].
  simpl. unfold calculate_width_match. now rewrite Hw, Hs.
Qed.

End ReasoningProps.

(** ** Worked cases of the score range and the reasoning text *)

Module ScoreRangeCases.

Import Py PyFacts Scoring FactorProps IssueOrder MatchProps RankingProps.
Import Vocabulary MoreVocabulary.
Import EngineProps OrderProps Reasoning ScoreRange ReasoningProps.
Import Cases MoreCases.

Lemma all_ones_in_unit : @factors_in_unit all_ones.
Proof. repeat split; simpl; lra. Qed.

Lemma make_shoe_sentiment (id cat : string) (w : option string)
    (works avoid : list string) :
  sentiment_in_unit (make_shoe id cat w works avoid).
Proof. intros v Hv. simpl in Hv. injection Hv as <-. lra. Qed.

Lemma calculate_pronation_match_table_witness :
  0 <= calculate_pronation_match racing_shoe (foot unmeasured_runner) <= 1
  /\ calculate_pronation_match racing_shoe (foot unmeasured_runner) = 0.5.
Proof.
  destruct (calculate_pronation_match_table racing_shoe
              (foot unmeasured_runner)) as (Hrange & _ & _ & _ & _ & Hrace).
  split; [exact Hrange|]. apply Hrace; [reflexivity | now left].
Defined.

Lemma match_score_in_unit_witness :
  exists q,
    @calculate_match_score all_ones road_shoe runner DEFAULT_WEIGHTS = Some q
    /\ 0 <= q <= 1.
Proof.
  eexists. split; [vm_compute; reflexivity|].
  apply (@match_score_in_unit all_ones road_shoe runner DEFAULT_WEIGHTS).
  - exact all_ones_in_unit.
  - apply make_shoe_sentiment.
  - exact ScoringCases.default_weights_keys.
  - intros k v Hin. apply PipelineCases.default_weights_in_range in Hin.
    destruct Hin as [Hlo _]. lra.
  - vm_compute. reflexivity.
Defined.

Lemma zero_score_means_filtered_witness :
  exists q,
    @calculate_match_score all_ones road_shoe runner DEFAULT_WEIGHTS = Some q
    /\ @survives all_ones runner road_shoe = true
    /\ 0 < q.
Proof.
  eexists. split; [vm_compute; reflexivity|]. split; [reflexivity|].
  apply (@zero_score_means_filtered all_ones road_shoe runner
           DEFAULT_WEIGHTS).
  - exact all_ones_in_unit.
  - apply make_shoe_sentiment.
  - exact PipelineCases.default_weights_in_range.
  - unfold DEFAULT_WEIGHTS, keys. simpl. tauto.
  - vm_compute. reflexivity.
  - reflexivity.
Defined.

Lemma reasoning_prints_missing_width_witness :
  generate_reasoning both_lists_shoe unmeasured_runner
    (@build_scores all_ones both_lists_shoe unmeasured_runner 1)
  = "This shoe provides the stability support you need for overpronation and fits well for None feet."
  /\ exists before_it after_it,
       generate_reasoning both_lists_shoe unmeasured_runner
         (@build_scores all_ones both_lists_shoe unmeasured_runner 1)
       = before_it ++ "fits well for None feet" ++ after_it.
Proof.
  split; [vm_compute; reflexivity|].
  apply (reasoning_prints_missing_width both_lists_shoe unmeasured_runner).
  - rewrite (@missing_width_scores_one all_ones); [lra | reflexivity ..].
  - reflexivity.
  - right. simpl. intuition discriminate.
Defined.

End ScoreRangeCases.

(** ** The weight update *)

Module UpdateProps.

Import Py PyFacts Optimizer ExtractionProps OptimizerProps.
Import Vocabulary MoreVocabulary.

Section WithOracle.

Context `{O : Oracle}.

(** *** Dictionaries *)

Lemma dict_set_keys_In {V : Type} (d : dict V) (key : string) (v : V)
    (k : string) :
  In k (keys (dict_set d key v)) <-> In k (keys d) \/ k = key.
Proof.
  induction d as [|[k0 v0] d IH]; simpl.
  - intuition auto.
  - destruct (String.eqb_spec key k0) as [->|Hne]; simpl.
    + intuition auto.
    + rewrite IH. intuition auto.
Qed.

Lemma dict_set_keys_same {V : Type} (d : dict V) (key : string) (v : V) :
  has_key d key = true -> keys (dict_set d key v) = keys d.
Proof.
  unfold has_key. induction d as [|[k0 v0] d IH]; simpl; [discriminate|].
  destruct (String.eqb_spec key k0) as [->|Hne]; simpl; [reflexivity|].
  intros H. now rewrite IH.
Qed.

Lemma dict_set_In {V : Type} (d : dict V) (key : string) (v : V)
    (k : string) (x : V) :
  In (k, x) (dict_set d key v) -> (k = key /\ x = v) \/ In (k, x) d.
Proof.
  induction d as [|[k0 v0] d IH]; simpl.
  - intros [H|[]]. left. now inversion H.
  - destruct (String.eqb_spec key k0) as [->|Hne]; simpl.
    + intros [H|H]; [left; now inversion H | auto].
    + intros [H|H]; [auto|]. apply IH in H. tauto.
Qed.

Lemma dict_get_any_default {V : Type} (d : dict V) (k : string) (a b : V) :
  has_key d k = true -> dict_get d k a = dict_get d k b.
Proof.
  unfold has_key. induction d as [|[k0 v0] d IH]; simpl; [discriminate|].
  destruct (String.eqb k k0); auto.
Qed.

Lemma dict_get_absent {V : Type} (d : dict V) (k : string) (a : V) :
  has_key d k = false -> dict_get d k a = a.
Proof.
  unfold has_key. induction d as [|[k0 v0] d IH]; simpl; [reflexivity|].
  destruct (String.eqb k k0); [discriminate | auto].
Qed.

Lemma dict_get_cases {V : Type} (d : dict V) (k : string) (a : V) :
  dict_get d k a = a \/ In (k, dict_get d k a) d.
Proof.
  induction d as [|[k0 v0] d IH]; simpl; [now left|].
  destruct (String.eqb_spec k k0) as [->|Hne]; [right; now left|].
  destruct IH; auto.
Qed.

Lemma keys_nil {V : Type} (d : dict V) : keys d = [] -> d = [].
Proof. destruct d; [reflexivity | discriminate]. Qed.

(** *** Which factors are adjusted *)

Lemma append_adjustment_keys (adj : dict (list Q)) (factor : string)
    (delta : Q) (k : string) :
  In k (keys (append_adjustment adj factor delta))
  <-> In k (keys adj) \/ k = factor.
Proof. unfold append_adjustment. apply dict_set_keys_In. Qed.

Lemma note_factors_keys (factor_scores : dict Q) (adj : dict (list Q))
    (rank_delta : Z) (k : string) :
  In k (keys (note_factors adj factor_scores rank_delta))
  <-> In k (keys adj)
      \/ exists score, In (k, score) factor_scores /\ 0.7 < score.
Proof.
  unfold note_factors. revert adj.
  induction factor_scores as [|[f s] fs IH]; intros adj; cbn [fold_left].
  - split; [auto | intros [H|(s & [] & _)]; exact H].
  - rewrite IH. cbn [fst snd].
    destruct (Qlt_le_dec 0.7 s) as [Hlt|Hle].
    + rewrite append_adjustment_keys. split.
      * intros [[H| ->]|(s' & Hin & Hs)]; [now left | |].
        -- right. exists s. split; [now left | exact Hlt].
        -- right. exists s'. split; [now right | exact Hs].
      * intros [H|(s' & [Heq|Hin] & Hs)]; [now left; left | |].
        -- inversion Heq; subst. left. now right.
        -- right. now exists s'.
    + split.
      * intros [H|(s' & Hin & Hs)]; [now left|].
        right. exists s'. split; [now right | exact Hs].
      * intros [H|(s' & [Heq|Hin] & Hs)]; [now left | |].
        -- inversion Heq; subst. lra.
        -- right. now exists s'.
Qed.

Lemma note_ideal_keys (example : TrainingExample) (ideal : list string)
    (adj : dict (list Q)) (i : Z) (k : string) :
  In k (keys (note_ideal adj example i ideal))
  <-> In k (keys adj)
      \/ exists j shoe,
           nth_error ideal j = Some shoe
           /\ (i + Z.of_nat j
               < index_or_999 shoe (original_ranking example))%Z
           /\ scores_well example shoe k.
Proof.
  revert adj i. induction ideal as [|shoe rest IH]; intros adj i;
    cbn [note_ideal].
  - split; [auto|]. intros [H|(j & s & Hn & _)]; [exact H|].
    destruct j; discriminate Hn.
  - rewrite IH.
    assert (Hhere :
      In k (keys (if (0 <? index_or_999 shoe (original_ranking example) - i)%Z
                  then note_factors adj
                         (calculate_factor_scores (get_shoe shoe)
                            (quiz_answers example))
                         (index_or_999 shoe (original_ranking example) - i)
                  else adj))
      <-> In k (keys adj)
          \/ ((i < index_or_999 shoe (original_ranking example))%Z
              /\ scores_well example shoe k)).
    { destruct (Z.ltb_spec 0
                  (index_or_999 shoe (original_ranking example) - i)).
      - rewrite note_factors_keys. unfold scores_well.
        split; (intros [H'|H']; [now left | right]); [split; [lia|]|]; tauto.
      - split; [auto | intros [H'|[H' _]]; [exact H' | lia]]. }
    rewrite Hhere. split.
    + intros [[H|[Hlt Hs]]|(j & s & Hn & Hlt & Hs)].
      * now left.
      * right. exists 0%nat, shoe. split; [reflexivity|].
        split; [simpl; lia | exact Hs].
      * right. exists (S j), s. split; [exact Hn|]. split; [lia | exact Hs].
    + intros [H|(j & s & Hn & Hlt & Hs)]; [now left; left|].
      destruct j as [|j]; simpl in Hn.
      * injection Hn as <-. left. right. split; [simpl in Hlt; lia | exact Hs].
      * right. exists j, s. split; [exact Hn|]. split; [lia | exact Hs].
Qed.

Lemma collect_from_keys (examples : list TrainingExample)
    (adj : dict (list Q)) (k : string) :
  In k (keys (fold_left
                (fun adj example =>
                   if String.eqb (example_source example) "admin_correction"
                   then note_ideal adj example 0%Z (ideal_ranking example)
                   else adj)
                examples adj))
  <-> In k (keys adj) \/ adjusted examples k.
Proof.
  revert adj. induction examples as [|e rest IH]; intros adj;
    cbn [fold_left].
  - split; [auto|]. intros [H|(e & _ & _ & [] & _)]. exact H.
  - rewrite IH. unfold adjusted.
    destruct (String.eqb_spec (example_source e) "admin_correction")
      as [Hsrc|Hsrc].
    + rewrite note_ideal_keys. split.
      * intros [[H|(j & s & Hn & Hlt & Hs)]|(e' & j & s & Hin & Hrest)].
        -- now left.
        -- right. exists e, j, s. split; [now left|]. split; [exact Hsrc|].
           split; [split; [exact Hn | lia] | exact Hs].
        -- right. exists e', j, s. split; [now right | exact Hrest].
      * intros [H|(e' & j & s & [<-|Hin] & Hsrc' & [Hn Hlt] & Hs)].
        -- now left; left.
        -- left. right. exists j, s. split; [exact Hn|].
           split; [lia | exact Hs].
        -- right. exists e', j, s. repeat split; assumption.
    + split.
      * intros [H|(e' & j & s & Hin & Hrest)]; [now left|].
        right. exists e', j, s. split; [now right | exact Hrest].
      * intros [H|(e' & j & s & [<-|Hin] & Hsrc' & Hrest)]; [now left | |].
        -- contradiction.
        -- right. exists e', j, s. split; [exact Hin|].
           split; [exact Hsrc' | exact Hrest].
Qed.

Lemma collect_adjustments_keys (examples : list TrainingExample)
    (k : string) :
  In k (keys (collect_adjustments examples)) <-> adjusted examples k.
Proof.
  unfold collect_adjustments. rewrite collect_from_keys. simpl. tauto.
Qed.

(** *** Applying the adjustments *)

Lemma apply_adjustments_keys (adj : list (string * list Q))
    (opt opt' : WeightOptimizer) :
  apply_adjustments opt adj = Some opt' ->
  keys (weights opt') = keys (weights opt)
  /\ learning_rate opt' = learning_rate opt.
Proof.
  revert opt. induction adj as [|[f ds] rest IH]; intros opt; simpl.
  - intros H. injection H as <-. auto.
  - destruct (has_key (weights opt) f) eqn:E; [|discriminate].
    intros H. apply IH in H. simpl in H. destruct H as [Hk Hl].
    split; [|exact Hl]. rewrite Hk. now apply dict_set_keys_same.
Qed.

Lemma apply_adjustments_untouched (adj : list (string * list Q))
    (opt opt' : WeightOptimizer) (k : string) (d : Q) :
  apply_adjustments opt adj = Some opt' ->
  ~ In k (keys adj) ->
  dict_get (weights opt') k d = dict_get (weights opt) k d.
Proof.
  revert opt. induction adj as [|[f ds] rest IH]; intros opt; simpl.
  - intros H _. now injection H as <-.
  - destruct (has_key (weights opt) f) eqn:E; [|discriminate].
    intros H Hnot. rewrite (IH _ H) by tauto. simpl.
    apply dict_get_set_other. intros ->. tauto.
Qed.

Lemma apply_adjustments_clamped (adj : list (string * list Q))
    (opt opt' : WeightOptimizer) (k : string) (d : Q) :
  apply_adjustments opt adj = Some opt' ->
  In k (keys adj) ->
  0.1 <= dict_get (weights opt') k d <= 3.
Proof.
  revert opt. induction adj as [|[f ds] rest IH]; intros opt; simpl.
  - tauto.
  - destruct (has_key (weights opt) f) eqn:E; [|discriminate].
    intros H Hin.
    destruct (in_dec string_dec k (keys rest)) as [Hrest|Hrest].
    + exact (IH _ H Hrest).
    + destruct Hin as [<-|Hin]; [|contradiction].
      rewrite (apply_adjustments_untouched _ _ _ _ _ H Hrest). simpl.
      rewrite dict_get_set_same. apply clamp_in_range.
Qed.

Lemma apply_adjustments_fails (adj : list (string * list Q))
    (opt : WeightOptimizer) :
  apply_adjustments opt adj = None
  <-> exists factor, In factor (keys adj) /\ ~ In factor (keys (weights opt)).
Proof.
  revert opt. induction adj as [|[f ds] rest IH]; intros opt; simpl.
  - split; [discriminate | intros (k & [] & _)].
  - destruct (has_key (weights opt) f) eqn:E.
    + rewrite IH. simpl. rewrite dict_set_keys_same by exact E.
      split.
      * intros (k & Hin & Hnot). exists k. auto.
      * intros (k & [<-|Hin] & Hnot).
        -- exfalso. apply Hnot. now apply str_in_In.
        -- exists k. auto.
    + split; [|reflexivity]. intros _. exists f. split; [now left|].
      now apply str_in_false.
Qed.

(** X5. [update_from_examples] raises [KeyError] exactly when a factor it
    adjusts is no key of the weights: a factor that
    [calculate_factor_scores] scores above 0.7 for a shoe which an admin
    correction moved up (or which is not in the original ranking). *)
Theorem update_from_examples_key_error (opt : WeightOptimizer)
    (examples : list TrainingExample) :
  update_from_examples opt examples = None
  <-> exists factor,
        adjusted examples factor /\ ~ In factor (keys (weights opt)).
Proof.
  unfold update_from_examples. rewrite apply_adjustments_fails.
  split; intros (k & Hk & Hnot); exists k; split; auto;
    now apply collect_adjustments_keys.
Qed.

(** X6. An update that returns keeps the keys of the weights, their order
    and the learning rate; the weight of every adjusted factor is within
    the clamp range [0.1, 3] afterwards, and every other weight is what it
    was. *)
Theorem update_from_examples_frame (opt opt' : WeightOptimizer)
    (examples : list TrainingExample) :
  update_from_examples opt examples = Some opt' ->
  keys (weights opt') = keys (weights opt)
  /\ learning_rate opt' = learning_rate opt
  /\ forall factor d,
       (adjusted examples factor ->
        0.1 <= dict_get (weights opt') factor d <= 3)
       /\ (~ adjusted examples factor ->
           dict_get (weights opt') factor d = dict_get (weights opt) factor d).
Proof.
  unfold update_from_examples. intros H.
  destruct (apply_adjustments_keys _ _ _ H) as [Hk Hl].
  split; [exact Hk|]. split; [exact Hl|]. intros factor d. split.
  - intros Hadj. apply (apply_adjustments_clamped _ _ _ _ _ H).
    now apply collect_adjustments_keys.
  - intros Hnot. apply (apply_adjustments_untouched _ _ _ _ _ H).
    intros Hin. apply Hnot. now apply collect_adjustments_keys.
Qed.

(** *** Examples that are ignored *)

Lemma collect_from_filter (examples : list TrainingExample)
    (adj : dict (list Q)) :
  fold_left
    (fun adj example =>
       if String.eqb (example_source example) "admin_correction"
       then note_ideal adj example 0%Z (ideal_ranking example)
       else adj)
    examples adj
  = fold_left
      (fun adj example =>
         if String.eqb (example_source example) "admin_correction"
         then note_ideal adj example 0%Z (ideal_ranking example)
         else adj)
      (filter is_correction examples) adj.
Proof.
  revert adj. induction examples as [|e rest IH]; intros adj;
    [reflexivity|].
  cbn [fold_left filter]. unfold is_correction at 1.
  destruct (String.eqb (example_source e) "admin_correction") eqn:E.
  - cbn [fold_left]. rewrite E. apply IH.
  - apply IH.
Qed.

(** X7. Only the examples whose source is ['admin_correction'] count: the
    update of a list of examples is the update of its admin corrections,
    and a list without one returns the weights as they are. *)
Theorem update_from_examples_corrections_only (opt : WeightOptimizer)
    (examples : list TrainingExample) :
  update_from_examples opt examples
  = update_from_examples opt (filter is_correction examples)
  /\ (filter is_correction examples = [] ->
      update_from_examples opt examples = Some opt).
Proof.
  assert (H : update_from_examples opt examples
              = update_from_examples opt (filter is_correction examples)).
  { unfold update_from_examples, collect_adjustments.
    now rewrite collect_from_filter. }
  split; [exact H|]. intros Hnone. rewrite H, Hnone. reflexivity.
Qed.

Lemma index_or_999_le (x : string) (l : list string) (i : nat) :
  nth_error l i = Some x -> (index_or_999 x l <= Z.of_nat i)%Z.
Proof.
  revert i. induction l as [|y l IH]; intros i Hn.
  - destruct i; discriminate Hn.
  - cbn [index_or_999]. destruct (String.eqb_spec x y) as [->|Hne]; [lia|].
    destruct i as [|i]; simpl in Hn; [congruence|].
    assert (Hin : str_in x l = true).
    { apply str_in_In. eapply nth_error_In. exact Hn. }
    rewrite Hin. apply IH in Hn. lia.
Qed.

(** X8. A correction that confirms the ranking changes nothing: when the
    ideal ranking of every admin correction is its original ranking, also
    with a shoe listed twice, [update_from_examples] returns the weights
    as they are and does not fail, whatever the factor scores. *)
Theorem update_from_examples_confirmed (opt : WeightOptimizer)
    (examples : list TrainingExample) :
  (forall example,
      In example examples ->
      example_source example = "admin_correction" ->
      ideal_ranking example = original_ranking example) ->
  update_from_examples opt examples = Some opt.
Proof.
  intros Hsame. unfold update_from_examples.
  assert (Hnil : collect_adjustments examples = []).
  { apply keys_nil.
    destruct (keys (collect_adjustments examples)) as [|k ks] eqn:E;
      [reflexivity|].
    assert (Hk : In k (keys (collect_adjustments examples)))
      by (rewrite E; now left).
    apply collect_adjustments_keys in Hk.
    destruct Hk as (e & i & shoe & Hin & Hsrc & [Hn Hlt] & _).
    rewrite (Hsame e Hin Hsrc) in Hn. apply index_or_999_le in Hn. lia. }
  rewrite Hnil. reflexivity.
Qed.

(** *** The update only raises weights *)

Lemma append_adjustment_positive (adj : dict (list Q)) (factor : string)
    (delta : Q) :
  positive_deltas adj -> 0 < delta ->
  positive_deltas (append_adjustment adj factor delta).
Proof.
  intros Hadj Hd k ds Hin. unfold append_adjustment in Hin.
  apply dict_set_In in Hin. destruct Hin as [[_ ->]|Hin]; [|exact (Hadj _ _ Hin)].
  split; [intros H; now apply app_eq_nil in H|].
  intros x Hx. apply in_app_or in Hx. destruct Hx as [Hx|[<-|[]]]; [|exact Hd].
  destruct (dict_get_cases adj factor []) as [E|Hold].
  - rewrite E in Hx. contradiction.
  - destruct (Hadj _ _ Hold) as [_ Hall]. now apply Hall.
Qed.

Lemma note_factors_positive (factor_scores : dict Q) (adj : dict (list Q))
    (rank_delta : Z) :
  positive_deltas adj -> (0 < rank_delta)%Z ->
  positive_deltas (note_factors adj factor_scores rank_delta).
Proof.
  unfold note_factors. revert adj.
  induction factor_scores as [|[f s] fs IH]; intros adj Hadj Hr;
    cbn [fold_left]; [exact Hadj|].
  apply IH; [|exact Hr]. cbn [fst snd].
  destruct (Qlt_le_dec 0.7 s); [|exact Hadj].
  apply append_adjustment_positive; [exact Hadj|].
  assert (0 < inject_Z rank_delta)
    by (change 0 with (inject_Z 0); now rewrite <- Zlt_Qlt).
  lra.
Qed.

Lemma note_ideal_positive (example : TrainingExample) (ideal : list string)
    (adj : dict (list Q)) (i : Z) :
  positive_deltas adj -> positive_deltas (note_ideal adj example i ideal).
Proof.
  revert adj i. induction ideal as [|shoe rest IH]; intros adj i Hadj;
    cbn [note_ideal]; [exact Hadj|].
  apply IH.
  destruct (Z.ltb_spec 0 (index_or_999 shoe (original_ranking example) - i));
    [|exact Hadj].
  now apply note_factors_positive.
Qed.

Lemma collect_adjustments_positive (examples : list TrainingExample) :
  positive_deltas (collect_adjustments examples).
Proof.
  unfold collect_adjustments.
  assert (Hgen : forall adj,
             positive_deltas adj ->
             positive_deltas
               (fold_left
                  (fun adj example =>
                     if String.eqb (example_source example) "admin_correction"
                     then note_ideal adj example 0%Z (ideal_ranking example)
                     else adj)
                  examples adj)).
  { induction examples as [|e rest IH]; intros adj Hadj; cbn [fold_left];
      [exact Hadj|].
    apply IH. destruct (String.eqb (example_source e) "admin_correction");
      [now apply note_ideal_positive | exact Hadj]. }
  apply Hgen. intros k ds [].
Qed.

Lemma sum_positive (l : list Q) :
  l <> [] -> (forall q, In q l -> 0 < q) -> 0 < sum l.
Proof.
  induction l as [|q l IH]; [congruence|]. intros _ H. simpl.
  assert (0 < q) by (apply H; now left).
  destruct l as [|q' l]; [simpl; lra|].
  assert (0 < sum (q' :: l)) by (apply IH; [discriminate | intros; apply H; now right]).
  lra.
Qed.

Lemma average_positive (deltas : list Q) :
  deltas <> [] -> (forall q, In q deltas -> 0 < q) ->
  0 < sum deltas / inject_Z (Z.of_nat (List.length deltas)).
Proof.
  intros Hne Hpos. apply Qlt_shift_div_l.
  - change 0 with (inject_Z 0). rewrite <- Zlt_Qlt.
    destruct deltas; [congruence | simpl; lia].
  - rewrite Qmult_0_l. now apply sum_positive.
Qed.

Lemma clamp_raises (w x : Q) : w <= 3 -> w <= x -> w <= clamp x.
Proof.
  intros Hw Hx. unfold clamp.
  destruct (Q.max_spec 0.1 (Qmin 3 x)) as [[H ->]|[H ->]];
    destruct (Q.min_spec 3 x) as [[H' E]|[H' E]]; rewrite ?E in *; lra.
Qed.

Lemma apply_adjustments_raises (adj : list (string * list Q))
    (opt opt' : WeightOptimizer) (k : string) (d : Q) :
  positive_deltas adj -> 0 <= learning_rate opt ->
  apply_adjustments opt adj = Some opt' ->
  dict_get (weights opt) k d <= 3 ->
  dict_get (weights opt) k d <= dict_get (weights opt') k d.
Proof.
  revert opt. induction adj as [|[f ds] rest IH]; intros opt Hpos Hlr;
    simpl.
  - intros H _. injection H as <-. apply Qle_refl.
  - destruct (has_key (weights opt) f) eqn:E; [|discriminate].
    intros H Hle.
    assert (Hrest : positive_deltas rest)
      by (intros k' ds' Hin; apply (Hpos k' ds'); now right).
    destruct (Hpos f ds (or_introl eq_refl)) as [Hne Hds].
    pose proof (average_positive ds Hne Hds) as Havg.
    set (w1 := dict_set (weights opt) f
                 (clamp (dict_get (weights opt) f 0
                         + sum ds / inject_Z (Z.of_nat (List.length ds))
                           * learning_rate opt))) in *.
    assert (Hstep : dict_get (weights opt) k d <= dict_get w1 k d
                    /\ dict_get w1 k d <= 3).
    { unfold w1. destruct (string_dec k f) as [->|Hkf].
      - rewrite dict_get_set_same. split; [|apply clamp_in_range].
        apply clamp_raises; [exact Hle|].
        rewrite (dict_get_any_default _ f d 0 E). nra.
      - rewrite dict_get_set_other by exact Hkf. split; [apply Qle_refl|].
        exact Hle. }
    destruct Hstep as [H1 H2].
    eapply Qle_trans; [exact H1|].
    apply (IH {| weights := w1; learning_rate := learning_rate opt |});
      assumption.
Qed.

Lemma clamp_raises_strictly (w x : Q) : w < 3 -> w < x -> w < clamp x.
Proof.
  intros Hw Hx. unfold clamp.
  destruct (Q.max_spec 0.1 (Qmin 3 x)) as [[H ->]|[H ->]];
    destruct (Q.min_spec 3 x) as [[H' E]|[H' E]]; rewrite ?E in *; lra.
Qed.

Lemma apply_adjustments_raises_strictly (adj : list (string * list Q))
    (opt opt' : WeightOptimizer) (k : string) (d : Q) :
  positive_deltas adj -> 0 < learning_rate opt ->
  apply_adjustments opt adj = Some opt' ->
  In k (keys adj) ->
  dict_get (weights opt) k d < 3 ->
  dict_get (weights opt) k d < dict_get (weights opt') k d.
Proof.
  revert opt. induction adj as [|[f ds] rest IH]; intros opt Hpos Hlr;
    simpl; [tauto|].
  destruct (has_key (weights opt) f) eqn:E; [|discriminate].
  intros H Hin Hlt.
  assert (Hrest : positive_deltas rest)
    by (intros k' ds' Hin'; apply (Hpos k' ds'); now right).
  destruct (Hpos f ds (or_introl eq_refl)) as [Hne Hds].
  pose proof (average_positive ds Hne Hds) as Havg.
  set (w1 := dict_set (weights opt) f
               (clamp (dict_get (weights opt) f 0
                       + sum ds / inject_Z (Z.of_nat (List.length ds))
                         * learning_rate opt))) in *.
  destruct (string_dec k f) as [->|Hkf].
  - assert (H1 : dict_get (weights opt) f d < dict_get w1 f d
                 /\ dict_get w1 f d <= 3).
    { unfold w1. rewrite dict_get_set_same. split; [|apply clamp_in_range].
      apply clamp_raises_strictly; [exact Hlt|].
      rewrite (dict_get_any_default _ f d 0 E). nra. }
    destruct H1 as [H1 H2].
    eapply Qlt_le_trans; [exact H1|].
    apply (apply_adjustments_raises rest
             {| weights := w1; learning_rate := learning_rate opt |});
      try assumption.
    simpl. lra.
  - destruct Hin as [Heq|Hin]; [congruence|].
    assert (H1 : dict_get w1 k d = dict_get (weights opt) k d)
      by (unfold w1; now apply dict_get_set_other).
    rewrite <- H1.
    apply (IH {| weights := w1; learning_rate := learning_rate opt |});
      try assumption.
    simpl. now rewrite H1.
Qed.

(** X9. The update only ever raises weights: with a positive learning
    rate (0.1 in the code), a weight that is at most 3 before an update is
    not lower after it, and the weight of an adjusted factor that is below
    3 is strictly higher after it. A shoe that an admin moved down lowers
    no weight. *)
Theorem update_from_examples_raises (opt opt' : WeightOptimizer)
    (examples : list TrainingExample) (factor : string) (d : Q) :
  0 < learning_rate opt ->
  update_from_examples opt examples = Some opt' ->
  (dict_get (weights opt) factor d <= 3 ->
   dict_get (weights opt) factor d <= dict_get (weights opt') factor d)
  /\ (adjusted examples factor ->
      dict_get (weights opt) factor d < 3 ->
      dict_get (weights opt) factor d < dict_get (weights opt') factor d).
Proof.
  unfold update_from_examples. intros Hlr H. split.
  - intros Hle.
    eapply apply_adjustments_raises;
      [apply collect_adjustments_positive | lra | exact H | exact Hle].
  - intros Hadj Hlt.
    eapply apply_adjustments_raises_strictly;
      [apply collect_adjustments_positive | exact Hlr | exact H | | exact Hlt].
    now apply collect_adjustments_keys.
Qed.

End WithOracle.

End UpdateProps.

(** ** Worked cases of the weight update *)

Module UpdateCases.

Import Py PyFacts Scoring Optimizer ExtractionProps OptimizerProps UpdateProps.
Import Vocabulary MoreVocabulary.
Import Cases MoreCases.

Lemma correction_adjusts_terrain :
  @adjusted terrain_oracle [correction] "terrain".
Proof.
  exists correction, 0%nat, "shoe-b".
  split; [now left|]. split; [reflexivity|].
  split; [split; [reflexivity | vm_compute; reflexivity]|].
  exists 0.9. split; [now left | reflexivity].
Qed.

Lemma terrain_oracle_adjusts (examples : list TrainingExample)
    (factor : string) :
  @adjusted terrain_oracle examples factor -> factor = "terrain".
Proof.
  intros (e & i & shoe & _ & _ & _ & s & [H|[]] & _). now inversion H.
Qed.

Lemma update_from_examples_key_error_witness :
  @update_from_examples terrain_oracle (init width_only) [correction] = None.
Proof.
  apply (@update_from_examples_key_error terrain_oracle (init width_only)
           [correction]).
  exists "terrain". split; [exact correction_adjusts_terrain|].
  simpl. intuition discriminate.
Defined.

Lemma update_from_examples_frame_witness :
  keys proposed_weights = keys DEFAULT_WEIGHTS
  /\ 0.1 <= dict_get proposed_weights "terrain" 0 <= 3
  /\ dict_get proposed_weights "width" 0 = dict_get DEFAULT_WEIGHTS "width" 0.
Proof.
  destruct (@update_from_examples_frame terrain_oracle
              (init DEFAULT_WEIGHTS)
              {| weights := proposed_weights; learning_rate := 0.1 |}
              [correction])
    as (Hkeys & _ & Hw); [vm_compute; reflexivity|].
  split; [exact Hkeys|]. split.
  - apply (Hw "terrain" 0). exact correction_adjusts_terrain.
  - apply (Hw "width" 0). intros H.
    apply terrain_oracle_adjusts in H. discriminate H.
Defined.

Lemma update_from_examples_confirmed_witness :
  @update_from_examples terrain_oracle (init DEFAULT_WEIGHTS)
    [confirmation; approval]
  = Some (init DEFAULT_WEIGHTS).
Proof.
  apply (@update_from_examples_confirmed terrain_oracle).
  intros e [<-|[<-|[]]] Hsrc; [reflexivity | discriminate Hsrc].
Defined.

Lemma update_from_examples_raises_witness :
  dict_get DEFAULT_WEIGHTS "terrain" 0 < dict_get proposed_weights "terrain" 0.
Proof.
  destruct (@update_from_examples_raises terrain_oracle
              (init DEFAULT_WEIGHTS)
              {| weights := proposed_weights; learning_rate := 0.1 |}
              [correction] "terrain" 0)
    as [_ Hstrict]; [reflexivity | vm_compute; reflexivity |].
  apply Hstrict; [exact correction_adjusts_terrain | reflexivity].
Defined.

End UpdateCases.

(** ** The scraper and the scraping task *)

Module ScraperProps.

Import Py PyFacts Ingestion Scraper IngestionProps.
Import Vocabulary MoreVocabulary.

Lemma parsed_In (elems : list (option RawReview)) (r : RawReview) :
  In r (parsed elems) <-> In (Some r) elems.
Proof.
  induction elems as [|[x|] elems IH]; simpl.
  - tauto.
  - rewrite IH. split; (intros [H|H]; [left; congruence | now right]).
  - rewrite IH. split; [auto | intros [H|H]; [discriminate | exact H]].
Qed.

Lemma collected_In (fetch : PageFetch) (count page : nat) (r : RawReview) :
  (forall p, (page <= p < page + count)%nat -> has_reviews fetch p) ->
  In r (collected fetch page count)
  <-> exists p elems,
        (page <= p < page + count)%nat
        /\ fetch p = Some elems /\ In (Some r) elems.
Proof.
  revert page. induction count as [|count IH]; intros page Hall; simpl.
  - split; [tauto | intros (p & _ & Hp & _); lia].
  - destruct (Hall page) as (elems & E & _); [lia|]. rewrite E.
    rewrite in_app_iff, parsed_In, IH by (intros p Hp; apply Hall; lia).
    split.
    + intros [H|(p & es & Hp & Ep & Hin)].
      * exists page, elems. split; [lia | auto].
      * exists p, es. split; [lia | auto].
    + intros (p & es & Hp & Ep & Hin).
      destruct (Nat.eq_dec p page) as [->|Hne].
      * left. congruence.
      * right. exists p, es. split; [lia | auto].
Qed.

Lemma scrape_pages_skip (fetch : PageFetch) (k : nat) :
  forall page remaining reviews,
    (forall p, (page <= p < page + k)%nat -> has_reviews fetch p) ->
    (k <= remaining)%nat ->
    scrape_pages fetch page remaining reviews
    = scrape_pages fetch (page + k) (remaining - k)
        (reviews ++ collected fetch page k)%list.
Proof.
  induction k as [|k IH]; intros page remaining reviews Hall Hk.
  - now rewrite Nat.add_0_r, Nat.sub_0_r, app_nil_r.
  - destruct remaining as [|remaining]; [lia|].
    destruct (Hall page) as (elems & E & Hne); [lia|].
    cbn [scrape_pages collected]. rewrite E.
    destruct elems as [|e es]; [congruence|].
    rewrite IH by (try (intros p Hp; apply Hall); lia).
    now rewrite Nat.add_succ_r, app_assoc.
Qed.

Lemma scrape_reviews_from (fetch : PageFetch) (k : nat) :
  (k <= 50)%nat ->
  (forall p, (1 <= p <= k)%nat -> has_reviews fetch p) ->
  scrape_reviews fetch
  = scrape_pages fetch (S k) (50 - k) (collected fetch 1 k).
Proof.
  intros Hk Hall. unfold scrape_reviews.
  rewrite (scrape_pages_skip fetch k 1 50 [])
    by (try (intros p Hp; apply Hall); lia).
  reflexivity.
Qed.

Lemma scrape_reviews_raises (fetch : PageFetch) (k : nat) :
  (k < 50)%nat ->
  (forall p, (1 <= p <= k)%nat -> has_reviews fetch p) ->
  fetch (S k) = None ->
  scrape_reviews fetch = None.
Proof.
  intros Hk Hall Hfail. rewrite (scrape_reviews_from fetch k) by (auto; lia).
  destruct (50 - k)%nat eqn:E; [lia|]. simpl. now rewrite Hfail.
Qed.

(** X11. [scrape_reviews] reads the reviews pages from page 1 on: it stops
    at the first page without a review element, or after page 50, and
    then returns exactly the reviews of the pages read whose parsing did
    not fail; when a request raises, the reviews parsed from the earlier
    pages are lost with it. *)
Theorem scrape_reviews_pages (fetch : PageFetch) (k : nat) :
  (k <= 50)%nat ->
  (forall p, (1 <= p <= k)%nat -> has_reviews fetch p) ->
  (k = 50%nat \/ fetch (S k) = Some [] ->
   scrape_reviews fetch = Some (collected fetch 1 k))
  /\ ((k < 50)%nat -> fetch (S k) = None -> scrape_reviews fetch = None)
  /\ (forall r,
        In r (collected fetch 1 k)
        <-> exists p elems,
              (1 <= p <= k)%nat /\ fetch p = Some elems /\ In (Some r) elems).
Proof.
  intros Hk Hall.
  pose proof (scrape_reviews_from fetch k Hk Hall) as Hskip.
  split; [|split].
  - intros [->|Hempty]; rewrite Hskip.
    + reflexivity.
    + destruct (50 - k)%nat; [reflexivity|]. simpl. now rewrite Hempty.
  - intros Hlt Hfail. now apply (scrape_reviews_raises fetch k).
  - intros r. rewrite collected_In by (intros p Hp; apply Hall; lia).
    split; intros (p & es & Hp & H); exists p, es; (split; [lia | exact H]).
Qed.

(** X12. The safety limit: [scrape_reviews] requests no page beyond the
    50th, and none beyond a page without a review element or a page
    whose request raises. Two sites that agree on the pages up to there
    give the same result, so the reviews of later pages are never
    scraped. *)
Theorem scrape_reviews_page_limit (fetch fetch' : PageFetch) (last : nat) :
  (forall p, (1 <= p <= last)%nat -> fetch' p = fetch p) ->
  (last = 50%nat \/ fetch last = Some [] \/ fetch last = None) ->
  (1 <= last <= 50)%nat ->
  scrape_reviews fetch' = scrape_reviews fetch.
Proof.
  intros Hsame Hlast Hrange. unfold scrape_reviews.
  assert (Hgen : forall remaining page reviews,
             (page + remaining = 51)%nat -> (1 <= page <= last)%nat ->
             scrape_pages fetch' page remaining reviews
             = scrape_pages fetch page remaining reviews).
  { induction remaining as [|remaining IH]; intros page reviews Hsum Hpage;
      [reflexivity|].
    cbn [scrape_pages]. rewrite Hsame by lia.
    destruct (fetch page) as [[|e es]|] eqn:E; try reflexivity.
    destruct (Nat.eq_dec page last) as [->|Hne].
    - destruct Hlast as [->|[Hempty|Hfail]]; [|congruence ..].
      assert (remaining = 0%nat) as -> by lia. reflexivity.
    - apply IH; lia. }
  apply Hgen; lia.
Qed.

(** *** The task *)

Lemma scrape_shoe_url (url : string) (site : string -> PageFetch) :
  url <> "" ->
  scrape_shoe (Some (Some url)) site = scrape_reviews (site url).
Proof. destruct url; [congruence | reflexivity]. Qed.

Lemma scrape_sources_skip_failed (before after : list SourceOutcome) :
  forall table all shoe,
    scrape_sources table all shoe (before ++ None :: after)
    = scrape_sources table all shoe (before ++ after).
Proof.
  induction before as [|[rs|] before IH]; intros table all shoe; simpl;
    auto.
Qed.

(** X13. A source whose request for a reviews page raises leaves no trace
    in a run of [scrape_shoe_reviews]: the reviews parsed from its earlier
    pages are neither stored nor counted, and the run ends as if the
    source had not been listed. *)
Theorem failed_request_drops_source (store : Store) (shoe url : string)
    (site : string -> PageFetch) (k : nat)
    (before after : list SourceOutcome) :
  url <> "" -> (k < 50)%nat ->
  (forall p, (1 <= p <= k)%nat -> has_reviews (site url) p) ->
  site url (S k) = None ->
  scrape_shoe_reviews store shoe
    (before ++ scrape_shoe (Some (Some url)) site :: after)
  = scrape_shoe_reviews store shoe (before ++ after).
Proof.
  intros Hurl Hk Hall Hfail.
  rewrite (scrape_shoe_url url site Hurl).
  rewrite (scrape_reviews_raises (site url) k Hk Hall Hfail).
  unfold scrape_shoe_reviews.
  now rewrite scrape_sources_skip_failed.
Qed.

Lemma scraped_nothing (outcomes : list SourceOutcome) :
  (forall o, In o outcomes -> gave_nothing o) -> scraped outcomes = [].
Proof.
  unfold scraped. induction outcomes as [|o outcomes IH]; intros H;
    [reflexivity|].
  simpl. rewrite IH by (intros o' Ho'; apply H; now right).
  destruct (H o (or_introl eq_refl)) as [-> | ->]; reflexivity.
Qed.

(** X14. A run of [scrape_shoe_reviews] reports the number of reviews
    scraped from the sources that answered, triggers the extraction for
    the shoe exactly once and touches no fit profile; when every source
    raises or gives no review, it stores nothing and reports zero, and the
    extraction is triggered all the same. *)
Theorem scrape_shoe_reviews_report (store : Store) (shoe : string)
    (outcomes : list SourceOutcome) :
  snd (scrape_shoe_reviews store shoe outcomes)
  = List.length (scraped outcomes)
  /\ extraction_queue (fst (scrape_shoe_reviews store shoe outcomes))
     = (extraction_queue store ++ [shoe])%list
  /\ shoe_fit_profiles (fst (scrape_shoe_reviews store shoe outcomes))
     = shoe_fit_profiles store
  /\ ((forall o, In o outcomes -> gave_nothing o) ->
      shoe_reviews (fst (scrape_shoe_reviews store shoe outcomes))
      = shoe_reviews store
      /\ snd (scrape_shoe_reviews store shoe outcomes) = 0%nat).
Proof.
  unfold scrape_shoe_reviews. rewrite scrape_sources_spec. simpl.
  split; [reflexivity|]. split; [reflexivity|]. split; [reflexivity|].
  intros Hnone. rewrite (scraped_nothing outcomes Hnone). split; reflexivity.
Qed.

End ScraperProps.

(** ** Worked cases of the scraper *)

Module ScraperCases.

Import Py PyFacts Ingestion Scraper IngestionProps ScraperProps.
Import Vocabulary MoreVocabulary.
Import Cases MoreCases.

Lemma scrape_reviews_pages_witness :
  scrape_reviews two_pages = Some [review1; review2].
Proof.
  destruct (scrape_reviews_pages two_pages 2) as (Hstop & _ & _).
  - lia.
  - intros p Hp. assert (p = 1 \/ p = 2)%nat as [-> | ->] by lia;
      eexists; (split; [reflexivity | discriminate]).
  - apply Hstop. now right.
Defined.

Lemma scrape_reviews_page_limit_witness :
  scrape_reviews hidden_page = scrape_reviews two_pages.
Proof.
  apply (scrape_reviews_page_limit two_pages hidden_page 3).
  - intros p Hp.
    assert (p = 1 \/ p = 2 \/ p = 3)%nat as [-> | [-> | ->]] by lia;
      reflexivity.
  - right. now left.
  - lia.
Defined.

Lemma failed_request_drops_source_witness :
  scrape_shoe_reviews one_review_store "shoe-a"
    [Some [review2]; scrape_shoe (Some (Some "https://rw/shoe-a")) broken_site]
  = scrape_shoe_reviews one_review_store "shoe-a" [Some [review2]].
Proof.
  apply (failed_request_drops_source one_review_store "shoe-a"
           "https://rw/shoe-a" broken_site 1 [Some [review2]] []).
  - discriminate.
  - lia.
  - intros p Hp. assert (p = 1)%nat as -> by lia.
    eexists. split; [reflexivity | discriminate].
  - reflexivity.
Defined.

End ScraperCases.

(** ** The matching query *)

Module QueryProps.

Import Py PyFacts MatchingQuery.
Import Vocabulary MoreVocabulary.

Lemma Qabs_distance (x t : Q) :
  0 <= x <= 1 -> 0 <= t <= 1 -> 0 <= Qabs (x - t) <= 1.
Proof.
  intros Hx Ht. split; [apply Qabs_nonneg|].
  apply Qabs_Qle_condition. split; lra.
Qed.

(** X15. The [match_score] of the matching query is NULL exactly when a
    normalized column it subtracts from is NULL; otherwise, with targets
    and columns within [0,1], it lies between 1.5 and 2.5: the query's
    score is not on the scale from 0 to 1 of [calculate_match_score]. *)
Theorem match_score_range (up : UserPrefs) (row : JoinedRow) :
  0 <= target_cushion up <= 1 -> 0 <= target_stability up <= 1 ->
  normalized (cushion_normalized row) ->
  normalized (stability_normalized row) ->
  (match_score up row = None
   <-> cushion_normalized row = None \/ stability_normalized row = None)
  /\ forall q, match_score up row = Some q -> 1.5 <= q <= 2.5.
Proof.
  intros Htc Hts Hc Hs. unfold match_score.
  destruct (cushion_normalized row) as [c|] eqn:Ec.
  2: { split; [split; auto | discriminate]. }
  destruct (stability_normalized row) as [s|] eqn:Es.
  2: { split; [split; auto | discriminate]. }
  split.
  { split; [discriminate | intros [H|H]; discriminate H]. }
  pose proof (Qabs_distance c (target_cushion up) (Hc c eq_refl) Htc).
  pose proof (Qabs_distance s (target_stability up) (Hs s eq_refl) Hts).
  remember (Qabs (c - target_cushion up)) as dc.
  remember (Qabs (s - target_stability up)) as ds.
  intros q Hq. assert (E : forall a b : Q, Some a = Some b -> b = a)
    by (intros a b Hab; congruence).
  apply E in Hq. rewrite Hq. clear E Hq.
  assert (Hw : 0 <= match width_forefoot row with
                    | Some w => if (0 <=? w)%Z then 0.2 else 0
                    | None => 0
                    end <= 0.2).
  { destruct (width_forefoot row) as [w|]; [destruct (0 <=? w)%Z|];
      split; lra. }
  assert (Hb : 0 <= match msrp_usd row with
                    | Some price =>
                        if Qle_bool price (prefs_budget up) then 0.1 else 0
                    | None => 0
                    end <= 0.1).
  { destruct (msrp_usd row) as [p|];
      [destruct (Qle_bool p (prefs_budget up))|]; split; lra. }
  assert (Hr : 0 <= match suitable row with
                    | Some true => 1 * 0.2
                    | Some false => 0 * 0.2
                    | None => 0
                    end <= 0.2).
  { destruct (suitable row) as [[|]|]; split; lra. }
  split; lra.
Qed.

End QueryProps.

(** ** The quiz store *)

Module QuizStoreProps.

Import Py PyFacts QuizStore ExtractionProps.
Import Vocabulary MoreVocabulary.

Lemma dict_set_NoDup {V : Type} (d : dict V) (key : string) (v : V) :
  NoDup (keys d) -> NoDup (keys (dict_set d key v)).
Proof.
  induction d as [|[k0 v0] d IH]; simpl; intros H.
  - constructor; [tauto | constructor].
  - inversion H as [|? ? Hnotin Hnd]; subst.
    destruct (String.eqb_spec key k0) as [->|Hne]; simpl.
    + now constructor.
    + constructor; [|now apply IH].
      intros Hin. apply UpdateProps.dict_set_keys_In in Hin.
      destruct Hin as [Hin|Heq]; [contradiction | congruence].
Qed.

Lemma dict_set_twice {V : Type} (d : dict V) (key : string) (v : V) :
  dict_set (dict_set d key v) key v = dict_set d key v.
Proof.
  induction d as [|[k0 v0] d IH]; simpl.
  - now rewrite String.eqb_refl.
  - destruct (String.eqb_spec key k0) as [->|Hne]; simpl.
    + now rewrite String.eqb_refl.
    + apply String.eqb_neq in Hne. rewrite Hne. now rewrite IH.
Qed.

(** *** The two halves of an asynchronous action *)

Lemma startQuiz_halves (category : string) (call : Awaited StartResponse)
    (s : QuizState) :
  startQuiz_end category call (fst (startQuiz_begin category s))
  = startQuiz category call s.
Proof. destruct call; reflexivity. Qed.

Lemma submitAnswer_halves (questionId : string) (answer : json)
    (call : Awaited bool) (s : QuizState) :
  match snd (submitAnswer_begin questionId answer s) with
  | Some p =>
      resume p (SubmitReply call) (fst (submitAnswer_begin questionId answer s))
  | None => Some (fst (submitAnswer_begin questionId answer s))
  end
  = Some (submitAnswer questionId answer call s).
Proof.
  unfold submitAnswer_begin, submitAnswer.
  destruct (no_session s); [reflexivity|]. destruct call; reflexivity.
Qed.

Lemma getRecommendations_halves (call : Awaited RecommendResponse)
    (s : QuizState) :
  match snd (getRecommendations_begin s) with
  | Some p => resume p (RecommendReply call) (fst (getRecommendations_begin s))
  | None => Some (fst (getRecommendations_begin s))
  end
  = Some (getRecommendations call s).
Proof.
  unfold getRecommendations_begin, getRecommendations.
  destruct (no_session s); [reflexivity|]. destruct call; reflexivity.
Qed.

Lemma nth_error_last {A : Type} (l : list A) (x : A) :
  nth_error (l ++ [x]) (List.length l) = Some x.
Proof. induction l as [|y l IH]; [reflexivity | exact IH]. Qed.

Lemma drop_last {A : Type} (l : list A) (x : A) :
  (firstn (List.length l) (l ++ [x])
   ++ skipn (S (List.length l)) (l ++ [x]))%list = l.
Proof.
  induction l as [|y l IH]; [reflexivity|].
  cbn [List.length app firstn skipn]. cbn [skipn] in IH.
  now rewrite IH.
Qed.

(** A [submitAnswer] whose call ends before anything else happens is the
    action run to its end. *)
Lemma submit_then_settle (r : Running) (questionId : string) (answer : json)
    (call : Awaited bool) :
  step (step r (CallSubmitAnswer questionId answer))
       (Settle (List.length (in_flight r)) (SubmitReply call))
  = {| state := submitAnswer questionId answer call (state r);
       in_flight := in_flight r |}.
Proof.
  pose proof (submitAnswer_halves questionId answer call (state r)) as H.
  cbn [step]. unfold called.
  destruct (submitAnswer_begin questionId answer (state r)) as [s [p|]];
    cbn [fst snd state in_flight] in *.
  - rewrite nth_error_last, H, drop_last. reflexivity.
  - rewrite (proj2 (nth_error_None _ _)) by apply Nat.le_refl.
    inversion H; subst. destruct r; reflexivity.
Qed.

(** *** The invariant *)

Lemma loaded_invariant : store_invariant loaded.
Proof.
  unfold store_invariant, loaded. simpl.
  split; [lia|]. split; [constructor|]. split; [reflexivity | constructor].
Qed.

Lemma Forall_drop {A : Type} (P : A -> Prop) (l : list A) (n : nat) :
  Forall P l -> Forall P (firstn n l ++ skipn (S n) l)%list.
Proof.
  intros H. revert n. induction H as [|x l Hx Hl IH]; intros n.
  - destruct n; constructor.
  - destruct n as [|n]; [exact Hl|].
    cbn [firstn skipn app]. constructor; [exact Hx | apply IH].
Qed.

Lemma called_keeps_invariant (r : Running)
    (begun : QuizState * option Pending) :
  store_invariant r ->
  currentQuestionIndex (fst begun) = currentQuestionIndex (state r) ->
  answers (fst begun) = answers (state r) ->
  (snd begun = None -> isLoading (fst begun) = isLoading (state r)) ->
  (forall p, snd begun = Some p -> pending_ok p) ->
  store_invariant (called r begun).
Proof.
  intros (Hidx & Hnd & Hload & Hpend) Hi Ha Hl Hp.
  unfold store_invariant, called. cbn [state in_flight].
  rewrite Hi, Ha. split; [exact Hidx|]. split; [exact Hnd|].
  destruct (snd begun) as [p|].
  - split.
    + intros E. apply app_eq_nil in E. destruct E as [_ E]. discriminate E.
    + apply Forall_app. split; [exact Hpend|].
      constructor; [now apply Hp | constructor].
  - split; [|exact Hpend]. intros E. rewrite Hl by reflexivity. now apply Hload.
Qed.

Lemma acted_keeps_invariant (r : Running) (s : QuizState) :
  store_invariant r ->
  (0 <= currentQuestionIndex s)%Z ->
  NoDup (keys (answers s)) ->
  (isLoading (state r) = false -> isLoading s = false) ->
  store_invariant (acted r s).
Proof.
  intros (_ & _ & Hload & Hpend) Hi Ha Hl.
  unfold store_invariant, acted. cbn [state in_flight].
  split; [exact Hi|]. split; [exact Ha|].
  split; [intros E; apply Hl, Hload, E | exact Hpend].
Qed.

Lemma resume_keeps_invariant (s s' : QuizState) (p : Pending)
    (reply : Reply) :
  (0 <= currentQuestionIndex s)%Z -> NoDup (keys (answers s)) ->
  pending_ok p ->
  resume p reply s = Some s' ->
  (0 <= currentQuestionIndex s')%Z
  /\ NoDup (keys (answers s'))
  /\ isLoading s' = false.
Proof.
  intros Hidx Hnd Hp H.
  destruct p as [category|questionId answer snapshot_answers snapshot_index|];
    destruct reply as [call|call|call];
    cbn [resume] in H; try discriminate H;
    injection H as <-; destruct call as [response|message]; cbn;
    try (split; [assumption|split; [assumption|reflexivity]]).
  - split; [lia|]. split; [constructor | reflexivity].
  - destruct Hp as [Hsnap Hkeys]. split; [lia|].
    split; [now apply dict_set_NoDup | reflexivity].
Qed.

Lemma step_keeps_invariant (r : Running) (e : Event) :
  store_invariant r -> store_invariant (step r e).
Proof.
  intros Hinv. pose proof Hinv as (Hidx & Hnd & Hload & Hpend).
  destruct e as [category|questionId answer| |n reply| |shoe|index|];
    cbn [step].
  - apply called_keeps_invariant; try reflexivity; [exact Hinv | discriminate
                                                    | intros p E].
    injection E as <-. exact I.
  - unfold submitAnswer_begin. destruct (no_session (state r)).
    + apply called_keeps_invariant; try reflexivity; [exact Hinv|].
      discriminate.
    + apply called_keeps_invariant; try reflexivity;
        [exact Hinv | discriminate | intros p E].
      injection E as <-. split; assumption.
  - unfold getRecommendations_begin. destruct (no_session (state r)).
    + apply called_keeps_invariant; try reflexivity; [exact Hinv|].
      discriminate.
    + apply called_keeps_invariant; try reflexivity;
        [exact Hinv | discriminate | intros p E].
      injection E as <-. exact I.
  - destruct (nth_error (in_flight r) n) as [p|] eqn:En; [|exact Hinv].
    destruct (resume p reply (state r)) as [s'|] eqn:Er; [|exact Hinv].
    assert (Hp : pending_ok p).
    { apply nth_error_In in En.
      exact (proj1 (Forall_forall pending_ok (in_flight r)) Hpend p En). }
    destruct (resume_keeps_invariant _ _ _ _ Hidx Hnd Hp Er)
      as (Hi' & Hn' & Hl').
    unfold store_invariant. cbn [state in_flight].
    split; [exact Hi'|]. split; [exact Hn'|]. split; [intros _; exact Hl'|].
    now apply Forall_drop.
  - apply acted_keeps_invariant; [exact Hinv | | |];
      unfold goBack;
      destruct (Z.ltb_spec 0 (currentQuestionIndex (state r)));
      cbn; auto; lia.
  - apply acted_keeps_invariant; [exact Hinv | | |]; cbn; auto.
  - apply acted_keeps_invariant; [exact Hinv | | |]; cbn; auto.
  - apply acted_keeps_invariant; [exact Hinv | | |]; cbn; auto.
    + lia.
    + constructor.
Qed.

Lemma run_invariant (r : Running) (events : list Event) :
  store_invariant r -> store_invariant (run r events).
Proof.
  unfold run. revert r.
  induction events as [|e events IH]; intros r Hr; [exact Hr|].
  simpl. apply IH. now apply step_keeps_invariant.
Qed.

(** X16. However the calls of the actions, the ends of their API calls
    and the synchronous actions interleave from the loaded store, the
    index of the current question is never negative, the answers have
    distinct question ids, and [isLoading] is false whenever no call is
    in flight. A pending action writes over what happened during its
    call: after a reset during a pending [submitAnswer], the end of the
    call leaves an answer and the index 1 in a store that has no
    session. *)
Theorem run_keeps_invariant (events : list Event) :
  (0 <= currentQuestionIndex (state (run loaded events)))%Z
  /\ NoDup (keys (answers (state (run loaded events))))
  /\ (in_flight (run loaded events) = [] ->
      isLoading (state (run loaded events)) = false)
  /\ (forall category response questionId answer is_complete,
        session_id response <> "" ->
        run loaded
            [ CallStartQuiz category;
              Settle 0 (StartReply (Resolved response));
              CallSubmitAnswer questionId answer;
              Reset;
              Settle 0 (SubmitReply (Resolved is_complete)) ]
        = {| state :=
               {| sessionId := None;
                  sessionToken := None;
                  quiz_category := None;
                  questions := [];
                  currentQuestionIndex := 1;
                  answers := [(questionId, answer)];
                  previousShoes := [];
                  isLoading := false;
                  error := None;
                  isComplete := is_complete;
                  recommendationId := None;
                  recommendations := [] |};
             in_flight := [] |}).
Proof.
  destruct (run_invariant loaded events loaded_invariant)
    as (Hidx & Hnd & Hload & _).
  split; [exact Hidx|]. split; [exact Hnd|]. split; [exact Hload|].
  intros category response questionId answer is_complete Hsid.
  unfold run, loaded. cbn [fold_left step called acted startQuiz_begin
                           fst snd state in_flight app nth_error resume
                           firstn skipn startQuiz_end].
  unfold submitAnswer_begin, no_session.
  cbn [sessionId].
  destruct (session_id response) as [|c sid] eqn:E; [congruence|].
  reflexivity.
Qed.

(** X17. Going back after an answer was accepted returns to the question
    answered and keeps the answer, the other answers and the
    [isComplete] flag the submission set; submitting the same answer
    again gives the state of the first submission. *)
Theorem submit_then_back (s : QuizState) (questionId : string)
    (answer : json) (is_complete : bool) :
  no_session s = false -> (0 <= currentQuestionIndex s)%Z ->
  let s1 := submitAnswer questionId answer (Resolved is_complete) s in
  let s2 := goBack s1 in
  currentQuestionIndex s2 = currentQuestionIndex s
  /\ dict_get (answers s2) questionId JNull = answer
  /\ (forall other,
        other <> questionId ->
        dict_get (answers s2) other JNull = dict_get (answers s) other JNull)
  /\ isComplete s2 = is_complete
  /\ submitAnswer questionId answer (Resolved is_complete) s2 = s1.
Proof.
  intros Hs Hidx. cbv zeta.
  unfold submitAnswer at 1 2 3 4 6. rewrite Hs. unfold goBack. simpl.
  destruct (Z.ltb_spec 0 (currentQuestionIndex s + 1)); [|lia]. simpl.
  split; [lia|]. split; [apply dict_get_set_same|].
  split; [intros other Hne; now apply dict_get_set_other|].
  split; [reflexivity|].
  unfold submitAnswer, no_session in *. simpl.
  destruct (sessionId s) as [[|c0 sid]|]; try discriminate Hs.
  rewrite dict_set_twice. f_equal. lia.
Qed.

Lemma set_previousShoes_same (s : QuizState) :
  set_previousShoes s (previousShoes s) = s.
Proof. destruct s; reflexivity. Qed.

Lemma filter_index_outside {A : Type} (l : list A) (i index : Z) :
  (index < i \/ i + Z.of_nat (List.length l) <= index)%Z ->
  filter_index l i index = l.
Proof.
  revert i. induction l as [|x l IH]; intros i H; [reflexivity|].
  cbn [filter_index]. cbn [List.length] in H.
  destruct (Z.eqb_spec i index); [lia|].
  rewrite IH by lia. reflexivity.
Qed.

Lemma filter_index_inside {A : Type} (l : list A) (i : Z) (n : nat) :
  (n < List.length l)%nat ->
  filter_index l i (i + Z.of_nat n) = remove_nth n l.
Proof.
  revert i n. induction l as [|x l IH]; intros i n Hn; [simpl in Hn; lia|].
  cbn [filter_index]. destruct n as [|n].
  - rewrite Z.add_0_r, Z.eqb_refl.
    rewrite filter_index_outside by lia. reflexivity.
  - destruct (Z.eqb_spec i (i + Z.of_nat (S n))); [lia|].
    replace (i + Z.of_nat (S n))%Z with (i + 1 + Z.of_nat n)%Z by lia.
    rewrite IH by (simpl in Hn; lia). reflexivity.
Qed.

(** X18. [removePreviousShoe] removes the shoe at the index given and no
    other when the index is a position of the list, and changes nothing
    for any other index; removing the position of a shoe just added gives
    the state before it was added. *)
Theorem removePreviousShoe_spec (s : QuizState) (index : Z)
    (shoe : PreviousShoe) :
  ((0 <= index < Z.of_nat (List.length (previousShoes s)))%Z ->
   previousShoes (removePreviousShoe index s)
   = remove_nth (Z.to_nat index) (previousShoes s))
  /\ ((index < 0 \/ Z.of_nat (List.length (previousShoes s)) <= index)%Z ->
      removePreviousShoe index s = s)
  /\ removePreviousShoe (Z.of_nat (List.length (previousShoes s)))
       (addPreviousShoe shoe s)
     = s.
Proof.
  split; [|split].
  - intros Hin. unfold removePreviousShoe, set_previousShoes. simpl.
    replace index with (0 + Z.of_nat (Z.to_nat index))%Z at 1 by lia.
    apply filter_index_inside. lia.
  - intros Hout. unfold removePreviousShoe.
    rewrite filter_index_outside by lia. apply set_previousShoes_same.
  - unfold removePreviousShoe, addPreviousShoe, set_previousShoes. simpl.
    replace (Z.of_nat (List.length (previousShoes s)))
      with (0 + Z.of_nat (List.length (previousShoes s)))%Z by lia.
    rewrite filter_index_inside by (rewrite length_app; simpl; lia).
    unfold remove_nth.
    rewrite firstn_app, firstn_all, Nat.sub_diag, skipn_all2
      by (rewrite length_app; simpl; lia).
    simpl. rewrite !app_nil_r. destruct s; reflexivity.
Qed.

End QuizStoreProps.

(** ** The quiz page *)

Module QuizPageProps.

Import Py PyFacts QuizStore QuizPage.
Import Vocabulary MoreVocabulary.

Lemma without_In (value : string) (l : list string) (x : string) :
  In x (without value l) <-> In x l /\ x <> value.
Proof.
  unfold without. rewrite filter_In, negb_true_iff, String.eqb_neq. tauto.
Qed.

Lemma without_absent (value : string) (l : list string) :
  ~ In value l -> without value l = l.
Proof.
  unfold without. induction l as [|y l IH]; simpl; intros H; [reflexivity|].
  destruct (String.eqb_spec y value) as [->|Hne]; simpl.
  - exfalso. apply H. now left.
  - rewrite IH by tauto. reflexivity.
Qed.

Lemma without_length (value : string) (l : list string) :
  (List.length (without value l) <= List.length l)%nat.
Proof. unfold without. apply filter_length_le. Qed.

(** X19. On a multi-select question ['none'] is exclusive: an answer that
    a click submits is exactly [['none']] or holds no ['none'], an answer
    stored for later holds no ['none'] and no more values than
    [max_select] allows, and a click is dropped only when the answer holds
    [max_select] values or more already. *)
Theorem handleOptionSelect_none_exclusive (question : Question)
    (currentAnswer : option (list string)) (value : string) :
  question_type question = "multi_select" ->
  match handleOptionSelect (Some question) false currentAnswer value with
  | Submit answer =>
      (value = "none" /\ answer = ["none"])
      \/ (value <> "none" /\ ~ In "none" answer
          /\ In "none" (or_list currentAnswer))
  | StoreLocally answer =>
      value <> "none" /\ ~ In "none" answer
      /\ forall m, max_select question = Some (S m) ->
                   (List.length answer <= S m)%nat
  | Nothing =>
      exists m, max_select question = Some (S m)
                /\ (S m <= List.length (or_list currentAnswer))%nat
  | SubmitSingle _ => False
  end.
Proof.
  intros Htype. unfold handleOptionSelect. rewrite Htype, String.eqb_refl.
  cbv zeta.
  set (cur := or_list currentAnswer).
  set (newAnswer := if str_in value cur then without value cur
                    else (cur ++ [value])%list).
  destruct (String.eqb_spec value "none") as [Hv|Hv]; [left; auto|].
  destruct (str_in "none" newAnswer) eqn:Enone.
  - right. split; [exact Hv|]. split.
    + intros Hin. apply without_In in Hin. tauto.
    + apply str_in_In in Enone. unfold newAnswer in Enone.
      destruct (str_in value cur).
      * apply without_In in Enone. tauto.
      * apply in_app_or in Enone. destruct Enone as [H|[H|[]]]; [exact H|].
        congruence.
  - apply str_in_false in Enone.
    destruct (max_select question) as [[|m]|] eqn:Emax.
    + split; [exact Hv|]. split; [exact Enone | discriminate].
    + destruct (Nat.ltb_spec (S m) (List.length newAnswer)) as [Hlt|Hle].
      * exists m. split; [reflexivity|]. unfold newAnswer in Hlt.
        destruct (str_in value cur).
        -- pose proof (without_length value cur). lia.
        -- rewrite length_app in Hlt. simpl in Hlt. lia.
      * split; [exact Hv|]. split; [exact Enone|].
        intros m' Hm'. injection Hm' as <-. exact Hle.
    + split; [exact Hv|]. split; [exact Enone | discriminate].
Qed.

Lemma handleOptionSelect_stores_none_free (question : Question)
    (currentAnswer : option (list string)) (value : string)
    (answer : list string) :
  question_type question = "multi_select" ->
  handleOptionSelect (Some question) false currentAnswer value
  = StoreLocally answer ->
  value <> "none" /\ ~ In "none" answer
  /\ forall m, max_select question = Some (S m) ->
               (List.length answer <= S m)%nat.
Proof.
  intros Htype. unfold handleOptionSelect.
  rewrite Htype, String.eqb_refl. cbv zeta.
  set (cur := or_list currentAnswer).
  set (newAnswer := if str_in value cur then without value cur
                    else (cur ++ [value])%list).
  destruct (String.eqb_spec value "none") as [Hv|Hv]; [discriminate|].
  destruct (str_in "none" newAnswer) eqn:Enone; [discriminate|].
  apply str_in_false in Enone.
  destruct (max_select question) as [[|m]|] eqn:Emax.
  - intros H. injection H as <-. split; [exact Hv|].
    split; [exact Enone | discriminate].
  - destruct (Nat.ltb_spec (S m) (List.length newAnswer)) as [Hlt|Hle];
      [discriminate|].
    intros H. injection H as <-. split; [exact Hv|]. split; [exact Enone|].
    intros m' Hm'. injection Hm' as <-. exact Hle.
  - intros H. injection H as <-. split; [exact Hv|].
    split; [exact Enone | discriminate].
Qed.

(** X20. Selecting a value and selecting it again is a round trip: when a
    click on a value that is not in the answer stores a new answer, that
    answer is the old one with the value at its end, and a second click
    on the value stores the old answer again. *)
Theorem handleOptionSelect_toggle (question : Question)
    (currentAnswer : option (list string)) (value : string)
    (answer : list string) :
  question_type question = "multi_select" ->
  ~ In value (or_list currentAnswer) ->
  handleOptionSelect (Some question) false currentAnswer value
  = StoreLocally answer ->
  answer = (or_list currentAnswer ++ [value])%list
  /\ handleOptionSelect (Some question) false (Some answer) value
     = StoreLocally (or_list currentAnswer).
Proof.
  intros Htype Hnew Hstore.
  pose proof (handleOptionSelect_stores_none_free question currentAnswer
                value answer Htype Hstore) as (Hv & Hnone & Hmax).
  assert (Hanswer : answer = (or_list currentAnswer ++ [value])%list).
  { revert Hstore. unfold handleOptionSelect.
    rewrite Htype, String.eqb_refl. cbv zeta.
    apply str_in_false in Hnew. rewrite Hnew.
    apply String.eqb_neq in Hv. rewrite Hv.
    destruct (str_in "none" (or_list currentAnswer ++ [value]));
      [discriminate|].
    destruct (max_select question) as [[|m]|];
      try (intros H; now injection H as <-).
    destruct (S m <? _)%nat; [discriminate|].
    intros H. now injection H as <-. }
  split; [exact Hanswer|]. subst answer.
  unfold handleOptionSelect. rewrite Htype, String.eqb_refl. cbv zeta.
  cbn [or_list].
  assert (Hin : str_in value (or_list currentAnswer ++ [value]) = true).
  { apply str_in_In. apply in_or_app. right. now left. }
  rewrite Hin.
  assert (Hback : without value (or_list currentAnswer ++ [value])
                  = or_list currentAnswer).
  { unfold without. rewrite filter_app. fold (without value (or_list currentAnswer)).
    rewrite (without_absent _ _ Hnew). simpl.
    rewrite String.eqb_refl. simpl. apply app_nil_r. }
  rewrite Hback.
  apply String.eqb_neq in Hv. rewrite Hv.
  assert (Hclean : str_in "none" (or_list currentAnswer) = false).
  { apply str_in_false. intros H. apply Hnone. apply in_or_app. now left. }
  rewrite Hclean.
  destruct (max_select question) as [[|m]|] eqn:Emax; try reflexivity.
  specialize (Hmax m eq_refl). rewrite length_app in Hmax. simpl in Hmax.
  destruct (Nat.ltb_spec (S m) (List.length (or_list currentAnswer)));
    [lia | reflexivity].
Qed.

End QuizPageProps.

(** ** Worked cases of the query, the store and the page *)

Module FrontCases.

Import Py PyFacts MatchingQuery QuizStore QuizPage.
Import Vocabulary MoreVocabulary.
Import QueryProps QuizStoreProps QuizPageProps.
Import Cases MoreCases.

Lemma match_score_range_witness :
  exists q, match_score user_prefs cushioned_row = Some q /\ 1.5 <= q <= 2.5.
Proof.
  eexists. split; [reflexivity|].
  destruct (match_score_range user_prefs cushioned_row) as [_ Hrange].
  - simpl. split; lra.
  - simpl. split; lra.
  - intros x Hx. simpl in Hx. injection Hx as <-. split; lra.
  - intros x Hx. simpl in Hx. injection Hx as <-. split; lra.
  - apply Hrange. reflexivity.
Defined.

Lemma submit_then_back_witness :
  currentQuestionIndex
    (goBack (submitAnswer "foot_issues" (JString "none") (Resolved true)
               started))
  = 0%Z
  /\ isComplete
       (goBack (submitAnswer "foot_issues" (JString "none") (Resolved true)
                  started))
     = true.
Proof.
  destruct (submit_then_back started "foot_issues" (JString "none") true)
    as (Hidx & _ & _ & Hdone & _); [reflexivity | simpl; lia |].
  split; [exact Hidx | exact Hdone].
Defined.

Lemma handleOptionSelect_none_exclusive_witness :
  handleOptionSelect (Some issues_question) false (Some ["none"]) "bunions"
  = Submit ["bunions"]
  /\ ~ In "none" ["bunions"].
Proof.
  split; [reflexivity|].
  pose proof (handleOptionSelect_none_exclusive issues_question
                (Some ["none"]) "bunions" eq_refl) as H.
  simpl in H. destruct H as [[H _]|(_ & H & _)]; [discriminate H | exact H].
Defined.

Lemma handleOptionSelect_toggle_witness :
  handleOptionSelect (Some issues_question) false
    (Some ["bunions"; "flat_feet"]) "flat_feet"
  = StoreLocally ["bunions"].
Proof.
  apply (handleOptionSelect_toggle issues_question (Some ["bunions"])
           "flat_feet" ["bunions"; "flat_feet"]).
  - reflexivity.
  - simpl. intuition discriminate.
  - reflexivity.
Defined.

End FrontCases.

(** ** Weights and scores *)

Module WeightProps.

Import Py PyFacts Scoring Optimizer FactorProps MatchProps EngineProps.
Import Vocabulary MoreVocabulary.
Import OrderProps OptimizerProps UpdateProps.

Section WithFactors.

Context `{F : Factors}.

Section WithOracle.

Context `{O : Oracle}.

(** X22. Updates keep the weights fit for scoring: from weights with
    distinct keys that lie within the clamp range [0.1, 3], an update
    that returns gives weights with distinct keys within the clamp range
    again, and when there is a weight at all, [calculate_match_score]
    with the updated weights returns a score for every shoe and
    profile. *)
Theorem update_keeps_scores_defined (opt opt' : WeightOptimizer)
    (examples : list TrainingExample) :
  NoDup (keys (weights opt)) ->
  in_clamp_range (weights opt) ->
  update_from_examples opt examples = Some opt' ->
  NoDup (keys (weights opt'))
  /\ in_clamp_range (weights opt')
  /\ (weights opt <> [] ->
      forall shoe up,
      exists q, calculate_match_score shoe up (weights opt') = Some q).
Proof.
  intros Hnd Hrange Hup. unfold update_from_examples in Hup.
  destruct (apply_adjustments_keys _ _ _ Hup) as [Hkeys _].
  assert (Hnd' : NoDup (keys (weights opt'))) by now rewrite Hkeys.
  assert (Hrange' : in_clamp_range (weights opt')).
  { intros k v Hin.
    rewrite <- (dict_get_NoDup (weights opt') k v 0 Hnd' Hin).
    destruct (in_dec string_dec k (keys (collect_adjustments examples)))
      as [Hadj|Hadj].
    - exact (apply_adjustments_clamped _ _ _ k 0 Hup Hadj).
    - rewrite (apply_adjustments_untouched _ _ _ k 0 Hup Hadj).
      apply (Hrange k). apply dict_get_In. rewrite <- Hkeys.
      change k with (fst (k, v)). now apply in_map. }
  split; [exact Hnd'|]. split; [exact Hrange'|].
  intros Hne shoe up. apply calculate_match_score_total.
  assert (Hpos : 0 < sum (values (weights opt'))).
  { apply sum_pos_bound with (lo := 0.1).
    - reflexivity.
    - intros E. apply Hne. apply keys_nil. rewrite <- Hkeys.
      unfold values in E. apply map_eq_nil in E. now rewrite E.
    - intros q Hq. unfold values in Hq. apply in_map_iff in Hq.
      destruct Hq as ([k v] & <- & Hin). simpl.
      apply Hrange' in Hin. tauto. }
  intros E. rewrite E in Hpos. discriminate Hpos.
Qed.

End WithOracle.

End WithFactors.

End WeightProps.

(** ** The answer of a multi-select question *)

Module AnswerProps.

Import Py PyFacts QuizStore QuizPage QuizPageProps.
Import Vocabulary MoreVocabulary.

Lemma without_NoDup (value : string) (l : list string) :
  NoDup l -> NoDup (without value l).
Proof. unfold without. apply NoDup_filter. Qed.

Lemma without_none_only (value : string) :
  value <> "none" -> without "none" (["none"] ++ [value]) = [value].
Proof.
  intros Hv. unfold without. simpl.
  apply String.eqb_neq in Hv. now rewrite Hv.
Qed.

(** X23. Every click keeps the answer of a multi-select question well
    formed: from no answer, [['none']] or values without repetition,
    without ['none'] and within [max_select], the answer a click stores
    or submits is again [['none']] or such a list of values; and
    [handleMultiSelectSubmit] submits the stored answer as it is, and
    nothing when no value is selected. *)
Theorem clicks_keep_answer_well_formed (question : Question)
    (currentAnswer : option (list string)) (value : string) :
  question_type question = "multi_select" ->
  well_formed question currentAnswer ->
  (forall answer,
      handleOptionSelect (Some question) false currentAnswer value
      = StoreLocally answer
      \/ handleOptionSelect (Some question) false currentAnswer value
         = Submit answer ->
      well_formed question (Some answer))
  /\ (forall answer,
        handleMultiSelectSubmit (Some question) false currentAnswer
        = Submit answer ->
        currentAnswer = Some answer /\ answer <> [])
  /\ (or_list currentAnswer = [] ->
      handleMultiSelectSubmit (Some question) false currentAnswer = Nothing).
Proof.
  intros Htype Hwf. split; [|split].
  - intros answer Heffect.
    assert (Hnew : forall a,
               (if str_in value (or_list currentAnswer)
                then without value (or_list currentAnswer)
                else (or_list currentAnswer ++ [value])%list) = a ->
               ~ In "none" (or_list currentAnswer) ->
               NoDup a).
    { intros a <- Hclean.
      assert (Hnd : NoDup (or_list currentAnswer)).
      { destruct currentAnswer as [cur|]; simpl; [|constructor].
        destruct Hwf as [->|(H & _)]; [|exact H].
        exfalso. apply Hclean. now left. }
      destruct (str_in value (or_list currentAnswer)) eqn:E.
      - now apply without_NoDup.
      - apply str_in_false in E. apply NoDup_app.
        + exact Hnd.
        + constructor; [tauto | constructor].
        + intros x Hx [<-|[]]. contradiction. }
    destruct Heffect as [Hstore|Hsubmit].
    + pose proof (handleOptionSelect_stores_none_free question currentAnswer
                    value answer Htype Hstore) as (Hv & Hnone & Hmax).
      right. split; [|split; assumption].
      revert Hstore. unfold handleOptionSelect.
      rewrite Htype, String.eqb_refl. cbv zeta.
      apply String.eqb_neq in Hv. rewrite Hv.
      set (newAnswer := if str_in value (or_list currentAnswer)
                        then without value (or_list currentAnswer)
                        else (or_list currentAnswer ++ [value])%list).
      destruct (str_in "none" newAnswer) eqn:Enone; [discriminate|].
      assert (Hclean : ~ In "none" (or_list currentAnswer)).
      { apply str_in_false in Enone. intros Hin. apply Enone.
        unfold newAnswer.
        destruct (str_in value (or_list currentAnswer)).
        - apply without_In. split; [exact Hin|].
          apply String.eqb_neq in Hv. congruence.
        - apply in_or_app. now left. }
      assert (Hnd : NoDup newAnswer) by (apply (Hnew newAnswer); auto).
      destruct (max_select question) as [[|m]|];
        try (intros H; injection H as <-; exact Hnd).
      destruct (S m <? List.length newAnswer)%nat; [discriminate|].
      intros H. injection H as <-. exact Hnd.
    + revert Hsubmit. unfold handleOptionSelect.
      rewrite Htype, String.eqb_refl. cbv zeta.
      destruct (String.eqb_spec value "none") as [Hv|Hv].
      { intros H. injection H as <-. now left. }
      set (newAnswer := if str_in value (or_list currentAnswer)
                        then without value (or_list currentAnswer)
                        else (or_list currentAnswer ++ [value])%list).
      destruct (str_in "none" newAnswer) eqn:Enone.
      2: { destruct (max_select question) as [[|m]|]; try discriminate.
           destruct (S m <? List.length newAnswer)%nat; discriminate. }
      intros H. injection H as <-.
      (* ['none'] is in the answer: the answer is [['none']] *)
      assert (Hin : In "none" (or_list currentAnswer)).
      { apply str_in_In in Enone. unfold newAnswer in Enone.
        destruct (str_in value (or_list currentAnswer)).
        - apply without_In in Enone. tauto.
        - apply in_app_or in Enone.
          destruct Enone as [H|[H|[]]]; [exact H | congruence]. }
      assert (Hcur : currentAnswer = Some ["none"]).
      { destruct currentAnswer as [cur|]; simpl in Hin; [|contradiction].
        destruct Hwf as [->|(_ & H & _)]; [reflexivity | contradiction]. }
      subst currentAnswer. unfold newAnswer. cbn [or_list].
      assert (E : str_in value ["none"] = false).
      { apply str_in_false. intros [H|[]]. congruence. }
      rewrite E, (without_none_only value Hv).
      right. split; [repeat constructor; simpl; tauto|].
      split; [intros [H|[]]; congruence|].
      intros m _. simpl. lia.
  - intros answer. unfold handleMultiSelectSubmit.
    destruct currentAnswer as [[|v rest]|]; try discriminate.
    intros H. injection H as <-. split; [reflexivity | discriminate].
  - unfold handleMultiSelectSubmit.
    destruct currentAnswer as [[|v rest]|]; simpl; try reflexivity.
    discriminate.
Qed.

End AnswerProps.

(** ** The completeness check of the shoe edit page *)

Module EditPageProps.

Import Py PyFacts ShoeEditPage.
Import Vocabulary MoreVocabulary.

Lemma push_if_blank_labels (missing : list string) (field label : string) :
  push_if_blank missing field label
  = (missing ++ blank_labels [(field, label)])%list.
Proof.
  unfold push_if_blank, blank_labels. simpl.
  destruct (blank field); simpl; [reflexivity | now rewrite app_nil_r].
Qed.

Lemma blank_labels_app (c1 c2 : list (string * string)) :
  blank_labels (c1 ++ c2) = (blank_labels c1 ++ blank_labels c2)%list.
Proof. unfold blank_labels. now rewrite filter_app, map_app. Qed.

Lemma blank_labels_cons (c c' : string * string)
    (checks : list (string * string)) :
  blank_labels (c :: c' :: checks)
  = (blank_labels [c] ++ blank_labels (c' :: checks))%list.
Proof. apply (blank_labels_app [c] (c' :: checks)). Qed.

Lemma getMissingFields_labels (shoe_category : option string)
    (basicInfo : BasicInfo) (runningAttrs : RunningAttrs)
    (basketballAttrs : BasketballAttrs) :
  getMissingFields shoe_category basicInfo runningAttrs basketballAttrs
  = blank_labels
      (checks_of shoe_category basicInfo runningAttrs basketballAttrs).
Proof.
  unfold getMissingFields, checks_of. cbv zeta.
  destruct (category_is shoe_category "running");
    destruct (category_is shoe_category "basketball");
    unfold running_checks, basketball_checks;
    rewrite !push_if_blank_labels; cbn [app];
    rewrite ?blank_labels_cons, <- ?app_assoc; reflexivity.
Qed.

Lemma blank_labels_nil (checks : list (string * string)) :
  blank_labels checks = []
  <-> forall field label, In (field, label) checks -> field <> "".
Proof.
  unfold blank_labels. induction checks as [|[f l] checks IH]; simpl.
  - split; [intros _ ? ? [] | reflexivity].
  - destruct f as [|c f]; simpl.
    + split; [discriminate|]. intros H. exfalso.
      now apply (H "" l (or_introl eq_refl)).
    + rewrite IH. split.
      * intros H f' l' [E|Hin]; [inversion E; discriminate | eauto].
      * intros H f' l' Hin. apply (H f' l'). now right.
Qed.

Lemma blank_labels_NoDup (checks : list (string * string)) :
  NoDup (map snd checks) -> NoDup (blank_labels checks).
Proof.
  unfold blank_labels. induction checks as [|[f l] checks IH]; simpl;
    intros H; [constructor|].
  inversion H as [|? ? Hnotin Hnd]; subst.
  destruct (blank f); simpl; [|auto].
  constructor; [|auto]. intros Hin. apply Hnotin.
  apply in_map_iff in Hin. destruct Hin as (c & Hc & Hin').
  apply filter_In in Hin'. apply in_map_iff. exists c. tauto.
Qed.

Lemma category_not_both (shoe_category : option string) :
  category_is shoe_category "running" = true ->
  category_is shoe_category "basketball" = false.
Proof.
  destruct shoe_category as [c|]; simpl; [|discriminate].
  intros H. apply String.eqb_eq in H. now subst c.
Qed.

(** X24. [getMissingFields] lists a label for each checked field that is
    empty and nothing else: the price for every shoe, eight fields for a
    running shoe, three for a basketball shoe. It returns the empty list
    exactly when all of these are filled, and although the two blocks
    share the labels Weight and Cushion Type, no label appears twice. *)
Theorem getMissingFields_complete (shoe_category : option string)
    (basicInfo : BasicInfo) (runningAttrs : RunningAttrs)
    (basketballAttrs : BasketballAttrs) :
  (getMissingFields shoe_category basicInfo runningAttrs basketballAttrs = []
   <-> forall field label,
         In (field, label)
            (checks_of shoe_category basicInfo runningAttrs basketballAttrs) ->
         field <> "")
  /\ (forall label,
        In label
           (getMissingFields shoe_category basicInfo runningAttrs
              basketballAttrs)
        <-> In ("", label)
               (checks_of shoe_category basicInfo runningAttrs
                  basketballAttrs))
  /\ NoDup (getMissingFields shoe_category basicInfo runningAttrs
              basketballAttrs).
Proof.
  rewrite getMissingFields_labels. split; [apply blank_labels_nil|]. split.
  - intros label. unfold blank_labels. rewrite in_map_iff. split.
    + intros ([f l] & <- & Hin). apply filter_In in Hin. simpl in *.
      destruct Hin as [Hin Hb]. destruct f; [exact Hin | discriminate].
    + intros Hin. exists ("", label). split; [reflexivity|].
      apply filter_In. split; [exact Hin | reflexivity].
  - apply blank_labels_NoDup. unfold checks_of.
    destruct (category_is shoe_category "running") eqn:Er.
    + rewrite (category_not_both _ Er). simpl.
      repeat (constructor; [simpl; intuition discriminate|]). constructor.
    + destruct (category_is shoe_category "basketball"); simpl;
        repeat (constructor; [simpl; intuition discriminate|]); constructor.
Qed.

End EditPageProps.

(** ** Worked cases of the weights, the answers and the edit page *)

Module FurtherCases.

Import Py PyFacts Scoring Optimizer OrderProps OptimizerProps UpdateProps.
Import Vocabulary MoreVocabulary.
Import QuizStore QuizPage QuizPageProps WeightProps AnswerProps.
Import EditPageProps.
Import Cases MoreCases.

Lemma update_keeps_scores_defined_witness :
  in_clamp_range proposed_weights
  /\ exists q,
       @calculate_match_score all_ones road_shoe runner proposed_weights
       = Some q.
Proof.
  destruct (@update_keeps_scores_defined all_ones terrain_oracle
              (init DEFAULT_WEIGHTS)
              {| weights := proposed_weights; learning_rate := 0.1 |}
              [correction])
    as (_ & Hrange & Hscore).
  - exact ScoringCases.default_weights_keys.
  - exact PipelineCases.default_weights_in_range.
  - vm_compute. reflexivity.
  - split; [exact Hrange|]. apply Hscore. discriminate.
Defined.

Lemma clicks_keep_answer_well_formed_witness :
  well_formed issues_question (Some ["bunions"; "flat_feet"]).
Proof.
  destruct (clicks_keep_answer_well_formed issues_question
              (Some ["bunions"]) "flat_feet") as (Hclick & _ & _).
  - reflexivity.
  - right. split; [repeat constructor; simpl; tauto|].
    split; [simpl; intuition discriminate|].
    intros m Hm. injection Hm as <-. simpl. lia.
  - apply Hclick. left. reflexivity.
Defined.

Lemma getMissingFields_complete_witness :
  ShoeEditPage.getMissingFields (Some "running") filled_info zero_drop_attrs
    no_basketball_attrs
  = [].
Proof.
  destruct (getMissingFields_complete (Some "running") filled_info
              zero_drop_attrs no_basketball_attrs) as [[_ Hnil] _].
  apply Hnil. intros field label Hin. simpl in Hin.
  repeat (destruct Hin as [Hin|Hin];
          [injection Hin as <- _; discriminate|]).
  contradiction.
Defined.

End FurtherCases.

(** ** Products flagged for a stated condition *)

Module FlagProps.

Import Py PyFacts Scoring FactorProps IssueOrder MatchProps EngineProps.
Import Vocabulary MoreVocabulary.
Import OrderProps ScoreRange.

(** *** Powers of the two multipliers *)










(** *** Weights over the default factor names *)




Section WithFactors.

Context `{F : Factors}.




End WithFactors.

End FlagProps.

(** ** Worked cases of flagged products *)

Module FlagCases.

Import Py PyFacts Scoring FactorProps IssueOrder MatchProps EngineProps.
Import Vocabulary MoreVocabulary.
Import OrderProps ScoreRange FlagProps.
Import Cases MoreCases.
Import ScoreRangeCases.



(** The two scores of the case, by evaluation. *)
Example flagged_and_clean_scores :
  exists qf qc,
    @calculate_match_score all_ones flagged_shoe sore_runner DEFAULT_WEIGHTS
    = Some qf
    /\ @calculate_match_score all_ones clean_shoe sore_runner DEFAULT_WEIGHTS
       = Some qc
    /\ qc - qf == 1.62 / 15.2.
Proof.
  eexists. eexists.
  split; [vm_compute; reflexivity|]. split; [vm_compute; reflexivity|].
  reflexivity.
Qed.

(** The list with the other product first is in the order of the
    scores. *)
Example clean_first_is_descending :
  @by_descending_score all_ones sore_runner DEFAULT_WEIGHTS
    [clean_shoe; flagged_shoe].
Proof.
  intros a b qa qb (before & middle & after & E) Ha Hb.
  assert (Hab : a = clean_shoe /\ b = flagged_shoe).
  { destruct before as [|s0 [|s1 [|s2 before]]];
      destruct middle as [|s3 [|s4 middle]];
      cbn [app] in E; try discriminate E.
    inversion E. auto. }
  destruct Hab as [-> ->].
  vm_compute in Ha. vm_compute in Hb.
  inversion Ha; subst qa. inversion Hb; subst qb.
  unfold Qle. simpl. lia.
Qed.


End FlagCases.
